(* ===== verification/_CoqProject ===== *)
-Q . S2P
Prelude.v
Runtime.v
Control.v
Patterns.v
Validators.v
Wizard.v
Steps.v
Client.v
Voting.v
Setup.v
Top.v
Shell.v
Release.v
FlakeInput.v
PackageGen.v
