(* ===== verification/Prelude.v ===== *)
(** * A verification development of the Tezos voting wizard

    This library models, in Rocq, the interactive voting wizard of
    tezos-packaging ([src/baking/src/tezos_baking/tezos_voting_wizard.py])
    and the packaging helper scripts under [src/docker] and [src/scripts],
    and proves the properties that make them correct.

    ** The program and its parts

    The wizard is a Python program that talks to an operator on a terminal
    and to external processes ([octez-client], [systemctl], [sleep]).
    Its parts, leaf to root, and the file of this library that models each:

    - [Prelude]: this file.  Python exceptions ([exn]), a state and
      exception monad [PyM] with stdpp's [MRet]/[MBind]/[MThrow] instances,
      the string functions the code uses ([contains] for a literal
      [re.search], [lower], [strip]-blankness, [str] of a number), the
      tactics and the hint database [wiz] shared by the other files.
    - [Runtime]: the world the program runs in: the remaining lines of
      standard input, an oracle for every external command (indexed by the
      number of commands already run, so that polling loops see changing
      answers), an oracle for HTTP reachability, the wizard's configuration
      dictionary ([self.config], a [gmap string value]) and the trace of
      what the program printed, logged and ran.  Its primitive actions
      ([input], [print], [get_proc_output], [proc_call], [cfg_get], ...)
      are the only ways the other files touch the world.
    - [Patterns]: the regular expressions of the code as executable
      matchers: [Current period: "(\w+)"] ([search_current_period]) and the
      protocol-hash regex with [re.findall] ([findall_protocol_hashes]).
    - [Validators]: the validator chain ([Validator], [validate]) and the
      predicates [required_field], [enum_range], [protocol_hash],
      [reachable_url] and [any_of] (the module [tezos_baking.validators],
      which is not under src/: modelled from the spec, section 4.2).
    - [Wizard]: the [Step] record and the engine [query_step] (from
      [tezos_baking.wizard_structure], not under src/: modelled from the
      spec, section 4.1) and the yes/no prompt.
    - [Steps]: the steps of the voting wizard (lines 24-186 of the wizard).
    - [Client]: the octez-client adapter of the wizard: the client options,
      ledger detection and [wait_for_ledger_app] (lines 68-85).
    - [Voting]: the voting-period controller: [fill_voting_period_info],
      [process_proposal_period] and [process_voting_period]
      (lines 302-454), with an abstract classification of submission
      failures (spec, section 4.4) and refinement theorems relating the two.
    - [Control]: Python's [try]/[except]/[finally] ([py_try],
      [py_finally]) over [PyM], truthiness, and two predicates on
      operations with their tactics: [Establishes] (the keys an operation
      leaves in the configuration, tactic [est]) and [Guarded] (no
      running out of fuel from worlds satisfying a stable hypothesis,
      tactic [guarded]).
    - [Setup]: the baking environment setup (lines 189-300):
      [check_baking_service], [check_data_correctness],
      [search_client_config], [collect_baking_info] with its local and
      default branches and its confirmation loop, [get_baker_key],
      [get_network].  The key-management methods of [wizard_structure]
      that it calls are the class [WizardStructure] (operations and the
      laws [Safe] for each), against which every theorem of [Setup] and
      [Top] is proved; [spec_structure] is an instance modelled from the
      spec, used by the witnesses.  The global [key_import_modes], which
      the code mutates with [pop], is passed explicitly.
    - [Top]: [run_voting] (lines 456-504), which composes [get_network],
      [collect_baking_info], the ledger wait and the dispatch on the
      period, and [main] (lines 507-537), which maps every exception to
      exit status 1.
    - [Shell]: the world of the packaging scripts: environment, directory
      listings, [shutil.which], an oracle for command exit statuses, file
      contents, the commands run and the lines printed; the predicate
      [Runs cmds m] (what commands a script runs, in order).
    - [Release]: [sign.py], [upload.py] and the signing/upload part of
      [docker-tezos-packages.py], with [argparse] namespaces as association
      lists (a missing attribute raises [AttributeError]).
    - [FlakeInput]: [src/scripts/update-input.py]: [readlines] with the
      universal-newline translation of text mode, the url regex as a
      matcher, [re.sub] and the script.
    - [PackageGen]: [src/docker/package/package_generator.py]: the
      dependency lists, the source-archive checks (local and Launchpad),
      the builds and the artifact copy, with the package table, the
      builders and the downloader as section parameters.

    The files depend on each other in the order of [_CoqProject]: the
    wizard files on [Prelude] and [Runtime], [Setup] on the steps and the
    client, [Top] on [Voting] and [Setup]; the packaging files on
    [Shell].

    ** What the theorems show

    - Functional behaviour of each handler on every branch, errors
      included: the submission handlers ([Voting]), [check_baking_service]
      and the setup branches ([Setup]), the period dispatch and the exit
      status ([Top]), every branch of [upload.main] and [sign.main]
      ([Release]), the flake update ([FlakeInput]) and the generator's
      runs ([PackageGen]); the local setup branch stores the client
      options and the voter key it looked up.
    - Refinement and equivalence: the submission handler against the
      spec's classification, [query_step] against a pure specification,
      the period matcher against the leftmost-match meaning of [re.search],
      the hash scanner against the meaning of [re.findall] (the leftmost
      matches, without overlap, to the end of the text), the [.*-rc] regex against its meaning, the source-archive loop
      against a map and a filter, the artifact loop against a copy-once
      reference.
    - Invariants: the ballot step stores one of the three outcomes.
    - Termination and liveness: every loop that reads input ends within
      the input; the ledger poll ends once the ledger shows the app, after
      exactly one listing and one sleep per round up to it; the
      whole run of [main] never runs out of fuel when the ledger answers
      ([Client.Responsive]).
    - Round trips: the client's period line and hash listing are read
      back by the regexes; [readlines] gives back the text with
      its line breaks translated, and a [flake.nix] without the input is
      written back as so translated.
    - Error behaviour: the TypeError, AttributeError, NameError and
      KeyError paths of the setup, the signing and upload scripts and the
      flake update, and the exit before any build on missing sources.

    ** Effects, fuel and bounds

    Every operation is a function [world -> res A * world]: the trace of
    prints, logs and commands is kept newest first, so that "the program ran
    command c" is membership in the trace.  Loops whose every iteration
    reads a line of input ([query_step], [yes_or_no], the retry of
    [process_proposal_period], the confirmation loop of
    [collect_baking_info]) are given fuel one more than the number of
    remaining input lines, which is proved to be enough: they never run out
    of fuel, because reading past the end of input raises [EOFError] as
    Python's [input()] does.  The polling loop [wait_for_ledger_app] has no
    bound in the code; it takes explicit fuel, and a liveness theorem shows
    that it returns once the ledger answers, given fuel beyond that answer;
    [main] is proved under the hypothesis [Responsive fuel] that every
    poll finds the app within [fuel] listings.  [re.sub] in [FlakeInput]
    takes one step of fuel per character, which is enough since every
    match is followed by a shorter rest.

    ** Not modelled

    Terminal colours are kept as the escape sequences the code prints; the
    text of log lines is kept, their timestamps are not; [setup_logger],
    log files and readline completion are I/O and are not modelled.  Code
    that is not under src/ is modelled from the spec or taken as a
    parameter: [tezos_baking.validators] and [wizard_structure]
    (modelled), [package.util.build] ([call] modelled, [build.main] not),
    [packages.py] and the Ubuntu/Fedora builders (parameters of
    [PackageGen]).  [json.load] of [flake.lock] is a parameter of
    [FlakeInput], and the interpolated values of its regex are matched
    literally (the code does not escape them).  The package objects of
    [package_generator.py] are values in the model, not shared objects;
    [argparse] is modelled through the semantics of each declared option
    (its default, [const] and the exit status 2 of a missing value,
    [Prelude.given]), not as a parser of [sys.argv];
    the header of [PackageGen] says why this changes nothing [main]
    observes. *)

From stdpp Require Export base gmap strings list.
From Stdlib Require Export Ascii String DecimalString.

Declare Scope wiz_scope.
Delimit Scope wiz_scope with wiz.
Open Scope string_scope.
Open Scope nat_scope.
Open Scope list_scope.

Create HintDb wiz.
Create Rewrite HintDb wiz_rw.

(** ** Python exceptions

    The exceptions the modelled code raises or catches.  [OutOfFuel] is
    not a Python exception: it marks a model run whose fuel was spent. *)
Inductive exn :=
| KeyboardInterrupt
| EOFError
| OSError (msg : string)
| CalledProcessError (cmd : string)
| KeyError (key : string)
| IndexError
| AttributeError (msg : string)
| TypeError (msg : string)
| NameError (name : string)
| PyException (msg : string)
| URLError (reason : string)
| ValueError (msg : string)
| SystemExit (code : nat)
| OutOfFuel.

Inductive res (A : Type) :=
| Ok (a : A)
| Exn (e : exn).
Arguments Ok {A} a.
Arguments Exn {A} e.

(** [res] is itself an exception monad, for code that has no state. *)
#[export] Instance res_ret : MRet res := fun A a => Ok a.
#[export] Instance res_bind : MBind res := fun A B f r =>
  match r with Ok a => f a | Exn e => Exn e end.

(** ** A state and exception monad

    [PyM S A] threads a state of type [S] and returns a value or an
    exception, keeping the state reached when the exception was raised. *)
Definition PyM (S A : Type) : Type := S -> res A * S.

#[export] Instance PyM_ret {S} : MRet (PyM S) := fun A a s => (Ok a, s).
#[export] Instance PyM_bind {S} : MBind (PyM S) := fun A B k m s =>
  match m s with
  | (Ok a, s') => k a s'
  | (Exn e, s') => (Exn e, s')
  end.
#[export] Instance PyM_throw {S} : MThrow exn (PyM S) := fun A e s => (Exn e, s).

(** A Python [while] loop whose body reports whether to go on, with fuel. *)
Fixpoint while_fuel {St} (fuel : nat) (body : PyM St bool) : PyM St unit :=
  match fuel with
  | O => mthrow OutOfFuel
  | S n => again ← body; if (again : bool) then while_fuel n body else mret tt
  end.

(** ** Strings as the code uses them *)

(** [re.search(b"lit", s) is not None] for a literal pattern. *)
Fixpoint contains (pat s : string) : bool :=
  String.prefix pat s ||
  match s with
  | EmptyString => false
  | String _ s' => contains pat s'
  end.

Definition lower_ascii (c : ascii) : ascii :=
  let n := nat_of_ascii c in
  if (65 <=? n) && (n <=? 90) then ascii_of_nat (n + 32) else c.

(** [str.lower()] on ASCII text. *)
Fixpoint lower (s : string) : string :=
  match s with
  | EmptyString => EmptyString
  | String c s' => String (lower_ascii c) (lower s')
  end.

(** The characters [str.strip()] removes. *)
Definition is_space (c : ascii) : bool :=
  let n := nat_of_ascii c in (n =? 32) || ((9 <=? n) && (n <=? 13)).

(** [not s.strip()]: the string is empty or only whitespace. *)
Fixpoint blank (s : string) : bool :=
  match s with
  | EmptyString => true
  | String c s' => is_space c && blank s'
  end.

(** [str(n)] for a natural number. *)
Definition str_of_nat (n : nat) : string :=
  NilEmpty.string_of_uint (Nat.to_uint n).

(** How an option of [argparse] appears on the command line: not at all,
    without a value, or with one. *)
Inductive given := Absent | Bare | Given (v : string).

(** [os.path.join(a, b)]: an absolute [b] replaces [a]. *)
Definition os_path_join (a b : string) : string :=
  if String.prefix "/" b then b
  else if String.eqb a "" then b
  else if String.eqb (String.substring (String.length a - 1) 1 a) "/" then a +:+ b
  else a +:+ "/" +:+ b.

(** [s.endswith(suf)]: some suffix of [s] is [suf]. *)
Fixpoint endswith (s suf : string) : bool :=
  String.eqb s suf ||
  match s with
  | EmptyString => false
  | String _ s' => endswith s' suf
  end.

(** [sep.join(l)]. *)
Fixpoint join_str (sep : string) (l : list string) : string :=
  match l with
  | [] => ""
  | [x] => x
  | x :: l' => x +:+ sep +:+ join_str sep l'
  end.

Definition newline : string := String (ascii_of_nat 10) EmptyString.

(** A string with no line break: what [.*] matches. *)
Fixpoint line_free (b : string) : bool :=
  match b with
  | EmptyString => true
  | String c b' => negb (Ascii.eqb c (ascii_of_nat 10)) && line_free b'
  end.

(** ** Generic lemmas *)
Lemma bind_Ok {S A B} (m : PyM S A) (k : A -> PyM S B) s a s' :
  m s = (Ok a, s') -> (m ≫= k) s = k a s'.
Proof. intros H. unfold mbind, PyM_bind. by rewrite H. Qed.

Lemma bind_Exn {S A B} (m : PyM S A) (k : A -> PyM S B) s e s' :
  m s = (Exn e, s') -> (m ≫= k) s = (Exn e, s').
Proof. intros H. unfold mbind, PyM_bind. by rewrite H. Qed.

Lemma bind_assoc_run {S A B C} (m : PyM S A) (f : A -> PyM S B) (g : B -> PyM S C) s :
  ((m ≫= f) ≫= g) s = (m ≫= (fun x => f x ≫= g)) s.
Proof. unfold mbind, PyM_bind. by destruct (m s) as [[a|e] s']. Qed.

Lemma bind_ext {S A B} (m : PyM S A) (k1 k2 : A -> PyM S B) s :
  (forall a s', k1 a s' = k2 a s') -> (m ≫= k1) s = (m ≫= k2) s.
Proof. intros H. unfold mbind, PyM_bind. destruct (m s) as [[a|e] s']; [apply H | done]. Qed.

Lemma bind_ret_unit {S} (m : PyM S unit) s : (m ≫= fun _ => mret tt) s = m s.
Proof. unfold mbind, PyM_bind. by destruct (m s) as [[[]|e] s']. Qed.

Lemma append_cons (c : ascii) (p t : string) : String c p +:+ t = String c (p +:+ t).
Proof. reflexivity. Qed.

Lemma append_nil_l (t : string) : "" +:+ t = t.
Proof. reflexivity. Qed.

Lemma append_nil_r (s : string) : s +:+ "" = s.
Proof. induction s as [|c s IH]; [done|]. by rewrite append_cons, IH. Qed.

Lemma append_assoc_str (a b c : string) : (a +:+ b) +:+ c = a +:+ (b +:+ c).
Proof. induction a as [|x a IH]; [done|]. by rewrite !append_cons, IH. Qed.

Lemma length_append_str (a b : string) : String.length (a +:+ b) = String.length a + String.length b.
Proof. induction a as [|c a IH]; [done|]. simpl. by rewrite IH. Qed.

Lemma prefix_app (p t : string) : String.prefix p (p +:+ t) = true.
Proof. induction p as [|c p IH]; simpl; [by destruct t|]. by destruct (ascii_dec c c). Qed.

Lemma prefix_spec (p s : string) :
  String.prefix p s = true <-> exists t, s = p +:+ t.
Proof.
  revert s. induction p as [|c p IH]; intros [|d s]; simpl.
  - split; [by exists "" | done].
  - split; [by exists (String d s) | done].
  - split; [done | by intros [t Ht]].
  - destruct (ascii_dec c d) as [->|Hne].
    + rewrite IH. split; intros [t Ht]; exists t; rewrite append_cons in *; congruence.
    + split; [done|]. intros [t Ht]. rewrite append_cons in Ht. congruence.
Qed.

(** [contains] is substring search: the literal occurs somewhere in [s]. *)
Lemma contains_spec (p s : string) :
  contains p s = true <-> exists a b, s = a +:+ p +:+ b.
Proof.
  induction s as [|c s IH]; cbn [contains]; rewrite orb_true_iff, prefix_spec.
  - split.
    + intros [[t Ht]|H]; [|done]. by exists "", t.
    + intros [[|d a] [b Hb]]; rewrite ?append_cons in Hb; [|discriminate].
      left. by exists b.
  - rewrite IH. split.
    + intros [[t Ht]|[a [b Hb]]]; [by exists "", t|].
      exists (String c a), b. by rewrite Hb.
    + intros [[|d a] [b Hb]]; [left; by exists b|].
      rewrite append_cons in Hb. injection Hb as -> Hb. right. by exists a, b.
Qed.

Lemma endswith_spec (s suf : string) :
  endswith s suf = true <-> exists p, s = p +:+ suf.
Proof.
  induction s as [|c s IH]; cbn [endswith]; rewrite orb_true_iff, String.eqb_eq.
  - split.
    + intros [<-|H]; [by exists "" | done].
    + intros [[|d p] Hp]; [left; by rewrite append_nil_l in Hp | by rewrite append_cons in Hp].
  - rewrite IH. split.
    + intros [<-|[p ->]]; [by exists "" | by exists (String c p)].
    + intros [[|d p] Hp]; [left; by rewrite append_nil_l in Hp|].
      rewrite append_cons in Hp. injection Hp as -> Hp. right. by exists p.
Qed.

Lemma endswith_app (p suf : string) : endswith (p +:+ suf) suf = true.
Proof. apply endswith_spec. by exists p. Qed.

Lemma contains_middle (p a b : string) : contains p (a +:+ p +:+ b) = true.
Proof. apply contains_spec. eauto. Qed.

Lemma contains_self (p : string) : contains p p = true.
Proof. apply contains_spec. exists "", "". by rewrite append_nil_r. Qed.

Lemma contains_app_l (p a b : string) : contains p a = true -> contains p (a +:+ b) = true.
Proof.
  intros (x & y & ->)%contains_spec. apply contains_spec.
  exists x, (y +:+ b). by rewrite !append_assoc_str.
Qed.

Lemma contains_app_r (p a b : string) : contains p b = true -> contains p (a +:+ b) = true.
Proof.
  intros (x & y & ->)%contains_spec. apply contains_spec.
  exists (a +:+ x), y. by rewrite !append_assoc_str.
Qed.

Lemma blank_empty : blank "" = true.
Proof. reflexivity. Qed.

#[export] Hint Resolve contains_self contains_middle prefix_app contains_app_l contains_app_r endswith_app : wiz.
#[export] Hint Rewrite append_cons append_nil_l append_nil_r contains_self prefix_app : wiz_rw.

(** [run_with H] rewrites the first step of a computation with an equation
    [H : m s = (r, s')] describing it, through a bind. *)
Ltac run_with H :=
  first [ rewrite (bind_Ok _ _ _ _ _ H) | rewrite (bind_Exn _ _ _ _ _ H) | rewrite H ].

(** [destruct_mem H] splits [H : x ∈ [a; b; ...]] into one goal per
    element, with [x] replaced by it. *)
Ltac destruct_mem H :=
  lazymatch type of H with
  | _ ∈ _ :: _ => apply elem_of_cons in H as [H|H]; [subst; try done|destruct_mem H]
  | _ ∈ [] => apply elem_of_nil in H as []
  end.

Definition is_digit (c : ascii) : bool :=
  let n := nat_of_ascii c in (48 <=? n) && (n <=? 57).

Lemma length_lower (s : string) : String.length (lower s) = String.length s.
Proof. induction s as [|c s IH]; simpl; [done | by rewrite IH]. Qed.
