(* ===== verification/Runtime.v ===== *)
(** * Runtime: the world the wizard runs in

    The state every operation of the wizard threads: standard input, the
    external commands, HTTP reachability, the client's on-disk JSON config
    files, the configuration dictionary [self.config] of the [Setup] object
    and the trace of prints, logs and commands.  The primitive actions here
    are the helpers of [tezos_baking.util] the wizard calls
    ([get_proc_output], [proc_call], [print_and_log], [color],
    [url_is_reachable], [search_json_with_default]); that module is not
    under src/, so they are modelled from the spec (section 6).

    The invariant [evolves] states what no operation can undo: the trace
    and the configuration's keys only grow, input is only consumed, the
    command counter only advances and the oracles never change. *)

From S2P Require Import Prelude.
From Stdlib Require Export ZArith.

(** Values stored in [self.config]: strings, booleans, lists of strings
    (the proposal hashes) and [None]. *)
Inductive value :=
| VStr (s : string)
| VBool (b : bool)
| VList (l : list string)
| VNone.

(** Python's [==] on configuration values. *)
#[export] Instance value_eq_dec : EqDecision value.
Proof. solve_decision. Defined.

(** [subprocess.CompletedProcess]: exit status and captured output. *)
Record proc_result := mkProc {
  returncode : Z;
  stdout : string;
  stderr : string
}.

Inductive log_level := Info | Error.

Inductive event :=
| Printed (line : string)
| Logged (lvl : log_level) (msg : string)
| Ran (cmd : string).

Record world := mkWorld {
  w_input : list string;                     (** lines not yet read *)
  w_proc : nat -> string -> proc_result;     (** answer to the n-th command *)
  w_ncalls : nat;                            (** commands run so far *)
  w_reachable : string -> bool;              (** HTTP probe of a URL *)
  w_files : gmap string (gmap string string);  (** JSON files on disk *)
  w_config : gmap string value;              (** [self.config] *)
  w_trace : list event                       (** newest first *)
}.

Abbreviation M := (PyM world).

(** ** Primitive actions *)

Definition emit (ev : event) : M unit := fun w =>
  (Ok tt, {| w_input := w_input w; w_proc := w_proc w; w_ncalls := w_ncalls w;
             w_reachable := w_reachable w; w_files := w_files w;
             w_config := w_config w; w_trace := ev :: w_trace w |}).

Definition print (s : string) : M unit := emit (Printed s).
Definition log_info (s : string) : M unit := emit (Logged Info s).
Definition log_error (s : string) : M unit := emit (Logged Error s).

(** [print(a, b)]: the arguments joined by a space. *)
Definition print2 (a b : string) : M unit := print (a +:+ " " +:+ b).

(** [input()]: the next line, or [EOFError] at the end of input. *)
Definition input : M string := fun w =>
  match w_input w with
  | [] => (Exn EOFError, w)
  | l :: rest =>
      (Ok l, {| w_input := rest; w_proc := w_proc w; w_ncalls := w_ncalls w;
                w_reachable := w_reachable w; w_files := w_files w;
                w_config := w_config w; w_trace := w_trace w |})
  end.

(** [get_proc_output(cmd)]: run a shell command and capture its output;
    a failing command does not raise. *)
Definition get_proc_output (cmd : string) : M proc_result := fun w =>
  (Ok (w_proc w (w_ncalls w) cmd),
   {| w_input := w_input w; w_proc := w_proc w; w_ncalls := S (w_ncalls w);
      w_reachable := w_reachable w; w_files := w_files w;
      w_config := w_config w; w_trace := Ran cmd :: w_trace w |}).

(** [proc_call(cmd)]: run a command, raising when its status is not 0. *)
Definition proc_call (cmd : string) : M unit :=
  r ← get_proc_output cmd;
  if Z.eqb (returncode r) 0 then mret tt else mthrow (CalledProcessError cmd).

(** [url_is_reachable(url)]. *)
Definition url_is_reachable (url : string) : M bool := fun w =>
  (Ok (w_reachable w url), w).

(** The reachability oracle itself, for validators that probe URLs. *)
Definition get_prober : M (string -> bool) := fun w => (Ok (w_reachable w), w).

(** [os.path.isfile(path)] and [search_json_with_default(path, field, d)]. *)
Definition isfile (path : string) : M bool := fun w =>
  (Ok (bool_decide (is_Some (w_files w !! path))), w).

Definition search_json_with_default (path field : string) (d : value) : M value :=
  fun w =>
  (Ok (match w_files w !! path ≫= (.!! field) with
       | Some v => VStr v
       | None => d
       end), w).

(** ** The configuration dictionary *)

Definition cfg_lookup (k : string) : M (option value) := fun w =>
  (Ok (w_config w !! k), w).

(** [self.config[k]]: [KeyError] when the key is absent. *)
Definition cfg_get (k : string) : M value :=
  o ← cfg_lookup k;
  match o with Some v => mret v | None => mthrow (KeyError k) end.

(** [self.config[k] = v]. *)
Definition cfg_set (k : string) (v : value) : M unit := fun w =>
  (Ok tt, {| w_input := w_input w; w_proc := w_proc w; w_ncalls := w_ncalls w;
             w_reachable := w_reachable w; w_files := w_files w;
             w_config := <[k := v]> (w_config w); w_trace := w_trace w |}).

(** [f"{v}"]: how Python renders a configuration value in a string. *)
Definition render (v : value) : string :=
  match v with
  | VStr s => s
  | VBool true => "True"
  | VBool false => "False"
  | VNone => "None"
  | VList l => "[" +:+ String.concat ", " (map (fun s => "'" +:+ s +:+ "'") l) +:+ "]"
  end.

(** [f"{self.config[k]}"]. *)
Definition cfg_str (k : string) : M string := v ← cfg_get k; mret (render v).

(** ** Terminal colours and combined print/log helpers *)

Definition esc : string := String (ascii_of_nat 27) "".
Definition color_red : string := esc +:+ "[1;31m".
Definition color_green : string := esc +:+ "[1;32m".
Definition color_reset : string := esc +:+ "[0m".

(** [color(text, code)]. *)
Definition color (text code : string) : string := code +:+ text +:+ color_reset.

(** [print_and_log(msg)] and [print_and_log(msg, log=logging.error)]. *)
Definition print_and_log (msg : string) : M unit := print msg;; log_info msg.
Definition print_and_log_error (msg : string) : M unit := print msg;; log_error msg.

(** ** What no operation undoes *)

Definition evolves (w w' : world) : Prop :=
  (exists l, w_trace w' = l ++ w_trace w) /\
  (exists l, w_input w = l ++ w_input w') /\
  dom (w_config w) ⊆ dom (w_config w') /\
  w_ncalls w <= w_ncalls w' /\
  w_proc w' = w_proc w /\ w_reachable w' = w_reachable w /\ w_files w' = w_files w.

(** An operation is monotone when every run of it evolves the world. *)
Definition Mono {A} (m : M A) : Prop :=
  forall w r w', m w = (r, w') -> evolves w w'.

Lemma evolves_refl w : evolves w w.
Proof. repeat split; (by exists []) || done. Qed.

Lemma evolves_trans w1 w2 w3 : evolves w1 w2 -> evolves w2 w3 -> evolves w1 w3.
Proof.
  intros (T1 & I1 & C1 & N1 & P1 & R1 & F1) (T2 & I2 & C2 & N2 & P2 & R2 & F2).
  destruct T1 as [t1 T1], T2 as [t2 T2], I1 as [i1 I1], I2 as [i2 I2].
  repeat split; [exists (t2 ++ t1) | exists (i1 ++ i2) | set_solver | lia | congruence..].
  - by rewrite T2, T1, app_assoc.
  - by rewrite I1, I2, app_assoc.
Qed.

#[export] Instance evolves_preorder : PreOrder evolves.
Proof. split; [exact evolves_refl | exact evolves_trans]. Qed.

Lemma Mono_ret {A} (a : A) : Mono (mret a).
Proof. intros w r w' [= _ <-]. apply evolves_refl. Qed.

Lemma Mono_throw {A} (e : exn) : Mono (A := A) (mthrow e).
Proof. intros w r w' [= _ <-]. apply evolves_refl. Qed.

Lemma Mono_bind {A B} (m : M A) (k : A -> M B) :
  Mono m -> (forall a, Mono (k a)) -> Mono (m ≫= k).
Proof.
  intros Hm Hk w r w'. unfold mbind, PyM_bind.
  destruct (m w) as [[a|e] w1] eqn:E; intros H.
  - etrans; [exact (Hm _ _ _ E) | exact (Hk a _ _ _ H)].
  - injection H as _ <-. exact (Hm _ _ _ E).
Qed.

Lemma Mono_emit ev : Mono (emit ev).
Proof. intros w r w' [= _ <-]. repeat split; try done; [by exists [ev] | by exists []]. Qed.

Lemma Mono_input : Mono input.
Proof.
  intros w r w'. unfold input. destruct (w_input w) as [|l rest] eqn:E; intros [= _ <-].
  - apply evolves_refl.
  - repeat split; try done; [by exists [] | exists [l]; by rewrite E].
Qed.

Lemma Mono_get_proc_output cmd : Mono (get_proc_output cmd).
Proof. intros w r w' [= _ <-]. repeat split; simpl; try done; [by exists [Ran cmd] | by exists [] | lia]. Qed.

Lemma Mono_cfg_set k v : Mono (cfg_set k v).
Proof.
  intros w r w' [= _ <-]. repeat split; try (by exists []); simpl; [|lia].
  rewrite dom_insert_L. set_solver.
Qed.

(** Operations that only read the world. *)
Lemma Mono_reader {A} (f : world -> A) : Mono (fun w => (Ok (f w), w)).
Proof. intros w r w' [= _ <-]. apply evolves_refl. Qed.

#[export] Hint Resolve Mono_ret Mono_throw Mono_bind Mono_emit Mono_input
  Mono_get_proc_output Mono_cfg_set : wiz.

(** [mono] proves [Mono] of a composite operation: it unfolds the
    operation, splits binds and the branches of [if] and [match]. *)
Ltac mono :=
  repeat first
    [ apply Mono_ret | apply Mono_throw | apply Mono_emit | apply Mono_input
    | apply Mono_get_proc_output | apply Mono_cfg_set
    | apply (Mono_reader (fun w => _))
    | apply Mono_bind; [|intros ?]
    | progress case_match
    | eauto with wiz ].

Lemma Mono_print s : Mono (print s).
Proof. apply Mono_emit. Qed.
Lemma Mono_log_info s : Mono (log_info s).
Proof. apply Mono_emit. Qed.
Lemma Mono_log_error s : Mono (log_error s).
Proof. apply Mono_emit. Qed.
Lemma Mono_print2 a b : Mono (print2 a b).
Proof. apply Mono_emit. Qed.
Lemma Mono_proc_call cmd : Mono (proc_call cmd).
Proof. unfold proc_call. mono. Qed.
Lemma Mono_cfg_lookup k : Mono (cfg_lookup k).
Proof. apply (Mono_reader (fun w => _)). Qed.
Lemma Mono_cfg_get k : Mono (cfg_get k).
Proof. unfold cfg_get. apply Mono_bind; [apply Mono_cfg_lookup|]. intros []; mono. Qed.
Lemma Mono_cfg_str k : Mono (cfg_str k).
Proof. unfold cfg_str. apply Mono_bind; [apply Mono_cfg_get | intros; mono]. Qed.
Lemma Mono_print_and_log s : Mono (print_and_log s).
Proof. unfold print_and_log. mono. Qed.
Lemma Mono_print_and_log_error s : Mono (print_and_log_error s).
Proof. unfold print_and_log_error. mono. Qed.

#[export] Hint Resolve Mono_print Mono_log_info Mono_log_error Mono_print2
  Mono_proc_call Mono_cfg_lookup Mono_cfg_get Mono_cfg_str Mono_print_and_log
  Mono_print_and_log_error : wiz.

(** ** Operations that only print *)

Definition add_trace (l : list event) (w : world) : world :=
  {| w_input := w_input w; w_proc := w_proc w; w_ncalls := w_ncalls w;
     w_reachable := w_reachable w; w_files := w_files w;
     w_config := w_config w; w_trace := l ++ w_trace w |}.

(** [Output m]: [m] succeeds and only adds to the trace. *)
Definition Output (m : M unit) : Prop := forall w, exists l, m w = (Ok tt, add_trace l w).

Lemma add_trace_add_trace l1 l2 w : add_trace l2 (add_trace l1 w) = add_trace (l2 ++ l1) w.
Proof. unfold add_trace. simpl. by rewrite app_assoc. Qed.

Lemma Output_emit ev : Output (emit ev).
Proof. intros w. by exists [ev]. Qed.

Lemma Output_ret : Output (mret tt).
Proof. intros w. exists []. by destruct w. Qed.

Lemma Output_seq (m1 m2 : M unit) : Output m1 -> Output m2 -> Output (m1;; m2).
Proof.
  intros H1 H2 w. destruct (H1 w) as [l1 E1]. destruct (H2 (add_trace l1 w)) as [l2 E2].
  exists (l2 ++ l1). rewrite (bind_Ok _ _ _ _ _ E1), E2. by rewrite add_trace_add_trace.
Qed.

Lemma Output_print s : Output (print s).
Proof. apply Output_emit. Qed.
Lemma Output_print2 a b : Output (print2 a b).
Proof. apply Output_emit. Qed.
Lemma Output_log_info s : Output (log_info s).
Proof. apply Output_emit. Qed.
Lemma Output_log_error s : Output (log_error s).
Proof. apply Output_emit. Qed.
Lemma Output_print_and_log s : Output (print_and_log s).
Proof. apply Output_seq; apply Output_emit. Qed.
Lemma Output_print_and_log_error s : Output (print_and_log_error s).
Proof. apply Output_seq; apply Output_emit. Qed.

#[export] Hint Resolve Output_emit Output_ret Output_seq Output_print Output_print2
  Output_log_info Output_log_error Output_print_and_log Output_print_and_log_error : wiz.

(** Running an output-only operation first. *)
Lemma Output_bind {A} (m : M unit) (k : unit -> M A) w :
  Output m -> exists l, (m ≫= k) w = k tt (add_trace l w).
Proof. intros H. destruct (H w) as [l E]. exists l. by rewrite (bind_Ok _ _ _ _ _ E). Qed.

(** Two worlds that differ at most in what was printed. *)
Definition same_but_trace (w w' : world) : Prop :=
  w_input w' = w_input w /\ w_proc w' = w_proc w /\ w_ncalls w' = w_ncalls w /\
  w_reachable w' = w_reachable w /\ w_files w' = w_files w /\ w_config w' = w_config w.

Lemma same_but_trace_add l w : same_but_trace w (add_trace l w).
Proof. done. Qed.

Definition pop_input (w : world) : world :=
  {| w_input := tail (w_input w); w_proc := w_proc w; w_ncalls := w_ncalls w;
     w_reachable := w_reachable w; w_files := w_files w;
     w_config := w_config w; w_trace := w_trace w |}.

Lemma input_cons w l rest : w_input w = l :: rest -> input w = (Ok l, pop_input w).
Proof. unfold input, pop_input. intros E. by rewrite E. Qed.

Lemma input_nil w : w_input w = [] -> input w = (Exn EOFError, w).
Proof. unfold input. intros E. by rewrite E. Qed.

(** A world at the start of a run: nothing printed, an empty
    configuration, every command answering with status 0 and no output
    unless [proc] says otherwise. *)
Definition start_world (lines : list string) (proc : nat -> string -> proc_result)
  (reach : string -> bool) (files : gmap string (gmap string string)) : world :=
  {| w_input := lines; w_proc := proc; w_ncalls := 0; w_reachable := reach;
     w_files := files; w_config := ∅; w_trace := [] |}.

Definition quiet_proc : nat -> string -> proc_result := fun _ _ => mkProc 0 "" "".

Lemma evolves_add_trace l w : evolves w (add_trace l w).
Proof. repeat split; [by exists l | by exists [] | set_solver | simpl; lia]. Qed.

Lemma Mono_Output (m : M unit) : Output m -> Mono m.
Proof.
  intros Hm w r w' H. destruct (Hm w) as [l E]. rewrite E in H. injection H as _ <-.
  apply evolves_add_trace.
Qed.

(** The world after running a command. *)
Definition after_cmd (cmd : string) (w : world) : world :=
  {| w_input := w_input w; w_proc := w_proc w; w_ncalls := S (w_ncalls w);
     w_reachable := w_reachable w; w_files := w_files w;
     w_config := w_config w; w_trace := Ran cmd :: w_trace w |}.

(** The answer of the command about to run. *)
Definition next_answer (cmd : string) (w : world) : proc_result := w_proc w (w_ncalls w) cmd.

Lemma get_proc_output_run cmd w :
  get_proc_output cmd w = (Ok (next_answer cmd w), after_cmd cmd w).
Proof. reflexivity. Qed.

Lemma proc_call_ok cmd w :
  returncode (next_answer cmd w) = 0%Z -> proc_call cmd w = (Ok tt, after_cmd cmd w).
Proof. intros H. unfold proc_call. rewrite (bind_Ok _ _ _ _ _ (get_proc_output_run cmd w)), H. done. Qed.

Lemma proc_call_fail cmd w :
  returncode (next_answer cmd w) <> 0%Z ->
  proc_call cmd w = (Exn (CalledProcessError cmd), after_cmd cmd w).
Proof.
  intros H. unfold proc_call. rewrite (bind_Ok _ _ _ _ _ (get_proc_output_run cmd w)).
  by rewrite (proj2 (Z.eqb_neq _ _) H).
Qed.

(** [self.config[k]] used as a list. *)
Definition cfg_list (k : string) : M (list string) :=
  v ← cfg_get k;
  match v with
  | VList l => mret l
  | _ => mthrow (TypeError ("config[" +:+ k +:+ "] is not a list"))
  end.

(** [l[0]]: [IndexError] on an empty list. *)
Definition head_or_index_error (l : list string) : M string :=
  match l with
  | x :: _ => mret x
  | [] => mthrow IndexError
  end.

Lemma Mono_cfg_list k : Mono (cfg_list k).
Proof. unfold cfg_list. apply Mono_bind; [apply Mono_cfg_get|]. intros []; mono. Qed.

Lemma Mono_head_or_index_error l : Mono (head_or_index_error l).
Proof. destruct l; simpl; mono. Qed.

#[export] Hint Resolve Mono_cfg_list Mono_head_or_index_error : wiz.

(** ** Fuel

    [Safe m]: [m] evolves the world and never runs out of fuel.
    [Bounded n m]: [m] does not run out of fuel from a world with fewer
    than [n] lines of input left. *)
Definition Safe {A} (m : M A) : Prop := Mono m /\ forall w, (m w).1 <> Exn OutOfFuel.

Definition Bounded {A} (n : nat) (m : M A) : Prop :=
  forall w, List.length (w_input w) < n -> (m w).1 <> Exn OutOfFuel.

Lemma Safe_Bounded {A} n (m : M A) : Safe m -> Bounded n m.
Proof. intros [_ H] w _. apply H. Qed.

Lemma input_shrinks w w' : evolves w w' -> List.length (w_input w') <= List.length (w_input w).
Proof. intros (_ & [l ->] & _). rewrite length_app. lia. Qed.

Lemma Bounded_bind {A B} n (m : M A) (k : A -> M B) :
  Safe m -> (forall a, Bounded n (k a)) -> Bounded n (m ≫= k).
Proof.
  intros [Hm Hf] Hk w Hw. unfold mbind, PyM_bind.
  destruct (m w) as [[a|e] w1] eqn:E.
  - apply Hk. apply Hm in E. apply input_shrinks in E. lia.
  - simpl. pose proof (Hf w) as H. rewrite E in H. simpl in H. by intros [= ->].
Qed.

Lemma Safe_bind {A B} (m : M A) (k : A -> M B) :
  Safe m -> (forall a, Safe (k a)) -> Safe (m ≫= k).
Proof.
  intros [Hm Hf] Hk. split; [apply Mono_bind; [done | intros a; apply Hk]|].
  intros w. unfold mbind, PyM_bind. destruct (m w) as [[a|e] w1] eqn:E.
  - apply Hk.
  - simpl. pose proof (Hf w) as H. rewrite E in H. simpl in H. by intros [= ->].
Qed.

Lemma Safe_ret {A} (a : A) : Safe (mret a).
Proof. split; [apply Mono_ret | done]. Qed.

Lemma Safe_throw {A} (e : exn) : e <> OutOfFuel -> Safe (A := A) (mthrow e).
Proof. intros He. split; [apply Mono_throw | intros w; simpl; congruence]. Qed.

Lemma Safe_total {A} (m : M A) : Mono m -> (forall w, exists r w', m w = (r, w') /\ r <> Exn OutOfFuel) -> Safe m.
Proof. intros Hm H. split; [done|]. intros w. destruct (H w) as (r & w' & -> & Hr). done. Qed.

Lemma Safe_emit ev : Safe (emit ev).
Proof. split; [apply Mono_emit | done]. Qed.
Lemma Safe_input : Safe input.
Proof. split; [apply Mono_input|]. intros w. unfold input. by destruct (w_input w). Qed.
Lemma Safe_get_proc_output cmd : Safe (get_proc_output cmd).
Proof. split; [apply Mono_get_proc_output | done]. Qed.
Lemma Safe_cfg_set k v : Safe (cfg_set k v).
Proof. split; [apply Mono_cfg_set | done]. Qed.
Lemma Safe_reader {A} (f : world -> A) : Safe (fun w => (Ok (f w), w)).
Proof. split; [apply Mono_reader | done]. Qed.

#[export] Hint Resolve Safe_ret Safe_emit Safe_input Safe_get_proc_output Safe_cfg_set : wiz.

(** [safe] proves [Safe] of a composite operation. *)
Ltac safe :=
  repeat first
    [ apply Safe_ret | apply Safe_emit | apply Safe_input | apply Safe_get_proc_output
    | apply Safe_cfg_set | apply (Safe_reader (fun w => _))
    | apply Safe_throw; discriminate
    | apply Safe_bind; [|intros ?]
    | progress case_match
    | eauto with wiz ].

Lemma Safe_print s : Safe (print s).
Proof. apply Safe_emit. Qed.
Lemma Safe_print2 a b : Safe (print2 a b).
Proof. apply Safe_emit. Qed.
Lemma Safe_log_info s : Safe (log_info s).
Proof. apply Safe_emit. Qed.
Lemma Safe_log_error s : Safe (log_error s).
Proof. apply Safe_emit. Qed.
Lemma Safe_print_and_log s : Safe (print_and_log s).
Proof. unfold print_and_log. safe. Qed.
Lemma Safe_print_and_log_error s : Safe (print_and_log_error s).
Proof. unfold print_and_log_error. safe. Qed.
Lemma Safe_proc_call cmd : Safe (proc_call cmd).
Proof. unfold proc_call. safe. Qed.
Lemma Safe_cfg_lookup k : Safe (cfg_lookup k).
Proof. apply (Safe_reader (fun w => _)). Qed.
Lemma Safe_cfg_get k : Safe (cfg_get k).
Proof. unfold cfg_get. apply Safe_bind; [apply Safe_cfg_lookup|]. intros []; safe. Qed.
Lemma Safe_cfg_str k : Safe (cfg_str k).
Proof. unfold cfg_str. apply Safe_bind; [apply Safe_cfg_get|]. intros; safe. Qed.
Lemma Safe_cfg_list k : Safe (cfg_list k).
Proof. unfold cfg_list. apply Safe_bind; [apply Safe_cfg_get|]. intros []; safe. Qed.
Lemma Safe_head_or_index_error l : Safe (head_or_index_error l).
Proof. destruct l; simpl; safe. Qed.
Lemma Safe_url_is_reachable u : Safe (url_is_reachable u).
Proof. apply (Safe_reader (fun w => _)). Qed.
Lemma Safe_get_prober : Safe get_prober.
Proof. apply (Safe_reader (fun w => _)). Qed.
Lemma Safe_isfile p : Safe (isfile p).
Proof. apply (Safe_reader (fun w => _)). Qed.
Lemma Safe_search_json_with_default p f d : Safe (search_json_with_default p f d).
Proof. apply (Safe_reader (fun w => _)). Qed.

#[export] Hint Resolve Safe_print Safe_print2 Safe_log_info Safe_log_error Safe_print_and_log
  Safe_print_and_log_error Safe_proc_call Safe_cfg_lookup Safe_cfg_get Safe_cfg_str Safe_cfg_list
  Safe_head_or_index_error Safe_url_is_reachable Safe_get_prober Safe_isfile
  Safe_search_json_with_default : wiz.

(** ** Running the configuration primitives *)

Definition set_cfg (k : string) (v : value) (w : world) : world :=
  {| w_input := w_input w; w_proc := w_proc w; w_ncalls := w_ncalls w;
     w_reachable := w_reachable w; w_files := w_files w;
     w_config := <[k := v]> (w_config w); w_trace := w_trace w |}.

Lemma cfg_set_run k v w : cfg_set k v w = (Ok tt, set_cfg k v w).
Proof. reflexivity. Qed.

Lemma cfg_get_run k v w : w_config w !! k = Some v -> cfg_get k w = (Ok v, w).
Proof. intros H. unfold cfg_get, cfg_lookup, mbind, PyM_bind. by rewrite H. Qed.

Lemma cfg_get_missing k w : w_config w !! k = None -> cfg_get k w = (Exn (KeyError k), w).
Proof. intros H. unfold cfg_get, cfg_lookup, mbind, PyM_bind. by rewrite H. Qed.

Lemma cfg_str_run k v w : w_config w !! k = Some v -> cfg_str k w = (Ok (render v), w).
Proof. intros H. unfold cfg_str. by rewrite (bind_Ok _ _ _ _ _ (cfg_get_run k v w H)). Qed.

Lemma cfg_list_run k l w : w_config w !! k = Some (VList l) -> cfg_list k w = (Ok l, w).
Proof. intros H. unfold cfg_list. by rewrite (bind_Ok _ _ _ _ _ (cfg_get_run k _ w H)). Qed.

(** Lookups in the worlds the primitives produce. *)
Lemma config_set_cfg k v w : w_config (set_cfg k v w) = <[k := v]> (w_config w).
Proof. reflexivity. Qed.
Lemma config_add_trace l w : w_config (add_trace l w) = w_config w.
Proof. reflexivity. Qed.
Lemma config_pop_input w : w_config (pop_input w) = w_config w.
Proof. reflexivity. Qed.
Lemma config_after_cmd c w : w_config (after_cmd c w) = w_config w.
Proof. reflexivity. Qed.

#[export] Hint Rewrite config_set_cfg config_add_trace config_pop_input config_after_cmd : wiz_rw.

Lemma set_cfg_add_trace k v l w : set_cfg k v (add_trace l w) = add_trace l (set_cfg k v w).
Proof. reflexivity. Qed.

(** [cfg_lookups] closes a goal [w_config w' !! k = Some v] where [w'] is
    built by the primitives from a world whose configuration is known. *)
Ltac cfg_lookups :=
  autorewrite with wiz_rw; rewrite ?lookup_insert_ne by discriminate;
  first [ done | rewrite lookup_insert_eq; done ].

(** ** Printing with its exact trace *)
Lemma print_run s w : print s w = (Ok tt, add_trace [Printed s] w).
Proof. reflexivity. Qed.
Lemma print2_run a b w : print2 a b w = (Ok tt, add_trace [Printed (a +:+ " " +:+ b)] w).
Proof. reflexivity. Qed.
Lemma log_info_run s w : log_info s w = (Ok tt, add_trace [Logged Info s] w).
Proof. reflexivity. Qed.
Lemma log_error_run s w : log_error s w = (Ok tt, add_trace [Logged Error s] w).
Proof. reflexivity. Qed.
Lemma ret_run {A} (a : A) w : (mret a : M A) w = (Ok a, w).
Proof. reflexivity. Qed.
Lemma throw_run {A} (e : exn) w : (mthrow e : M A) w = (Exn e, w).
Proof. reflexivity. Qed.

Lemma throw_bind_run {A B} (e : exn) (k : A -> M B) w : ((mthrow e : M A) ≫= k) w = (Exn e, w).
Proof. reflexivity. Qed.

(** [out_steps] runs the prints and logs at the head of a computation,
    collecting what they add to the trace. *)
Ltac out_steps :=
  repeat first
    [ rewrite (bind_Ok _ _ _ _ _ (print_run _ _))
    | rewrite (bind_Ok _ _ _ _ _ (print2_run _ _ _))
    | rewrite (bind_Ok _ _ _ _ _ (log_info_run _ _))
    | rewrite (bind_Ok _ _ _ _ _ (log_error_run _ _))
    | rewrite (bind_Ok _ _ _ _ _ (ret_run _ _))
    | rewrite bind_assoc_run
    | rewrite throw_bind_run
    | rewrite print_run | rewrite print2_run | rewrite log_info_run | rewrite log_error_run
    | rewrite add_trace_add_trace ].

Lemma cfg_str_bind {B} k v (f : string -> M B) w :
  w_config w !! k = Some v -> (cfg_str k ≫= f) w = f (render v) w.
Proof. intros H. exact (bind_Ok _ _ _ _ _ (cfg_str_run k v w H)). Qed.

Lemma cfg_lookup_bind {B} k (f : option value -> M B) w :
  (cfg_lookup k ≫= f) w = f (w_config w !! k) w.
Proof. reflexivity. Qed.

Lemma isfile_bind {B} path (f : bool -> M B) w :
  (isfile path ≫= f) w = f (bool_decide (is_Some (w_files w !! path))) w.
Proof. reflexivity. Qed.

Lemma search_json_bind {B} path field d (f : value -> M B) w :
  (search_json_with_default path field d ≫= f) w =
  f (match w_files w !! path ≫= (.!! field) with Some v => VStr v | None => d end) w.
Proof. reflexivity. Qed.

Lemma cfg_list_bind {B} k l (f : list string -> M B) w :
  w_config w !! k = Some (VList l) -> (cfg_list k ≫= f) w = f l w.
Proof. intros H. exact (bind_Ok _ _ _ _ _ (cfg_list_run k l w H)). Qed.

Lemma cfg_set_bind {B} k v (f : unit -> M B) w : (cfg_set k v ≫= f) w = f tt (set_cfg k v w).
Proof. reflexivity. Qed.

Lemma get_proc_output_bind {B} cmd (f : proc_result -> M B) w :
  (get_proc_output cmd ≫= f) w = f (next_answer cmd w) (after_cmd cmd w).
Proof. reflexivity. Qed.

(** [Consumes m]: when [m] returns, it has read at least one line. *)
Definition Consumes {A} (m : M A) : Prop :=
  forall w a w', m w = (Ok a, w') -> List.length (w_input w') < List.length (w_input w).

Lemma Bounded_consume_bind {A B} n (m : M A) (k : A -> M B) :
  Safe m -> Consumes m -> (forall a, Bounded n (k a)) -> Bounded (S n) (m ≫= k).
Proof.
  intros [Hm Hf] Hc Hk w Hw. unfold mbind, PyM_bind.
  destruct (m w) as [[a|e] w1] eqn:E.
  - apply Hk. apply Hc in E. lia.
  - simpl. pose proof (Hf w) as H. rewrite E in H. simpl in H. by intros [= ->].
Qed.

Lemma Consumes_bind_l {A B} (m : M A) (k : A -> M B) :
  Consumes m -> (forall a, Mono (k a)) -> Consumes (m ≫= k).
Proof.
  intros Hc Hk w b w'. unfold mbind, PyM_bind.
  destruct (m w) as [[a|e] w1] eqn:E; [|done].
  intros H. apply Hk, input_shrinks in H. apply Hc in E. lia.
Qed.

Lemma Consumes_bind_r {A B} (m : M A) (k : A -> M B) :
  Mono m -> (forall a, Consumes (k a)) -> Consumes (m ≫= k).
Proof.
  intros Hm Hk w b w'. unfold mbind, PyM_bind.
  destruct (m w) as [[a|e] w1] eqn:E; [|done].
  intros H. apply Hk in H. apply Hm, input_shrinks in E. lia.
Qed.

Lemma next_answer_same cmd w' w :
  w_proc w' = w_proc w -> w_ncalls w' = w_ncalls w -> next_answer cmd w' = next_answer cmd w.
Proof. unfold next_answer. by intros -> ->. Qed.
