(* ===== verification/Control.v ===== *)
(** * Control: Python control flow and the proof tools for it

    [try]/[except]/[finally] ([py_try], [py_finally]) and the [while]
    loop of [Prelude.while_fuel], with their monotonicity and fuel
    lemmas; Python truthiness and the [dict] helper the setup code uses;
    two predicates on operations:
    - [Establishes K m]: when [m] returns, every key of [K] is in the
      configuration, so a later [self.config[k]] of those keys does not
      raise [KeyError];
    - [Guarded P m]: [m] does not run out of fuel from a world satisfying
      [P], for a [P] that every operation keeps ([Stable]); the fuel of a
      polling loop is enough under a hypothesis on the external command
      it polls, which is such a [P]. *)

From S2P Require Import Prelude Runtime.

(** ** [try]/[except]/[finally] *)

(** [try: m except: h]: a bare [except] catches every Python exception.
    [OutOfFuel] is not one and is passed on. *)
Definition py_try {St A} (m : PyM St A) (h : exn -> PyM St A) : PyM St A := fun s =>
  match m s with
  | (Exn OutOfFuel, s') => (Exn OutOfFuel, s')
  | (Exn e, s') => h e s'
  | r => r
  end.

(** [try: m finally: fin]: [fin] runs on both outcomes; an exception it
    raises replaces the outcome of [m]. *)
Definition py_finally {St A} (m : PyM St A) (fin : PyM St unit) : PyM St A := fun s =>
  let '(r, s1) := m s in
  match fin s1 with
  | (Ok _, s2) => (r, s2)
  | (Exn e, s2) => (Exn e, s2)
  end.

(** Python truthiness of a configuration value. *)
Definition truthy (v : value) : bool :=
  match v with
  | VStr s => negb (String.eqb s "")
  | VBool b => b
  | VList l => negb (bool_decide (l = []))
  | VNone => false
  end.

(** [self.config.get(k, d)]. *)
Definition cfg_get_default (k : string) (d : value) : M value :=
  o ← cfg_lookup k; mret (default d o).

(** [d.pop(k, None)] on a dictionary kept as an association list. *)
Definition py_dict_pop {V} (k : string) (d : list (string * V)) : list (string * V) :=
  filter (fun kv => negb (String.eqb kv.1 k)) d.

(** ** Monotonicity and fuel *)
Lemma Mono_py_try {A} (m : M A) h : Mono m -> (forall e, Mono (h e)) -> Mono (py_try m h).
Proof.
  intros Hm Hh w r w'. unfold py_try. destruct (m w) as [[a|[]] w1] eqn:E; intros H;
    first [injection H as _ <-; exact (Hm _ _ _ E) | etrans; [exact (Hm _ _ _ E) | exact (Hh _ _ _ _ H)]].
Qed.

Lemma Safe_py_try {A} (m : M A) h : Safe m -> (forall e, Safe (h e)) -> Safe (py_try m h).
Proof.
  intros [Hm Hf] Hh. split; [apply Mono_py_try; [done | apply Hh]|].
  intros w. unfold py_try. pose proof (Hf w) as Hw.
  destruct (m w) as [[a|[]] w1]; simpl in *; done || apply Hh.
Qed.

Lemma Mono_py_finally {A} (m : M A) fin : Mono m -> Mono fin -> Mono (py_finally m fin).
Proof.
  intros Hm Hf w r w'. unfold py_finally. destruct (m w) as [r1 w1] eqn:E.
  destruct (fin w1) as [[]] eqn:F; intros [= _ <-]; etrans; [exact (Hm _ _ _ E) | exact (Hf _ _ _ F)|
                                                         exact (Hm _ _ _ E) | exact (Hf _ _ _ F)].
Qed.

Lemma Safe_py_finally {A} (m : M A) fin : Safe m -> Safe fin -> Safe (py_finally m fin).
Proof.
  intros [Hm Hm'] [Hf Hf']. split; [by apply Mono_py_finally|].
  intros w. unfold py_finally. pose proof (Hm' w) as H1. destruct (m w) as [r1 w1].
  pose proof (Hf' w1) as H2. destruct (fin w1) as [[u|e] w2]; simpl in *; [done | intros [= ->]; done].
Qed.

Lemma Mono_while_fuel n (body : M bool) : Mono body -> Mono (while_fuel n body).
Proof. intros Hb. induction n; simpl; mono. Qed.

(** A loop whose every round reads a line ends within one round more
    than the lines left. *)
Lemma while_fuel_bounded n (body : M bool) :
  Safe body -> Consumes body -> Bounded n (while_fuel n body).
Proof.
  intros Hs Hc. induction n as [|n IH]; [intros w Hw; lia|]. cbn [while_fuel].
  apply Bounded_consume_bind; [done | done |]. intros [|]; [done|].
  apply Safe_Bounded, Safe_ret.
Qed.

Lemma Safe_Mono {A} (m : M A) : Safe m -> Mono m.
Proof. by intros []. Qed.

#[export] Hint Resolve Safe_Mono : wiz.

Lemma Safe_cfg_get_default k d : Safe (cfg_get_default k d).
Proof. unfold cfg_get_default. safe. Qed.

#[export] Hint Resolve Safe_py_try Safe_py_finally Safe_cfg_get_default : wiz.
#[export] Hint Resolve Mono_py_try Mono_py_finally Mono_while_fuel : wiz.

Lemma cfg_get_default_run k d w : cfg_get_default k d w = (Ok (default d (w_config w !! k)), w).
Proof. reflexivity. Qed.

Lemma py_try_Ok {St A} (m : PyM St A) h w a w' : m w = (Ok a, w') -> py_try m h w = (Ok a, w').
Proof. intros E. unfold py_try. by rewrite E. Qed.

Lemma py_try_Exn {St A} (m : PyM St A) h w e w' :
  m w = (Exn e, w') -> e <> OutOfFuel -> py_try m h w = h e w'.
Proof. intros E He. unfold py_try. rewrite E. by destruct e. Qed.

Lemma py_finally_run {St A} (m : PyM St A) (fin : PyM St unit) w r w1 w2 :
  m w = (r, w1) -> fin w1 = (Ok tt, w2) -> py_finally m fin w = (r, w2).
Proof. intros E F. unfold py_finally. by rewrite E, F. Qed.

(** ** Keys an operation leaves in the configuration *)

Definition Establishes {A} (K : gset string) (m : M A) : Prop :=
  forall w a w', m w = (Ok a, w') -> K ⊆ dom (w_config w').

Lemma Establishes_bind_l {A B} K (m : M A) (k : A -> M B) :
  Establishes K m -> (forall a, Mono (k a)) -> Establishes K (m ≫= k).
Proof.
  intros Hm Hk w b w'. unfold mbind, PyM_bind. destruct (m w) as [[a|e] w1] eqn:E; [|done].
  intros H. pose proof (Hm _ _ _ E) as HK. destruct (Hk _ _ _ _ H) as (_ & _ & Hd & _). set_solver.
Qed.

Lemma Establishes_bind_r {A B} K (m : M A) (k : A -> M B) :
  (forall a, Establishes K (k a)) -> Establishes K (m ≫= k).
Proof.
  intros Hk w b w'. unfold mbind, PyM_bind. destruct (m w) as [[a|e] w1]; [apply Hk | done].
Qed.

Lemma Establishes_union {A} K1 K2 (m : M A) :
  Establishes K1 m -> Establishes K2 m -> Establishes (K1 ∪ K2) m.
Proof. intros H1 H2 w a w' E. pose proof (H1 _ _ _ E) as E1. pose proof (H2 _ _ _ E) as E2. set_solver. Qed.

Lemma Establishes_weaken {A} K K' (m : M A) : K' ⊆ K -> Establishes K m -> Establishes K' m.
Proof. intros HK Hm w a w' E. pose proof (Hm _ _ _ E). set_solver. Qed.

Lemma Establishes_cfg_get k : Establishes {[k]} (cfg_get k).
Proof.
  intros w a w'. unfold cfg_get, cfg_lookup, mbind, PyM_bind.
  destruct (w_config w !! k) eqn:E; intros [= _ <-]. apply singleton_subseteq_l, elem_of_dom. by eexists.
Qed.

Lemma Establishes_cfg_str k : Establishes {[k]} (cfg_str k).
Proof. apply Establishes_bind_l; [apply Establishes_cfg_get | intros; apply Mono_ret]. Qed.

Lemma Establishes_cfg_set k v : Establishes {[k]} (cfg_set k v).
Proof. intros w a w' [= _ <-]. simpl. rewrite dom_insert_L. set_solver. Qed.

Lemma Establishes_while_fuel K n (body : M bool) :
  Establishes K body -> Establishes K (while_fuel n body).
Proof.
  intros Hb. induction n as [|n IH]; [done|]. cbn [while_fuel].
  intros w a w'. unfold mbind at 1, PyM_bind. destruct (body w) as [[[|]|e] w1] eqn:E; [apply IH | | done].
  intros [= _ <-]. exact (Hb _ _ _ E).
Qed.

#[export] Hint Resolve Establishes_cfg_get Establishes_cfg_str Establishes_cfg_set : wiz.

(** ** Fuel under a stable hypothesis *)

Definition Stable (P : world -> Prop) : Prop := forall w w', evolves w w' -> P w -> P w'.

Definition Guarded {A} (P : world -> Prop) (m : M A) : Prop :=
  forall w, P w -> (m w).1 <> Exn OutOfFuel.

Lemma Safe_Guarded {A} P (m : M A) : Safe m -> Guarded P m.
Proof. intros [_ H] w _. apply H. Qed.

Lemma Guarded_bind {A B} P (m : M A) (k : A -> M B) :
  Stable P -> Mono m -> Guarded P m -> (forall a, Guarded P (k a)) -> Guarded P (m ≫= k).
Proof.
  intros HP Hm Hg Hk w Hw. unfold mbind, PyM_bind. pose proof (Hg w Hw) as H.
  destruct (m w) as [[a|e] w1] eqn:E.
  - apply Hk. exact (HP _ _ (Hm _ _ _ E) Hw).
  - simpl in *. by intros [= ->].
Qed.

(** [safe_py]: [safe] through [try] and [finally]. *)
Ltac safe_py :=
  repeat first [ apply Safe_py_finally | apply Safe_py_try; [|intros ?] | progress safe ].

(** [mono_py]: [mono] through [try], [finally] and [while]. *)
Ltac mono_py :=
  repeat first [ apply Mono_py_finally | apply Mono_py_try; [|intros ?]
               | apply Mono_while_fuel | progress mono ].

(** A [Safe] step followed by guarded steps is guarded. *)
Lemma Guarded_bind_safe {A B} P (m : M A) (k : A -> M B) :
  Stable P -> Safe m -> (forall a, Guarded P (k a)) -> Guarded P (m ≫= k).
Proof. intros HP [Hm Hf] Hk. apply Guarded_bind; [done | done | by apply Safe_Guarded | done]. Qed.

(** [guarded HP] splits a composite operation into its steps: a step is
    [Safe] or guarded by a hint of [wiz]; a compound step (an [if] on a
    bound value) is split on its own; [HP] is the stability of the
    hypothesis. *)
Ltac guarded HP :=
  repeat first
    [ solve [eauto with wiz]
    | apply Safe_Guarded; solve [eauto with wiz]
    | apply (Guarded_bind_safe _ _ _ HP); [solve [eauto with wiz] | intros ?]
    | apply (Guarded_bind _ _ _ HP); [solve [mono_py] | | intros ?]
    | progress case_match ].

Lemma Establishes_py_finally {A} K (m : M A) fin :
  Establishes K fin -> Establishes K (py_finally m fin).
Proof.
  intros H w a w'. unfold py_finally. destruct (m w) as [r w1].
  destruct (fin w1) as [[u|e] w2] eqn:E; intros [= _ <-]. exact (H _ _ _ E).
Qed.

(** [est] proves that an operation establishes a set of keys: it splits
    the set into singletons and finds, along the binds, the step that
    reads or writes each key; the steps after it only evolve the world. *)
Ltac est :=
  repeat first
    [ solve [eauto with wiz]
    | apply Establishes_union
    | apply Establishes_py_finally
    | apply Establishes_bind_l; [solve [est] | intros ?; solve [mono_py]]
    | apply Establishes_bind_r; intros ?
    | progress case_match ].
