(* ===== verification/Patterns.v ===== *)
(** * Patterns: the regular expressions of the wizard

    [fill_voting_period_info] (wizard, lines 316-321) reads the output of
    [octez-client show voting period] with two regular expressions:
    - [re.search(b'Current period: "(\w+)"', info).group(1)], modelled by
      [search_current_period], which returns [None] where [re.search]
      returns [None];
    - [re.findall(protocol_hash_regex, info)] with the protocol-hash regex
      [P[123456789ABCDEFGHJKLMNPQRSTUVWXYZabcdefghijkmnopqrstuvwxyz]{50}]
      (the step help text, line 94; the regex itself lives in
      [tezos_baking.util]), modelled by [findall_protocol_hashes].
    Both scan left to right as Python's [re] does.  The theorems state
    each regex as a proposition about string concatenation
    ([period_regex_at], [protocol_hash_shape], [hash_regex_at]) and give
    the matchers their specification against it:
    [search_current_period] answers the group of the leftmost match, and
    [findall_protocol_hashes] answers the leftmost matches taken without
    overlap ([findall_hashes_spec]: gaps with no match start, and hashes,
    in turn). *)

From S2P Require Import Prelude.

(** The double quote, written without a quote inside a literal. *)
Definition dq : string := String (ascii_of_nat 34) EmptyString.

(** [\w] on bytes: [[A-Za-z0-9_]]. *)
Definition is_word_char (c : ascii) : bool :=
  let n := nat_of_ascii c in
  ((48 <=? n) && (n <=? 57)) || ((65 <=? n) && (n <=? 90)) ||
  ((97 <=? n) && (n <=? 122)) || (n =? 95).

(** The base-58 alphabet of the hash regex: digits without 0, letters
    without [I], [O] and [l]. *)
Definition is_b58 (c : ascii) : bool :=
  let n := nat_of_ascii c in
  ((49 <=? n) && (n <=? 57)) ||
  ((65 <=? n) && (n <=? 90) && negb (n =? 73) && negb (n =? 79)) ||
  ((97 <=? n) && (n <=? 122) && negb (n =? 108)).

Fixpoint all_chars (p : ascii -> bool) (s : string) : bool :=
  match s with
  | EmptyString => true
  | String c s' => p c && all_chars p s'
  end.

(** The longest prefix of word characters, and what follows it: a greedy
    [\w+] never gives back characters here, since what follows a shorter
    run is a word character and not the closing quote. *)
Fixpoint word_span (s : string) : string * string :=
  match s with
  | String c s' =>
      if is_word_char c then let '(w, r) := word_span s' in (String c w, r)
      else (EmptyString, s)
  | EmptyString => (EmptyString, EmptyString)
  end.

Fixpoint strip_prefix (p s : string) : option string :=
  match p, s with
  | EmptyString, _ => Some s
  | String a p', String b s' => if ascii_dec a b then strip_prefix p' s' else None
  | String _ _, EmptyString => None
  end.

Definition period_marker : string := "Current period: " +:+ dq.

(** The regex anchored at the start of [s]. *)
Definition match_period_at (s : string) : option string :=
  match strip_prefix period_marker s with
  | None => None
  | Some rest =>
      let '(w, after) := word_span rest in
      if String.eqb w "" then None
      else if String.prefix dq after then Some w else None
  end.

(** [re.search(...)]: the leftmost position where the regex matches. *)
Fixpoint search_current_period (s : string) : option string :=
  match match_period_at s with
  | Some w => Some w
  | None => match s with
            | EmptyString => None
            | String _ s' => search_current_period s'
            end
  end.

(** A hash starts here: [P] and fifty base-58 characters. *)
Definition hash_at (s : string) : bool :=
  match s with
  | String c t =>
      Ascii.eqb c "P"%char && (50 <=? String.length t) &&
      all_chars is_b58 (substring 0 50 t)
  | EmptyString => false
  end.

(** [re.findall]: after a match the scan resumes past it; [skip] counts
    the characters of the current match still to pass. *)
Fixpoint findall_go (skip : nat) (s : string) : list string :=
  match s with
  | EmptyString => []
  | String _ t =>
      match skip with
      | S k => findall_go k t
      | O => if hash_at s then substring 0 51 s :: findall_go 50 t
             else findall_go 0 t
      end
  end.

Definition findall_protocol_hashes (s : string) : list string := findall_go 0 s.

(** A whole string that is one protocol hash. *)
Definition is_protocol_hash (s : string) : bool :=
  (String.length s =? 51) && hash_at s.

(** ** String lemmas *)
Lemma substring_app (u t : string) : substring 0 (String.length u) (u +:+ t) = u.
Proof. induction u as [|c u IH]; [by destruct t|]. rewrite append_cons. simpl. by rewrite IH. Qed.

Lemma substring_full (u : string) : substring 0 (String.length u) u = u.
Proof. pose proof (substring_app u "") as H. by rewrite append_nil_r in H. Qed.

Lemma all_chars_app p (a b : string) :
  all_chars p (a +:+ b) = all_chars p a && all_chars p b.
Proof. induction a as [|c a IH]; [done|]. rewrite append_cons. simpl. by rewrite IH, andb_assoc. Qed.

Lemma strip_prefix_app (p r : string) : strip_prefix p (p +:+ r) = Some r.
Proof.
  induction p as [|c p IH]; [done|]. rewrite append_cons. simpl.
  by destruct (ascii_dec c c).
Qed.

Lemma strip_prefix_spec (p s r : string) : strip_prefix p s = Some r -> s = p +:+ r.
Proof.
  revert s. induction p as [|c p IH]; intros [|d s]; simpl; rewrite ?append_nil_l; try congruence.
  destruct (ascii_dec c d) as [->|]; [|done]. intros H. rewrite append_cons. f_equal. auto.
Qed.

Lemma word_span_spec (s w r : string) :
  word_span s = (w, r) -> s = w +:+ r /\ all_chars is_word_char w = true.
Proof.
  revert w r. induction s as [|c s IH]; intros w r; simpl; [by intros [= <- <-]|].
  destruct (is_word_char c) eqn:Hc; [|by intros [= <- <-]].
  destruct (word_span s) as [w' r'] eqn:E. intros [= <- <-].
  destruct (IH _ _ eq_refl) as [-> Hw]. simpl. rewrite Hc, Hw. done.
Qed.

Lemma word_span_app (w t : string) :
  all_chars is_word_char w = true -> word_span (w +:+ dq +:+ t) = (w, dq +:+ t).
Proof.
  induction w as [|c w IH]; [done|]. simpl. intros [Hc Hw]%andb_prop.
  rewrite Hc, IH by done. done.
Qed.

(** ** The period regex *)
Lemma match_period_at_spec (s w : string) :
  match_period_at s = Some w ->
  exists b, s = period_marker +:+ w +:+ dq +:+ b /\ w <> "" /\
            all_chars is_word_char w = true.
Proof.
  unfold match_period_at. destruct (strip_prefix period_marker s) as [rest|] eqn:E; [|done].
  apply strip_prefix_spec in E as ->.
  destruct (word_span rest) as [w' after] eqn:Ew.
  apply word_span_spec in Ew as [-> Hw].
  destruct (String.eqb_spec w' "") as [|Hne]; [done|].
  destruct (String.prefix dq after) eqn:Hp; [|done]. intros [= <-].
  apply prefix_spec in Hp as [b ->]. by exists b.
Qed.

Lemma match_period_at_app (w b : string) :
  w <> "" -> all_chars is_word_char w = true ->
  match_period_at (period_marker +:+ w +:+ dq +:+ b) = Some w.
Proof.
  intros Hne Hw. unfold match_period_at. rewrite strip_prefix_app, word_span_app by done.
  destruct (String.eqb_spec w "") as [|_]; [done|]. by rewrite prefix_app.
Qed.

Lemma search_current_period_at (s w : string) :
  match_period_at s = Some w -> search_current_period s = Some w.
Proof. intros H. destruct s; cbn [search_current_period]; by rewrite H. Qed.

Lemma search_current_period_skip (c : ascii) (s : string) :
  match_period_at (String c s) = None ->
  search_current_period (String c s) = search_current_period s.
Proof. intros H. cbn [search_current_period]. by rewrite H. Qed.

(** ** The hash regex *)
Lemma is_protocol_hash_inv (h : string) :
  is_protocol_hash h = true ->
  exists h', h = String "P" h' /\ String.length h' = 50 /\ all_chars is_b58 h' = true.
Proof.
  unfold is_protocol_hash. destruct h as [|c h']; [done|].
  simpl. intros [Hl [[Hc _]%andb_prop Hb]%andb_prop]%andb_prop.
  apply Nat.eqb_eq in Hl. apply Ascii.eqb_eq in Hc as ->.
  exists h'. rewrite <- Hl, substring_full in Hb. done.
Qed.

Lemma hash_at_app (h t : string) :
  is_protocol_hash h = true -> hash_at (h +:+ t) = true.
Proof.
  intros (h' & -> & Hl & Hb)%is_protocol_hash_inv.
  rewrite append_cons. cbn [hash_at].
  rewrite length_append_str, <- Hl, substring_app, Hb, Ascii.eqb_refl, andb_true_r.
  apply Nat.leb_le. lia.
Qed.

Lemma findall_go_skip (u t : string) :
  findall_go (String.length u) (u +:+ t) = findall_go 0 t.
Proof. induction u as [|c u IH]; [done|]. rewrite append_cons. simpl. done. Qed.

Lemma findall_go_hash (h t : string) :
  is_protocol_hash h = true -> findall_go 0 (h +:+ t) = h :: findall_go 0 t.
Proof.
  intros Hh. pose proof (hash_at_app h t Hh) as Ha.
  destruct (is_protocol_hash_inv h Hh) as (h' & -> & Hl & _).
  rewrite append_cons in *. cbn [findall_go]. rewrite Ha.
  rewrite <- Hl, findall_go_skip. f_equal.
  cbn [substring]. by rewrite substring_app.
Qed.

(** Text with no [P] holds no hash and does not disturb the scan. *)
Definition no_P (s : string) : bool := all_chars (fun c => negb (Ascii.eqb c "P"%char)) s.

Lemma findall_go_no_P (u t : string) :
  no_P u = true -> findall_go 0 (u +:+ t) = findall_go 0 t.
Proof.
  induction u as [|c u IH]; [done|]. unfold no_P in *. cbn [all_chars].
  intros [Hc Hu]%andb_prop. rewrite append_cons. cbn [findall_go].
  assert (hash_at (String c (u +:+ t)) = false) as ->.
  { cbn [hash_at]. apply negb_true_iff in Hc. by rewrite Hc. }
  by apply IH.
Qed.

(** Text with no [C] holds no start of the period regex. *)
Definition no_C (s : string) : bool := all_chars (fun c => negb (Ascii.eqb c "C"%char)) s.

Lemma search_current_period_no_C (u t : string) :
  no_C u = true -> search_current_period (u +:+ t) = search_current_period t.
Proof.
  induction u as [|c u IH]; [done|]. unfold no_C in *. cbn [all_chars].
  intros [Hc Hu]%andb_prop. rewrite append_cons, search_current_period_skip; [by apply IH|].
  apply negb_true_iff, Ascii.eqb_neq in Hc.
  unfold match_period_at.
  replace period_marker with (String "C" ("urrent period: " +:+ dq)) by reflexivity.
  cbn [strip_prefix]. by destruct (ascii_dec "C" c) as [<-|].
Qed.

Lemma findall_go_concat (sep : string) (hs : list string) (t : string) :
  Forall (fun h => is_protocol_hash h = true) hs -> no_P sep = true ->
  findall_go 0 (String.concat sep hs +:+ t) = hs ++ findall_go 0 t.
Proof.
  intros Hhs Hsep. induction Hhs as [|h hs Hh Hhs IH]; [done|].
  destruct hs as [|h' hs]; simpl.
  - by rewrite findall_go_hash.
  - rewrite !append_assoc_str, findall_go_hash, findall_go_no_P by done.
    f_equal. exact IH.
Qed.

(** [re.search(b'Current period: "(\w+)"', info).group(1)] returns a
    word that the output holds between the marker and a closing quote: the
    matcher finds only what the regex describes. *)
Theorem search_current_period_sound (info w : string) :
  search_current_period info = Some w ->
  exists a b, info = a +:+ period_marker +:+ w +:+ dq +:+ b /\
              w <> "" /\ all_chars is_word_char w = true.
Proof.
  induction info as [|c info IH]; cbn [search_current_period].
  - destruct (match_period_at "") as [w'|] eqn:E; [|done]. intros [= <-].
    apply match_period_at_spec in E as (b & Hb & Hw). by exists "", b.
  - destruct (match_period_at (String c info)) as [w'|] eqn:E.
    + intros [= <-]. apply match_period_at_spec in E as (b & Hb & Hw). by exists "", b.
    + intros (a & b & -> & Hw)%IH. exists (String c a), b. by rewrite append_cons.
Qed.

Lemma search_current_period_sound_witness :
  search_current_period (period_marker +:+ "proposal" +:+ dq) = Some "proposal" /\
  exists a b, period_marker +:+ "proposal" +:+ dq = a +:+ period_marker +:+ "proposal" +:+ dq +:+ b /\
              "proposal" <> "" /\ all_chars is_word_char "proposal" = true.
Proof.
  split; [reflexivity|]. apply search_current_period_sound. reflexivity.
Defined.

(** C32: the period name printed by [octez-client show voting period] as
    [Current period: "name"] (after text with no [C]) is what the wizard
    reads back. *)
Theorem search_current_period_roundtrip (pre w post : string) :
  no_C pre = true -> w <> "" -> all_chars is_word_char w = true ->
  search_current_period (pre +:+ period_marker +:+ w +:+ dq +:+ post) = Some w.
Proof.
  intros Hpre Hne Hw. rewrite search_current_period_no_C by done.
  by apply search_current_period_at, match_period_at_app.
Qed.

Lemma search_current_period_roundtrip_witness :
  search_current_period ("Voting " +:+ period_marker +:+ "exploration" +:+ dq +:+ " rest")
  = Some "exploration".
Proof. apply search_current_period_roundtrip; [reflexivity | discriminate | reflexivity]. Defined.

(** C33: [re.findall] with the protocol-hash regex returns exactly the
    hashes a listing holds, in order, when they are separated and
    surrounded by text with no [P]. *)
Theorem findall_protocol_hashes_roundtrip (pre sep post : string) (hs : list string) :
  Forall (fun h => is_protocol_hash h = true) hs ->
  no_P pre = true -> no_P sep = true -> no_P post = true ->
  findall_protocol_hashes (pre +:+ String.concat sep hs +:+ post) = hs.
Proof.
  intros Hhs Hpre Hsep Hpost. unfold findall_protocol_hashes.
  rewrite findall_go_no_P, findall_go_concat by done.
  rewrite <- (append_nil_r post), findall_go_no_P by done. apply app_nil_r.
Qed.

Definition sample_hash : string := "PtLimaPtLayWhFgbzCwqWBeN4MbC4MaFHQmqNpSgqkdV4Wo51sx".

Lemma findall_protocol_hashes_roundtrip_witness :
  findall_protocol_hashes ("Current proposals: " +:+ String.concat " 3 votes; " [sample_hash; sample_hash] +:+ "")
  = [sample_hash; sample_hash].
Proof.
  apply findall_protocol_hashes_roundtrip; [repeat constructor | reflexivity..].
Defined.

(** ** [re.search] is the leftmost match *)
Lemma search_current_period_unfold s :
  search_current_period s =
    match match_period_at s with
    | Some w => Some w
    | None => match s with EmptyString => None | String _ s' => search_current_period s' end
    end.
Proof. by destruct s. Qed.

Lemma search_current_period_first (a b w : string) :
  match_period_at b = Some w ->
  (forall a1 a2, a = a1 +:+ a2 -> a2 <> "" -> match_period_at (a2 +:+ b) = None) ->
  search_current_period (a +:+ b) = Some w.
Proof.
  revert b. induction a as [|c a IH]; intros b Hb Hn.
  - by rewrite append_nil_l, search_current_period_unfold, Hb.
  - rewrite search_current_period_unfold, (Hn "" (String c a)) by done.
    rewrite append_cons. cbv iota. apply IH; [done|].
    intros a1 a2 -> Ha2. apply (Hn (String c a1)); [done | exact Ha2].
Qed.

Lemma search_current_period_split (s w : string) :
  search_current_period s = Some w ->
  exists a b, s = a +:+ b /\ match_period_at b = Some w /\
    forall a1 a2, a = a1 +:+ a2 -> a2 <> "" -> match_period_at (a2 +:+ b) = None.
Proof.
  induction s as [|c s IH]; cbn [search_current_period].
  - intros Hm. exists "", "". split; [done|]. split; [done|]. by intros [] [].
  - destruct (match_period_at (String c s)) as [w'|] eqn:E.
    + intros [= <-]. exists "", (String c s). split; [done|]. split; [done|]. by intros [] [].
    + intros (a & b & -> & Hb & Hn)%IH. exists (String c a), b. split; [done|]. split; [done|].
      intros [|d a1] a2 Ha Ha2.
      * rewrite append_nil_l in Ha. subst a2. by rewrite append_cons.
      * rewrite append_cons in Ha. injection Ha as -> ->. by apply (Hn a1).
Qed.

(** ** The regexes as statements about strings *)

(** [Current period: "(\w+)"] matches at the front of [s] with the group
    [w]. *)
Definition period_regex_at (s w : string) : Prop :=
  exists b, s = period_marker +:+ w +:+ dq +:+ b /\ w <> "" /\ all_chars is_word_char w = true.

(** The protocol-hash regex matches [h] as a whole: [P] and fifty
    characters of the class. *)
Definition protocol_hash_shape (h : string) : Prop :=
  exists t, h = String "P" t /\ String.length t = 50 /\ all_chars is_b58 t = true.

(** The protocol-hash regex matches at the front of [s]. *)
Definition hash_regex_at (s : string) : Prop := exists h r, s = h +:+ r /\ protocol_hash_shape h.

(** No match of the hash regex starts at a position of [g], the text
    going on with [t]. *)
Definition no_hash_in (g t : string) : Prop :=
  forall g1 g2, g = g1 +:+ g2 -> g2 <> "" -> ~ hash_regex_at (g2 +:+ t).

(** What [re.findall] returns for a regex whose matches are never empty:
    the text is gaps and matches in turn, each match is the leftmost one
    after the previous, and no match starts in the last gap. *)
Inductive findall_hashes_spec : string -> list string -> Prop :=
| findall_end g : no_hash_in g "" -> findall_hashes_spec g []
| findall_match g h rest hs :
    no_hash_in g (h +:+ rest) -> protocol_hash_shape h -> findall_hashes_spec rest hs ->
    findall_hashes_spec (g +:+ h +:+ rest) (h :: hs).

(** ** [re.search] against the regex *)
Lemma match_period_at_iff (s w : string) : match_period_at s = Some w <-> period_regex_at s w.
Proof.
  split; [apply match_period_at_spec|].
  intros (b & -> & Hne & Hw). by apply match_period_at_app.
Qed.

Lemma match_period_at_None (s : string) : match_period_at s = None <-> forall w, ~ period_regex_at s w.
Proof.
  split.
  - intros H w Hr%match_period_at_iff. congruence.
  - intros H. destruct (match_period_at s) as [w|] eqn:E; [|done].
    apply match_period_at_iff in E. by destruct (H w).
Qed.

(** ** [re.findall] against the regex *)
Lemma length_substring0 n t : n <= String.length t -> String.length (substring 0 n t) = n.
Proof.
  revert n. induction t as [|c t IH]; intros [|n] Hn; simpl in *; try lia.
  f_equal. apply IH. lia.
Qed.

Lemma substring0_split n t : n <= String.length t -> exists r, t = substring 0 n t +:+ r.
Proof.
  revert n. induction t as [|c t IH]; intros [|n] Hn; simpl in *; try lia; [by eexists..|].
  destruct (IH n) as [r Hr]; [lia|]. exists r. rewrite append_cons. by f_equal.
Qed.

Lemma is_protocol_hash_shape (h : string) : is_protocol_hash h = true <-> protocol_hash_shape h.
Proof.
  split; [apply is_protocol_hash_inv|]. intros (t & -> & Hl & Hb).
  unfold is_protocol_hash. cbn [hash_at String.length].
  assert (substring 0 50 t = t) as -> by (rewrite <- Hl; apply substring_full).
  by rewrite Hl, Hb.
Qed.

(** [hash_at] is the regex at the front. *)
Lemma hash_at_iff (s : string) : hash_at s = true <-> hash_regex_at s.
Proof.
  split.
  - destruct s as [|c t]; [done|]. cbn [hash_at]. intros [[Hc Hl]%andb_prop Hb]%andb_prop.
    apply Ascii.eqb_eq in Hc as ->. apply Nat.leb_le in Hl.
    destruct (substring0_split 50 t Hl) as [r Hr].
    exists (String "P" (substring 0 50 t)), r. split; [by rewrite append_cons, <- Hr|].
    exists (substring 0 50 t). by rewrite length_substring0.
  - intros (h & r & -> & Hh). apply hash_at_app, is_protocol_hash_shape, Hh.
Qed.

Lemma no_hash_in_nil t : no_hash_in "" t.
Proof. intros [|??] [|??]; done. Qed.

(** A gap with no match is skipped by the scan. *)
Lemma findall_go_gap (g t : string) : no_hash_in g t -> findall_go 0 (g +:+ t) = findall_go 0 t.
Proof.
  induction g as [|c g IH]; intros Hg; [done|].
  rewrite append_cons. cbn [findall_go].
  destruct (hash_at (String c (g +:+ t))) eqn:Ha.
  - apply hash_at_iff in Ha. destruct (Hg "" (String c g)); [done | done | by rewrite append_cons].
  - apply IH. intros g1 g2 -> Hg2. apply (Hg (String c g1) g2); [by rewrite append_cons | done].
Qed.

Lemma append_eq_nil_r (a b : string) : a +:+ b = "" -> b = "".
Proof. by destruct a, b. Qed.

(** A nonempty suffix of [g] followed by [c] is a suffix of [g] followed
    by [c]. *)
Lemma string_app_snoc_inv (g : string) (c : ascii) (g1 g2 : string) :
  g +:+ String c "" = g1 +:+ g2 -> g2 <> "" -> exists g2', g2 = g2' +:+ String c "" /\ g = g1 +:+ g2'.
Proof.
  revert g. induction g1 as [|d g1 IH]; intros g Heq Hg2.
  - by exists g.
  - destruct g as [|e g]; rewrite append_cons in Heq; simpl in Heq; injection Heq as -> Heq.
    + by apply eq_sym, append_eq_nil_r in Heq.
    + destruct (IH g Heq Hg2) as (g2' & -> & ->). by exists g2'.
Qed.

(** A gap followed by a position where no match starts is a longer gap. *)
Lemma no_hash_in_snoc (g : string) (c : ascii) (t : string) :
  no_hash_in g (String c t) -> ~ hash_regex_at (String c t) -> no_hash_in (g +:+ String c "") t.
Proof.
  intros Hg Hc g1 g2 Heq Hg2.
  destruct (string_app_snoc_inv g c g1 g2 Heq Hg2) as (g2' & -> & ->).
  destruct (String.eqb_spec g2' "") as [->|Hne]; [exact Hc|].
  rewrite append_assoc_str. exact (Hg g1 g2' eq_refl Hne).
Qed.

Lemma findall_go_complete n : forall g s, String.length s <= n -> no_hash_in g s ->
  findall_hashes_spec (g +:+ s) (findall_go 0 s).
Proof.
  induction n as [n IH] using lt_wf_ind. intros g [|c t] Hn Hg.
  - constructor. by rewrite append_nil_r.
  - cbn [findall_go]. destruct (hash_at (String c t)) eqn:Ha.
    + pose proof Ha as Hh. apply hash_at_iff in Hh as (h & r & Hs & Hshape).
      pose proof Hshape as (h' & -> & Hl & _).
      rewrite append_cons in Hs. injection Hs as -> ->.
      rewrite <- Hl, findall_go_skip. cbn [substring]. rewrite substring_app.
      rewrite <- append_cons. constructor; [by rewrite append_cons | done|].
      refine (IH (String.length r) _ "" r (le_n _) (no_hash_in_nil r)).
      simpl in Hn. rewrite length_append_str in Hn. lia.
    + replace (g +:+ String c t) with ((g +:+ String c "") +:+ t) by by rewrite append_assoc_str.
      apply (IH (String.length t)); [simpl in Hn; lia | done |].
      apply no_hash_in_snoc; [done|]. intros Hh%hash_at_iff. congruence.
Qed.

Lemma findall_go_sound s hs : findall_hashes_spec s hs -> findall_go 0 s = hs.
Proof.
  induction 1 as [g Hg | g h rest hs Hg Hh _ IH].
  - rewrite <- (append_nil_r g) at 1. by rewrite findall_go_gap.
  - rewrite findall_go_gap, findall_go_hash by (done || by apply is_protocol_hash_shape). by f_equal.
Qed.

(** C30: [re.search(b'Current period: "(\w+)"', info).group(1)] is the
    leftmost match of the regex: it answers [w] exactly when [info] is
    [a], then the marker [Current period: {dq}], the nonempty word [w], a closing quote
    and any rest, where the regex matches at no position inside [a]. *)
Theorem search_current_period_leftmost (info w : string) :
  search_current_period info = Some w <->
  exists a b, info = a +:+ period_marker +:+ w +:+ dq +:+ b /\ w <> "" /\ all_chars is_word_char w = true /\
    forall a1 a2 w', a = a1 +:+ a2 -> a2 <> "" -> ~ period_regex_at (a2 +:+ period_marker +:+ w +:+ dq +:+ b) w'.
Proof.
  split.
  - intros (a & b & -> & (b' & -> & Hne & Hw)%match_period_at_iff & Hn)%search_current_period_split.
    exists a, b'. do 3 (split; [done|]). intros a1 a2 w' Ha Ha2. by apply match_period_at_None, (Hn a1).
  - intros (a & b & -> & Hne & Hw & Hn). apply search_current_period_first; [by apply match_period_at_app|].
    intros a1 a2 Ha Ha2. apply match_period_at_None. intros w'. exact (Hn a1 a2 w' Ha Ha2).
Qed.

(** C31: [re.findall(protocol_hash_regex, info)] returns the hashes [hs]
    exactly when [info] is made of gaps and hashes in turn, the hashes
    being [hs] in order, where each hash is [P] and fifty characters of
    the class and no match of the regex starts inside a gap: the matches
    are the leftmost ones, taken without overlap, to the end of the text. *)
Theorem findall_protocol_hashes_spec (info : string) (hs : list string) :
  findall_protocol_hashes info = hs <-> findall_hashes_spec info hs.
Proof.
  unfold findall_protocol_hashes. split; [|apply findall_go_sound].
  intros <-. apply (findall_go_complete (String.length info) "" info); [done | apply no_hash_in_nil].
Qed.

