(* ===== verification/Validators.v ===== *)
(** * Validators: the validator chain of the wizard's steps

    The module [tezos_baking.validators] is not under src/; its predicates
    are modelled from the spec (section 4.2), with the behaviour the
    wizard relies on: a validator receives the raw answer and either
    accepts it, returning the value to store (for [enum_range], the option
    an index designates), or rejects it with a reason.  The only effect a
    validator has is the HTTP probe of [reachable_url], so a validator
    receives the prober of the world ([w_reachable]) as an argument.

    [Validator] is the class of the same name: built from a list it runs
    the list as a chain, each predicate receiving the previous one's
    value and the first rejection ending the chain; built from a single
    predicate it runs that predicate. *)

From S2P Require Import Prelude Runtime Patterns.
From Stdlib Require Import DecimalNat.

Inductive vres :=
| Accept (v : string)
| Reject (reason : string).

Definition validator : Type := (string -> bool) -> string -> vres.

Inductive Validator :=
| VChain (vs : list validator)
| VSingle (v : validator).

Fixpoint run_chain (vs : list validator) (probe : string -> bool) (s : string) : vres :=
  match vs with
  | [] => Accept s
  | v :: vs' =>
      match v probe s with
      | Accept s' => run_chain vs' probe s'
      | Reject e => Reject e
      end
  end.

(** [Validator.validate]. *)
Definition validate (V : Validator) (probe : string -> bool) (s : string) : vres :=
  match V with
  | VChain vs => run_chain vs probe s
  | VSingle v => v probe s
  end.


(** [required_field]: rejects an empty or whitespace-only answer. *)
Definition required_field : validator := fun _ s =>
  if blank s then Reject "Please provide an input." else Accept s.

(** The position of an answer among the option numbers ["1"], ["2"], ... *)
Definition option_index (n : nat) (s : string) : option nat :=
  fst <$> list_find (fun t => t = s) (str_of_nat <$> seq 1 n).

(** [enum_range(options)]: an option's number designates that option; an
    option's literal text designates itself; anything else is rejected. *)
Definition enum_range (options : list string) : validator := fun _ s =>
  match option_index (List.length options) s with
  | Some i => match options !! i with
              | Some o => Accept o
              | None => Reject "Please choose one of the provided values or use their respective numbers."
              end
  | None => if bool_decide (s ∈ options) then Accept s
            else Reject "Please choose one of the provided values or use their respective numbers."
  end.

(** [protocol_hash]: the answer has the shape of a protocol hash. *)
Definition protocol_hash : validator := fun _ s =>
  if is_protocol_hash s then Accept s
  else Reject "The input doesn't match the format for a protocol hash.".

(** [mk_full_url(host, path)]. *)
Definition mk_full_url (host path : string) : string := host +:+ "/" +:+ path.

(** [reachable_url(suffix)]: the URL answers an HTTP request at [suffix]. *)
Definition reachable_url (suffix : string) : validator := fun probe s =>
  if probe (mk_full_url s suffix) then Accept s
  else Reject ("We couldn't connect to " +:+ mk_full_url s suffix +:+ ".").

(** [any_of(v1, v2, ...)]: the first validator that accepts decides; when
    all reject, the reasons are reported together, one per line. *)
Fixpoint any_of (vs : list validator) : validator := fun probe s =>
  match vs with
  | [] => Reject ""
  | [v] => v probe s
  | v :: vs' =>
      match v probe s with
      | Accept x => Accept x
      | Reject e =>
          match any_of vs' probe s with
          | Accept x => Accept x
          | Reject e' => Reject (e +:+ newline +:+ e')
          end
      end
  end.


(** ** Option numbers *)
Lemma str_of_nat_inj (a b : nat) : str_of_nat a = str_of_nat b -> a = b.
Proof.
  unfold str_of_nat. intros H. apply (f_equal NilEmpty.uint_of_string) in H.
  rewrite !NilEmpty.usu in H. injection H as H. by apply DecimalNat.Unsigned.to_uint_inj.
Qed.

Lemma string_of_uint_digits (d : Decimal.uint) :
  all_chars is_digit (NilEmpty.string_of_uint d) = true.
Proof. induction d; simpl; auto. Qed.

(** A string with a character that is no digit is no option number. *)
Lemma not_str_of_nat (s : string) (n : nat) :
  all_chars is_digit s = false -> s <> str_of_nat n.
Proof. intros Hs ->. unfold str_of_nat in Hs. by rewrite string_of_uint_digits in Hs. Qed.

Lemma option_index_Some (n : nat) (s : string) (i : nat) :
  option_index n s = Some i <-> i < n /\ s = str_of_nat (S i).
Proof.
  unfold option_index. split.
  - destruct (list_find _ _) as [[j t]|] eqn:E; [|done]. intros [= <-].
    apply list_find_Some in E as (Hl & -> & _).
    rewrite list_lookup_fmap in Hl.
    destruct (seq 1 n !! j) as [k|] eqn:Ek; [|done].
    apply lookup_seq in Ek as [-> ?]. injection Hl as <-. done.
  - intros [Hi ->].
    assert (list_find (fun t => t = str_of_nat (S i)) (str_of_nat <$> seq 1 n)
            = Some (i, str_of_nat (S i))) as ->; [|done].
    apply list_find_Some. rewrite list_lookup_fmap, lookup_seq_lt by done.
    split; [done|]. split; [done|]. intros j y Hj Hji ->.
    rewrite list_lookup_fmap in Hj. destruct (seq 1 n !! j) as [k|] eqn:Ek; [|done].
    apply lookup_seq in Ek as [-> _]. injection Hj as Hj%str_of_nat_inj. lia.
Qed.

Lemma option_index_None (n : nat) (s : string) :
  option_index n s = None <-> forall i, i < n -> s <> str_of_nat (S i).
Proof.
  split.
  - intros Hn i Hi ->. assert (option_index n (str_of_nat (S i)) = Some i) as Hs.
    { by apply option_index_Some. }
    congruence.
  - intros H. destruct (option_index n s) as [i|] eqn:E; [|done].
    apply option_index_Some in E as [Hi ->]. by destruct (H i Hi).
Qed.

Lemma run_chain_app (vs1 vs2 : list validator) probe s :
  run_chain (vs1 ++ vs2) probe s =
  match run_chain vs1 probe s with
  | Accept s' => run_chain vs2 probe s'
  | Reject e => Reject e
  end.
Proof.
  revert s. induction vs1 as [|v vs1 IH]; intros s; [done|]. simpl.
  destruct (v probe s); [apply IH | done].
Qed.

Lemma any_of_cons (v : validator) (vs : list validator) probe s :
  vs <> [] ->
  any_of (v :: vs) probe s =
  match v probe s with
  | Accept x => Accept x
  | Reject e => match any_of vs probe s with
                | Accept x => Accept x
                | Reject e' => Reject (e +:+ newline +:+ e')
                end
  end.
Proof. by destruct vs. Qed.

(** [enum_range(options)] accepts exactly an option's number, giving
    the option it designates, or, when the answer is no option number, an
    option's literal text, giving that text. *)
Theorem enum_range_spec (opts : list string) probe (s v : string) :
  enum_range opts probe s = Accept v <->
  (exists i, i < List.length opts /\ s = str_of_nat (S i) /\ opts !! i = Some v) \/
  ((forall i, i < List.length opts -> s <> str_of_nat (S i)) /\ v = s /\ v ∈ opts).
Proof.
  unfold enum_range. destruct (option_index _ s) as [i|] eqn:E.
  - apply option_index_Some in E as [Hi ->].
    destruct (opts !! i) as [o|] eqn:Ho; [|apply lookup_ge_None in Ho; lia].
    split; [intros [= <-]; left; eauto|].
    intros [(j & Hj & Heq%str_of_nat_inj & Hv) | (Hn & _)]; [|by destruct (Hn i Hi)].
    injection Heq as ->. congruence.
  - pose proof (proj1 (option_index_None _ _) E) as Hn.
    case_bool_decide as Hin.
    + split; [intros [= <-]; right; auto|].
      intros [(j & Hj & -> & _) | (_ & -> & _)]; [by destruct (Hn j Hj) | done].
    + split; [done|].
      intros [(j & Hj & -> & _) | (_ & -> & Hv)]; [by destruct (Hn j Hj) | done].
Qed.

(** whatever [enum_range(options)] accepts is one of the options. *)
Corollary enum_range_member (opts : list string) probe (s v : string) :
  enum_range opts probe s = Accept v -> v ∈ opts.
Proof.
  intros [(i & _ & _ & Hv) | (_ & _ & Hv)]%enum_range_spec; [|done].
  by eapply list_elem_of_lookup_2.
Qed.

Lemma enum_range_member_witness :
  enum_range ["yay"; "nay"; "pass"] (fun _ => false) "2" = Accept "nay" /\
  "nay" ∈ ["yay"; "nay"; "pass"].
Proof. split; [reflexivity|]. apply (enum_range_member _ (fun _ => false) "2"). reflexivity. Defined.

(** [protocol_hash] accepts only a string of 51 characters made of
    [P] and fifty base-58 characters, and returns it unchanged: a wrong
    length, a wrong first letter or a character outside the alphabet is
    rejected. *)
Theorem protocol_hash_accepts_only_hashes probe (s v : string) :
  protocol_hash probe s = Accept v ->
  v = s /\ exists t, s = String "P" t /\ String.length t = 50 /\ all_chars is_b58 t = true.
Proof.
  unfold protocol_hash. destruct (is_protocol_hash s) eqn:E; [|done].
  intros [= <-]. split; [done|]. by apply is_protocol_hash_inv.
Qed.

Lemma protocol_hash_accepts_only_hashes_witness :
  protocol_hash (fun _ => false) sample_hash = Accept sample_hash /\
  sample_hash = sample_hash /\ exists t, sample_hash = String "P" t /\
    String.length t = 50 /\ all_chars is_b58 t = true.
Proof. split; [reflexivity|]. apply (protocol_hash_accepts_only_hashes (fun _ => false)). reflexivity. Defined.

(** [any_of(...)] accepts an answer exactly when one of its
    validators accepts it. *)
Theorem any_of_accepts (vs : list validator) probe (s : string) :
  (exists x, any_of vs probe s = Accept x) <->
  Exists (fun f => exists x, f probe s = Accept x) vs.
Proof.
  induction vs as [|v vs IH]; [split; [by intros [? ?] | by intros ?%Exists_nil]|].
  rewrite Exists_cons. destruct (decide (vs = [])) as [->|Hne].
  - simpl. rewrite Exists_nil. tauto.
  - rewrite any_of_cons by done. rewrite <- IH.
    destruct (v probe s) as [x|e]; [split; eauto|].
    destruct (any_of vs probe s) as [x'|e'].
    + split; [intros [x Hx]; right; by exists x|].
      intros [[x Hx]|[x Hx]]; [done | by exists x].
    + split; [by intros [x Hx]|]. by intros [[x Hx]|[x Hx]].
Qed.

(** when [any_of(...)] rejects, its message holds the reason of
    every validator it tried, and every one of them rejected. *)
Theorem any_of_rejects (vs : list validator) probe (s e : string) :
  vs <> [] -> any_of vs probe s = Reject e ->
  Forall (fun f => exists e', f probe s = Reject e' /\ contains e' e = true) vs.
Proof.
  revert e. induction vs as [|v vs IH]; intros e Hne; [done|].
  destruct (decide (vs = [])) as [->|Hvs].
  - simpl. intros He. constructor; [|done]. exists e. auto with wiz.
  - rewrite any_of_cons by done.
    destruct (v probe s) as [x|e1] eqn:E1; [done|].
    destruct (any_of vs probe s) as [x|e2] eqn:E2; [done|]. intros [= <-].
    constructor; [exists e1; split; [done | by apply contains_app_l, contains_self]|].
    eapply Forall_impl; [exact (IH _ Hvs eq_refl)|].
    intros f (e' & Hf & Hc). exists e'. split; [done|].
    by apply contains_app_r, contains_app_r.
Qed.

Lemma any_of_rejects_witness :
  any_of [protocol_hash; required_field] (fun _ => false) "" =
    Reject ("The input doesn't match the format for a protocol hash." +:+ newline +:+ "Please provide an input.") /\
  Forall (fun f => exists e', f (fun _ => false) "" = Reject e' /\
     contains e' ("The input doesn't match the format for a protocol hash." +:+ newline +:+ "Please provide an input.") = true)
    [protocol_hash; required_field].
Proof. split; [reflexivity|]. apply any_of_rejects; [discriminate | reflexivity]. Defined.

(** a chain stops at its first rejection: validators after a
    rejecting prefix of the chain never change the outcome. *)
Theorem run_chain_short_circuit (vs1 vs2 : list validator) probe (s e : string) :
  run_chain vs1 probe s = Reject e -> run_chain (vs1 ++ vs2) probe s = Reject e.
Proof. intros H. by rewrite run_chain_app, H. Qed.

Lemma run_chain_short_circuit_witness :
  run_chain [required_field] (fun _ => false) " " = Reject "Please provide an input." /\
  run_chain ([required_field] ++ [protocol_hash]) (fun _ => false) " " = Reject "Please provide an input.".
Proof. split; [reflexivity|]. apply run_chain_short_circuit. reflexivity. Defined.

Lemma any_of2_accept (a b : validator) probe s v :
  any_of [a; b] probe s = Accept v -> a probe s = Accept v \/ b probe s = Accept v.
Proof.
  simpl. destruct (a probe s); [intros [= ->]; by left|].
  destruct (b probe s); [intros [= ->]; by right | done].
Qed.

(** A chain that first requires an answer. *)
Lemma validate_required (v : validator) probe s :
  validate (VChain [required_field; v]) probe s =
  if blank s then Reject "Please provide an input." else v probe s.
Proof. simpl. unfold required_field. destruct (blank s); [done|]. by destruct (v probe s). Qed.

(** An answer with a non-digit character is taken literally. *)
Lemma enum_range_literal (opts : list string) probe s :
  all_chars is_digit s = false -> s ∈ opts -> enum_range opts probe s = Accept s.
Proof.
  intros Hd Hin. apply enum_range_spec. right. split; [|done].
  intros i _. by apply not_str_of_nat.
Qed.

Lemma enum_range_index (opts : list string) probe i o :
  opts !! i = Some o -> enum_range opts probe (str_of_nat (S i)) = Accept o.
Proof.
  intros Ho. apply enum_range_spec. left. exists i.
  split; [by apply lookup_lt_Some in Ho|done].
Qed.
