(* ===== verification/Wizard.v ===== *)
(** * Wizard: steps and the engine that asks them

    [Step] and [Setup.query_step] come from [tezos_baking.wizard_structure],
    which is not under src/; they are modelled from the spec (section 4.1).
    One round of [query_step] prints the prompt, the numbered options and
    the default, reads a line, and then:
    - on [help] or [?] (any case) prints the help and asks again, without
      a validation attempt;
    - on [exit] (any case) raises [KeyboardInterrupt], which unwinds the
      whole run;
    - otherwise validates the answer (the default when the line is empty)
      and, when it is accepted, stores the validated value under the
      step's id in [self.config]; when it is rejected, prints the reason
      and asks again, with no limit on the number of attempts.

    [query_spec] is the same behaviour as a function of the input lines
    alone; [query_step_refines] shows the engine implements it, from which
    termination follows.  [yes_or_no] is the confirmation prompt of
    [tezos_baking.util] with the same shape. *)

From S2P Require Import Prelude Runtime Validators.

(** The options of a step: a plain list of literals, or literals with
    descriptions (a Python dict, in insertion order). *)
Inductive Options :=
| OptList (l : list string)
| OptDict (l : list (string * string)).

Definition option_keys (o : Options) : list string :=
  match o with
  | OptList l => l
  | OptDict l => fst <$> l
  end.

Record Step := mkStep {
  s_id : string;
  s_prompt : string;
  s_default : option string;
  s_help : string;
  s_options : option Options;
  s_validator : Validator
}.

Fixpoint print_lines (l : list string) : M unit :=
  match l with
  | [] => mret tt
  | x :: l' => print x;; print_lines l'
  end.

Definition option_line (i : nat) (kd : string * string) : string :=
  str_of_nat (S i) +:+ ") " +:+ kd.1 +:+
  (if String.eqb kd.2 "" then "" else ": " +:+ kd.2).

Definition option_lines (o : Options) : list string :=
  match o with
  | OptList l => imap (fun i k => option_line i (k, "")) l
  | OptDict l => imap option_line l
  end.

(** The text shown before each read. *)
Definition render_step (st : Step) : M unit :=
  print (s_prompt st);;
  print_lines (default [] (option_lines <$> s_options st));;
  match s_default st with
  | Some d => print ("Default: " +:+ d)
  | None => mret tt
  end.

(** The answer validated for a line: the default replaces an empty line. *)
Definition answer_of (st : Step) (line : string) : string :=
  if String.eqb line "" then default "" (s_default st) else line.

Inductive round :=
| RHelp
| RExit
| RAccept (v : string)
| RReject (reason : string).

(** What one line does to a step. *)
Definition classify_answer (st : Step) (probe : string -> bool) (line : string) : round :=
  if bool_decide (lower line ∈ ["help"; "?"]) then RHelp
  else if String.eqb (lower line) "exit" then RExit
  else match validate (s_validator st) probe (answer_of st line) with
       | Accept v => RAccept v
       | Reject e => RReject e
       end.

(** What follows a round; [again] asks the step once more. *)
Definition after_round (st : Step) (again : M string) (r : round) : M string :=
  match r with
  | RHelp => print (s_help st);; again
  | RExit => mthrow KeyboardInterrupt
  | RAccept v => cfg_set (s_id st) (VStr v);; mret v
  | RReject e => print e;; again
  end.

Fixpoint query_loop (fuel : nat) (st : Step) : M string :=
  match fuel with
  | O => mthrow OutOfFuel
  | S n =>
      render_step st;;
      line ← input;
      probe ← get_prober;
      after_round st (query_loop n st) (classify_answer st probe line)
  end.

(** [Setup.query_step(step)]: every round reads a line, so one more round
    than there are lines left is enough. *)
Definition query_step (st : Step) : M string := fun w =>
  query_loop (S (List.length (w_input w))) st w.

(** [query_and_update_config(step)] asks the step the same way. *)
Definition query_and_update_config (st : Step) : M string := query_step st.

(** The behaviour of [query_step] as a function of the remaining lines:
    the result and the lines left after it. *)
Fixpoint query_spec (st : Step) (probe : string -> bool) (lines : list string)
  : res string * list string :=
  match lines with
  | [] => (Exn EOFError, [])
  | l :: rest =>
      match classify_answer st probe l with
      | RHelp | RReject _ => query_spec st probe rest
      | RExit => (Exn KeyboardInterrupt, rest)
      | RAccept v => (Ok v, rest)
      end
  end.

(** [yes_or_no(prompt, default)]: [yes]/[y] and [no]/[n] in any case; an
    empty line gives the default; anything else asks again. *)
Definition yes_no_answer (default_ : option string) (choice : string) : option bool :=
  let c := lower choice in
  match default_ with
  | Some d => if String.eqb c "" then Some (bool_decide (d ∈ ["yes"; "y"])) else None
  | None => None
  end ∪
  (if bool_decide (c ∈ ["yes"; "y"]) then Some true
   else if bool_decide (c ∈ ["no"; "n"]) then Some false else None).

Fixpoint yes_or_no_loop (fuel : nat) (prompt : string) (default_ : option string) : M bool :=
  match fuel with
  | O => mthrow OutOfFuel
  | S n =>
      print prompt;;
      choice ← input;
      match yes_no_answer default_ choice with
      | Some b => mret b
      | None => print "Please respond with 'yes' or 'no' (or 'y' or 'n').";;
                yes_or_no_loop n prompt default_
      end
  end.

Definition yes_or_no (prompt : string) (default_ : option string) : M bool := fun w =>
  yes_or_no_loop (S (List.length (w_input w))) prompt default_ w.

(** ** The engine implements [query_spec] *)
Lemma Output_print_lines l : Output (print_lines l).
Proof. induction l; simpl; auto with wiz. Qed.

Lemma Output_render_step st : Output (render_step st).
Proof.
  unfold render_step. apply Output_seq; [apply Output_print|].
  apply Output_seq; [apply Output_print_lines|]. destruct (s_default st); auto with wiz.
Qed.

Lemma query_loop_cons n st w l rest :
  w_input w = l :: rest ->
  exists L, query_loop (S n) st w =
    after_round st (query_loop n st) (classify_answer st (w_reachable w) l)
                (pop_input (add_trace L w)).
Proof.
  intros E. destruct (Output_render_step st w) as [L HL].
  exists L. cbn [query_loop]. rewrite (bind_Ok _ _ _ _ _ HL).
  rewrite (bind_Ok _ _ _ _ _ (input_cons (add_trace L w) l rest E)). done.
Qed.

Lemma query_loop_nil n st w :
  w_input w = [] -> exists L, query_loop (S n) st w = (Exn EOFError, add_trace L w).
Proof.
  intros E. destruct (Output_render_step st w) as [L HL].
  exists L. cbn [query_loop]. rewrite (bind_Ok _ _ _ _ _ HL).
  by rewrite (bind_Exn _ _ _ _ _ (input_nil (add_trace L w) E)).
Qed.

Lemma query_spec_not_fuel st probe lines : (query_spec st probe lines).1 <> Exn OutOfFuel.
Proof.
  induction lines as [|l rest IH]; [done|]. simpl.
  by destruct (classify_answer st probe l).
Qed.

(** The configuration after a step: the validated value under the id. *)
Definition stored (st : Step) (r : res string) (c : gmap string value) : gmap string value :=
  match r with
  | Ok v => <[s_id st := VStr v]> c
  | Exn _ => c
  end.

Lemma query_loop_refines n st w r w' :
  List.length (w_input w) < n -> query_loop n st w = (r, w') ->
  (r, w_input w') = query_spec st (w_reachable w) (w_input w) /\
  w_config w' = stored st r (w_config w) /\ w_reachable w' = w_reachable w.
Proof.
  revert w. induction n as [|n IH]; intros w Hlen; [lia|].
  destruct (w_input w) as [|l rest] eqn:E.
  - destruct (query_loop_nil n st w E) as [L ->]. intros [= <- <-]. simpl. by rewrite E.
  - destruct (query_loop_cons n st w l rest E) as [L ->]. simpl query_spec.
    simpl in Hlen. set (w1 := pop_input (add_trace L w)).
    assert (w_input w1 = rest) as E1 by (simpl; by rewrite E).
    destruct (classify_answer st (w_reachable w) l) as [| |v|e]; simpl after_round.
    + destruct (Output_print (s_help st) w1) as [L' HL']. rewrite (bind_Ok _ _ _ _ _ HL').
      intros H. apply IH in H as (H1 & H2 & H3); simpl in *; [|rewrite E1; lia].
      rewrite E1 in H1. done.
    + intros [= <- <-]. simpl. by rewrite E.
    + intros [= <- <-]. simpl. by rewrite E.
    + destruct (Output_print e w1) as [L' HL']. rewrite (bind_Ok _ _ _ _ _ HL').
      intros H. apply IH in H as (H1 & H2 & H3); simpl in *; [|rewrite E1; lia].
      rewrite E1 in H1. done.
Qed.

Lemma query_spec_Ok st probe lines v rest :
  query_spec st probe lines = (Ok v, rest) ->
  exists l, l ∈ lines /\ classify_answer st probe l = RAccept v.
Proof.
  induction lines as [|l ls IH]; [done|]. simpl.
  destruct (classify_answer st probe l) as [| |v'|e] eqn:E.
  - intros (l' & Hl' & Hc)%IH. exists l'. rewrite elem_of_cons. auto.
  - done.
  - intros [= -> _]. exists l. rewrite elem_of_cons. auto.
  - intros (l' & Hl' & Hc)%IH. exists l'. rewrite elem_of_cons. auto.
Qed.

Lemma classify_answer_accept st probe l v :
  classify_answer st probe l = RAccept v ->
  validate (s_validator st) probe (answer_of st l) = Accept v.
Proof.
  unfold classify_answer. case_bool_decide; [done|].
  destruct (String.eqb _ _); [done|]. by destruct (validate _ _ _) as [?|?]; intros [= ->].
Qed.

Lemma Mono_query_loop n st : Mono (query_loop n st).
Proof.
  induction n as [|n IH]; simpl; [apply Mono_throw|].
  apply Mono_bind; [apply Mono_Output, Output_render_step|intros _].
  apply Mono_bind; [apply Mono_input|intros line].
    apply Mono_bind; [apply (Mono_reader (fun w => _))|intros probe].
    destruct (classify_answer st probe line); simpl; mono.
Qed.

Lemma Mono_query_step st : Mono (query_step st).
Proof. intros w r w'. apply Mono_query_loop. Qed.

#[export] Hint Resolve Mono_query_step : wiz.

(** [query_step] implements [query_spec]: its result and the input it
    leaves are those of the rounds of [query_spec] on the lines to read,
    and the configuration changes exactly by storing the accepted value
    under the step's id. *)
Theorem query_step_refines (st : Step) (w : world) r w' :
  query_step st w = (r, w') ->
  (r, w_input w') = query_spec st (w_reachable w) (w_input w) /\
  w_config w' = stored st r (w_config w).
Proof. intros H. apply query_loop_refines in H as (? & ? & _); [done | lia]. Qed.

Definition sample_step : Step :=
  mkStep "ballot_outcome" "Choose the outcome for your ballot." None "help text"
    (Some (OptList ["yay"; "nay"; "pass"]))
    (VChain [required_field; enum_range ["yay"; "nay"; "pass"]]).

Lemma query_step_refines_witness :
  let w := start_world ["?"; "maybe"; "2"] quiet_proc (fun _ => false) ∅ in
  query_step sample_step w = ((query_step sample_step w).1, (query_step sample_step w).2) /\
  ((query_step sample_step w).1, w_input (query_step sample_step w).2)
    = query_spec sample_step (w_reachable w) (w_input w) /\
  w_config (query_step sample_step w).2
    = stored sample_step (query_step sample_step w).1 (w_config w).
Proof.
  intros w. split; [by destruct (query_step sample_step w)|].
  apply query_step_refines. by destruct (query_step sample_step w).
Defined.

(** [query_step] always ends, with a value or a Python exception:
    one round more than the lines left is always enough fuel. *)
Theorem query_step_terminates (st : Step) (w : world) :
  (query_step st w).1 <> Exn OutOfFuel.
Proof.
  destruct (query_step st w) as [r w'] eqn:E. apply query_step_refines in E as [E _].
  simpl. pose proof (query_spec_not_fuel st (w_reachable w) (w_input w)) as H.
  rewrite <- E in H. done.
Qed.

(** a value [query_step] returns was accepted by the step's
    validator for one of the lines read, and is stored under the step's id. *)
Theorem query_step_stores_validated (st : Step) (w w' : world) (v : string) :
  query_step st w = (Ok v, w') ->
  w_config w' !! s_id st = Some (VStr v) /\
  exists line, line ∈ w_input w /\
    validate (s_validator st) (w_reachable w) (answer_of st line) = Accept v.
Proof.
  intros (E & Hc)%query_step_refines. split.
  - rewrite Hc. apply lookup_insert_eq.
  - symmetry in E. apply query_spec_Ok in E as (l & Hl & Hcl).
    exists l. split; [done|]. by apply classify_answer_accept.
Qed.

(** ** Fuel for loops that ask steps *)
Lemma query_spec_Ok_shorter st probe lines v rest :
  query_spec st probe lines = (Ok v, rest) -> List.length rest < List.length lines.
Proof.
  revert rest. induction lines as [|l ls IH]; intros rest; [done|]. simpl.
  destruct (classify_answer st probe l); try (intros H; apply IH in H; lia).
  - done.
  - intros [= _ <-]. lia.
Qed.

Lemma Safe_query_step st : Safe (query_step st).
Proof. split; [apply Mono_query_step | apply query_step_terminates]. Qed.

Lemma query_step_shorter st w v w' :
  query_step st w = (Ok v, w') -> List.length (w_input w') < List.length (w_input w).
Proof. intros [E _]%query_step_refines. symmetry in E. by apply query_spec_Ok_shorter in E. Qed.

(** A step asked before the rest of a loop body pays for one round. *)
Lemma Bounded_query_bind {B} n st (k : string -> M B) :
  (forall a, Bounded n (k a)) -> Bounded (S n) (query_step st ≫= k).
Proof.
  intros Hk w Hw. unfold mbind, PyM_bind.
  destruct (query_step st w) as [[a|e] w1] eqn:E.
  - apply Hk. apply query_step_shorter in E. lia.
  - pose proof (query_step_terminates st w) as H. rewrite E in H. simpl in *. by intros [= ->].
Qed.

Lemma Safe_query_and_update_config st : Safe (query_and_update_config st).
Proof. apply Safe_query_step. Qed.

#[export] Hint Resolve Safe_query_step Safe_query_and_update_config : wiz.

Lemma yes_or_no_loop_bounded n prompt d :
  Bounded n (yes_or_no_loop n prompt d).
Proof.
  induction n as [|n IH]; intros w Hw; [lia|]. cbn [yes_or_no_loop].
  destruct (Output_print prompt w) as [L E]. rewrite (bind_Ok _ _ _ _ _ E).
  destruct (w_input w) as [|l rest] eqn:Ei.
  - by rewrite (bind_Exn _ _ _ _ _ (input_nil (add_trace L w) Ei)).
  - rewrite (bind_Ok _ _ _ _ _ (input_cons (add_trace L w) l rest Ei)).
    destruct (yes_no_answer d l); [done|].
    destruct (Output_print "Please respond with 'yes' or 'no' (or 'y' or 'n')." (pop_input (add_trace L w))) as [L' E'].
    rewrite (bind_Ok _ _ _ _ _ E'). apply IH. simpl in *. rewrite Ei in *. simpl in *. lia.
Qed.

Lemma Mono_yes_or_no_loop n prompt d : Mono (yes_or_no_loop n prompt d).
Proof. induction n; simpl; mono. Qed.

Lemma Safe_yes_or_no prompt d : Safe (yes_or_no prompt d).
Proof.
  split; [intros w r w'; apply Mono_yes_or_no_loop|].
  intros w. apply yes_or_no_loop_bounded. lia.
Qed.

#[export] Hint Resolve Safe_yes_or_no : wiz.

Lemma Consumes_query_step st : Consumes (query_step st).
Proof. intros w a w'. apply query_step_shorter. Qed.

#[export] Hint Resolve Consumes_query_step : wiz.

(** ** Running a step whose first line is accepted *)
Lemma query_step_accept st w l rest v :
  w_input w = l :: rest -> classify_answer st (w_reachable w) l = RAccept v ->
  exists L, query_step st w = (Ok v, set_cfg (s_id st) (VStr v) (pop_input (add_trace L w))).
Proof.
  intros E Hc. unfold query_step. rewrite E. simpl List.length.
  destruct (query_loop_cons (S (List.length rest)) st w l rest E) as [L ->].
  exists L. rewrite Hc. reflexivity.
Qed.

Lemma query_step_accept_bind {B} st (k : string -> M B) w l rest v :
  w_input w = l :: rest -> classify_answer st (w_reachable w) l = RAccept v ->
  exists L, (query_step st ≫= k) w = k v (set_cfg (s_id st) (VStr v) (pop_input (add_trace L w))).
Proof.
  intros E Hc. destruct (query_step_accept st w l rest v E Hc) as [L HL].
  exists L. by rewrite (bind_Ok _ _ _ _ _ HL).
Qed.

(** An answer that is neither [help], [?] nor [exit] is validated. *)
Lemma classify_answer_validated st probe l :
  bool_decide (lower l ∈ ["help"; "?"]) = false -> String.eqb (lower l) "exit" = false ->
  classify_answer st probe l =
  match validate (s_validator st) probe (answer_of st l) with
  | Accept v => RAccept v
  | Reject e => RReject e
  end.
Proof. intros H1 H2. unfold classify_answer. by rewrite H1, H2. Qed.

(** A long answer is no command of the engine. *)
Lemma long_answer_not_command (l : string) :
  4 < String.length l ->
  bool_decide (lower l ∈ ["help"; "?"]) = false /\ String.eqb (lower l) "exit" = false.
Proof.
  intros Hl. split.
  - apply bool_decide_eq_false. intros Hm.
    destruct_mem Hm; apply (f_equal String.length) in Hm; rewrite length_lower in Hm; simpl in Hm; lia.
  - apply String.eqb_neq. intros Hm. apply (f_equal String.length) in Hm.
    rewrite length_lower in Hm. simpl in Hm. lia.
Qed.

Lemma answer_of_nonempty st l : l <> "" -> answer_of st l = l.
Proof. intros H. unfold answer_of. by rewrite (proj2 (String.eqb_neq _ _) H). Qed.

(** The exact lines a round shows before reading. *)
Definition render_trace (st : Step) : list event :=
  match s_default st with Some d => [Printed ("Default: " +:+ d)] | None => [] end ++
  reverse (Printed <$> default [] (option_lines <$> s_options st)) ++ [Printed (s_prompt st)].

Lemma print_lines_run l w : print_lines l w = (Ok tt, add_trace (reverse (Printed <$> l)) w).
Proof.
  revert w. induction l as [|x l IH]; intros w; [by destruct w|]. simpl print_lines.
  rewrite (bind_Ok _ _ _ _ _ (print_run x w)), IH, add_trace_add_trace.
  by rewrite fmap_cons, reverse_cons.
Qed.

Lemma render_step_run st w : render_step st w = (Ok tt, add_trace (render_trace st) w).
Proof.
  unfold render_step, render_trace. out_steps.
  rewrite (bind_Ok _ _ _ _ _ (print_lines_run _ _)), add_trace_add_trace.
  destruct (s_default st); out_steps; [by rewrite app_assoc|].
  rewrite ret_run. by rewrite app_nil_l.
Qed.

Lemma get_prober_bind {B} (f : (string -> bool) -> M B) w :
  (get_prober ≫= f) w = f (w_reachable w) w.
Proof. reflexivity. Qed.

Lemma query_step_accept_run st w l rest v :
  w_input w = l :: rest -> classify_answer st (w_reachable w) l = RAccept v ->
  query_step st w = (Ok v, set_cfg (s_id st) (VStr v) (pop_input (add_trace (render_trace st) w))).
Proof.
  intros E Hc. unfold query_step. rewrite E. simpl List.length. cbn [query_loop].
  rewrite (bind_Ok _ _ _ _ _ (render_step_run st w)).
  rewrite (bind_Ok _ _ _ _ _ (input_cons (add_trace (render_trace st) w) l rest E)).
  rewrite get_prober_bind. change (w_reachable (pop_input (add_trace (render_trace st) w))) with (w_reachable w).
  rewrite Hc. reflexivity.
Qed.

Lemma query_step_accept_eq {B} st (k : string -> M B) w l rest v :
  w_input w = l :: rest -> classify_answer st (w_reachable w) l = RAccept v ->
  (query_step st ≫= k) w = k v (set_cfg (s_id st) (VStr v) (pop_input (add_trace (render_trace st) w))).
Proof. intros E Hc. exact (bind_Ok _ _ _ _ _ (query_step_accept_run st w l rest v E Hc)). Qed.
