(* ===== verification/Steps.v ===== *)
(** * Steps: the questions of the voting wizard

    The step definitions of [tezos_voting_wizard.py], lines 24-186: the
    ballot outcomes and public nodes (global options), the proposal-hash
    steps, the ballot step, the node endpoint step (which probes the public
    nodes when it is built), the baker alias step and the key import step.
    Each Python [Step(...)] is a [mkStep] with the same id, prompt,
    default, help, options and validator; a Python dict of options is an
    [OptDict] whose literals are its keys, and a validator over a dict
    ([enum_range(ballot_outcomes)]) ranges over the keys.

    The theorems say what each step accepts: exactly the option numbers
    and literals it shows, a well-shaped hash, or a reachable URL. *)

From S2P Require Import Prelude Runtime Patterns Validators Wizard.
From Stdlib Require Import DecimalNat.

Definition ballot_outcomes : list (string * string) :=
  [("yay", "Vote for accepting the proposal");
   ("nay", "Vote for rejecting the proposal");
   ("pass", "Submit a vote not influencing the result but contributing to quorum")].

Definition public_nodes : list (string * string) :=
  [("https://rpc.tzbeta.net", "by Tezos Foundation");
   ("https://mainnet.api.tez.ie", "by ECAD Labs");
   ("https://mainnet.smartpy.io", "by SmartPy");
   ("https://teznode.letzbake.com", "by LetzBake!");
   ("https://mainnet-tezos.giganode.io", "by GigaNode")].

Definition new_proposal_query : Step :=
  mkStep "new_proposal_hash"
    "Provide the hash for your newly submitted proposal."
    None
    "The format is 'P[123456789ABCDEFGHJKLMNPQRSTUVWXYZabcdefghijkmnopqrstuvwxyz]{50}'"
    None
    (VChain [required_field; protocol_hash]).

(** The option that asks for a hash not yet proposed. *)
Definition specify_new_hash : string := "Specify new proposal hash".

Definition get_proposal_period_hash (hashes : list string) : Step :=
  let extra_options := [specify_new_hash] in
  mkStep "chosen_hash"
    ("Select a proposal hash." +:+ newline +:+
     "You can choose one of the suggested hashes or provide your own:")
    None
    ("You can submit one proposal at a time." +:+ newline +:+
     "'Specify new proposal hash' will ask a protocol hash from you. ")
    (Some (OptList (hashes ++ extra_options)))
    (VChain [required_field; enum_range (hashes ++ extra_options)]).

Definition ballot_outcome_query : Step :=
  mkStep "ballot_outcome"
    "Choose the outcome for your ballot."
    None
    ("'yay' is for supporting the proposal, 'nay' is for rejecting the proposal," +:+ newline +:+
     "'pass' is used to not influence a vote but still contribute to reaching a quorum.")
    (Some (OptDict ballot_outcomes))
    (VChain [required_field; enum_range (fst <$> ballot_outcomes)]).

Definition node_url_path : string := "chains/main/blocks/head/header".

(** [get_node_rpc_endpoint_query(network, default)]: on mainnet the public
    nodes that answer the probe are offered; the step is built with the
    prober of the moment, as the Python builds it with live probes. *)
Definition get_node_rpc_endpoint_query (probe : string -> bool) (network : string)
  (default_ : option string) : Step :=
  let node_is_alive := fun host => probe (mk_full_url host node_url_path) in
  let relevant_nodes :=
    filter (fun '(url, _) => String.eqb network "mainnet" && node_is_alive url = true)
      public_nodes in
  mkStep "node_rpc_endpoint"
    (if relevant_nodes is [] then "Provide the node's RPC address."
     else "Choose one of the public nodes or provide the node's RPC address.")
    (if relevant_nodes is [] then default_
     else match default_ with None => Some "1" | Some d => Some d end)
    ("The node's RPC address will be used by octez-client to vote. If you have baking set up" +:+
     newline +:+ "through systemd services, the address is usually 'http://localhost:8732' by default.")
    (Some (OptDict relevant_nodes))
    (VChain [required_field;
             any_of [enum_range (fst <$> relevant_nodes); reachable_url node_url_path]]).

Definition baker_alias_query : Step :=
  mkStep "baker_alias"
    "Provide the baker's alias."
    None
    ("The baker's alias will be used by octez-client to vote. If you have baking set up" +:+
     newline +:+ "through systemd services, the address is usually 'baker' by default.")
    None
    (VChain [required_field]).

(** [get_key_mode_query(modes)]: built from the import modes left after
    the caller dropped the ones it disallows. *)
Definition get_key_mode_query (modes : list (string * string)) : Step :=
  mkStep "key_import_mode"
    "How do you want to import the voter key?"
    None
    ("Tezos Voting Wizard will use the 'baker' alias for the key" +:+ newline +:+
     "that will be used for voting. You will only need to import the key" +:+ newline +:+
     "once unless you'll want to change the key.")
    (Some (OptDict modes))
    (VSingle (enum_range (fst <$> modes))).

(** ** What the steps accept *)
Lemma blank_cons_P (t : string) : blank (String "P" t) = false.
Proof. reflexivity. Qed.

Lemma is_protocol_hash_not_blank (h : string) : is_protocol_hash h = true -> blank h = false.
Proof. by intros (t & -> & _)%is_protocol_hash_inv. Qed.

Lemma is_protocol_hash_not_digits (h : string) :
  is_protocol_hash h = true -> all_chars is_digit h = false.
Proof. by intros (t & -> & _)%is_protocol_hash_inv. Qed.

(** What the ballot step's validator accepts. *)
Lemma ballot_outcome_query_validate probe (s v : string) :
  validate (s_validator ballot_outcome_query) probe s = Accept v <->
  (s = "1" /\ v = "yay") \/ (s = "2" /\ v = "nay") \/ (s = "3" /\ v = "pass") \/
  (s = v /\ v ∈ ["yay"; "nay"; "pass"]).
Proof.
  unfold ballot_outcome_query; simpl s_validator. rewrite validate_required.
  destruct (blank s) eqn:B.
  - split; [done|]. intros [[-> _]|[[-> _]|[[-> _]|[-> Hv]]]]; try done.
    destruct_mem Hv.
  - rewrite enum_range_spec. simpl. split.
    + intros [(i & Hi & -> & Hv)|(_ & -> & Hv)]; [|by right; right; right].
      destruct i as [|[|[|i]]]; simpl in Hv; try injection Hv as <-; [left|right;left|right;right;left|]; done || lia.
    + intros [[-> ->]|[[-> ->]|[[-> ->]|[-> Hv]]]];
        [left; exists 0|left; exists 1|left; exists 2|]; try (split; [lia|done]).
      right. split; [|done]. intros i _. apply not_str_of_nat. destruct_mem Hv.
Qed.

(** C34: the ballot step accepts exactly the numbers 1, 2, 3 of the three
    outcomes it shows, giving that outcome, and the outcomes' own names. *)
Theorem ballot_outcome_query_accepts probe (s v : string) :
  validate (s_validator ballot_outcome_query) probe s = Accept v <->
  (s = "1" /\ v = "yay") \/ (s = "2" /\ v = "nay") \/ (s = "3" /\ v = "pass") \/
  (s = v /\ v ∈ ["yay"; "nay"; "pass"]).
Proof. apply ballot_outcome_query_validate. Qed.

(** C36: the answer stored for the chosen hash is one of the hashes read
    from the chain or the option asking for a new hash. *)
Theorem get_proposal_period_hash_accepts (hashes : list string) probe (s v : string) :
  validate (s_validator (get_proposal_period_hash hashes)) probe s = Accept v ->
  v ∈ hashes \/ v = specify_new_hash.
Proof.
  unfold get_proposal_period_hash; simpl s_validator. rewrite validate_required.
  destruct (blank s); [done|]. intros Hv%enum_range_member.
  apply elem_of_app in Hv as [Hv|Hv]; [by left|right]. by apply list_elem_of_singleton.
Qed.

Lemma get_proposal_period_hash_accepts_witness :
  validate (s_validator (get_proposal_period_hash [sample_hash])) (fun _ => false) "2"
    = Accept specify_new_hash /\
  (specify_new_hash ∈ [sample_hash] \/ specify_new_hash = specify_new_hash).
Proof. split; [reflexivity|]. apply (get_proposal_period_hash_accepts [sample_hash] (fun _ => false) "2"). reflexivity. Defined.

Lemma str_of_nat_S_not_blank (n : nat) : blank (str_of_nat (S n)) = false.
Proof.
  unfold str_of_nat. destruct (Nat.to_uint (S n)) eqn:E; try reflexivity.
  apply (f_equal Nat.of_uint) in E. by rewrite DecimalNat.Unsigned.of_to in E.
Qed.

(** each hash the chain lists is accepted when typed in full, and the
    last option number selects the new-hash option. *)
Theorem get_proposal_period_hash_options (hashes : list string) probe (h : string) :
  (h ∈ hashes -> is_protocol_hash h = true ->
   validate (s_validator (get_proposal_period_hash hashes)) probe h = Accept h) /\
  validate (s_validator (get_proposal_period_hash hashes)) probe
    (str_of_nat (S (List.length hashes))) = Accept specify_new_hash.
Proof.
  unfold get_proposal_period_hash; simpl s_validator. rewrite !validate_required. split.
  - intros Hin Hh. rewrite is_protocol_hash_not_blank by done.
    apply enum_range_literal; [by apply is_protocol_hash_not_digits|].
    apply elem_of_app. by left.
  - rewrite str_of_nat_S_not_blank.
    apply enum_range_index. by rewrite lookup_app_r, Nat.sub_diag by lia.
Qed.

Lemma get_proposal_period_hash_options_witness :
  validate (s_validator (get_proposal_period_hash [sample_hash])) (fun _ => false) sample_hash
    = Accept sample_hash /\
  validate (s_validator (get_proposal_period_hash [sample_hash])) (fun _ => false)
    (str_of_nat (S (List.length [sample_hash]))) = Accept specify_new_hash.
Proof.
  destruct (get_proposal_period_hash_options [sample_hash] (fun _ => false) sample_hash) as [H1 H2].
  split; [apply H1; [by apply list_elem_of_singleton | reflexivity] | exact H2].
Defined.

(** What the new-hash step's validator accepts. *)
Lemma new_proposal_query_validate probe (s v : string) :
  validate (s_validator new_proposal_query) probe s = Accept v <->
  v = s /\ is_protocol_hash s = true.
Proof.
  unfold new_proposal_query; simpl s_validator. rewrite validate_required.
  unfold protocol_hash. split.
  - destruct (blank s); [done|]. destruct (is_protocol_hash s) eqn:E; [|done]. by intros [= <-].
  - intros [-> Hh]. by rewrite is_protocol_hash_not_blank, Hh.
Qed.

(** C37: the new-hash step accepts exactly the strings of protocol-hash
    shape, and stores them unchanged. *)
Theorem new_proposal_query_accepts probe (s v : string) :
  validate (s_validator new_proposal_query) probe s = Accept v <->
  v = s /\ is_protocol_hash s = true.
Proof. apply new_proposal_query_validate. Qed.

(** C38: the node endpoint step only accepts an endpoint that answered the
    probe: a public node offered on mainnet, or the URL typed, reachable. *)
Theorem node_rpc_endpoint_accepts probe (network : string) (d : option string) (s v : string) :
  validate (s_validator (get_node_rpc_endpoint_query probe network d)) probe s = Accept v ->
  (network = "mainnet" /\ v ∈ (fst <$> public_nodes) /\
   probe (mk_full_url v node_url_path) = true) \/
  (v = s /\ probe (mk_full_url s node_url_path) = true).
Proof.
  unfold get_node_rpc_endpoint_query; simpl s_validator. rewrite validate_required.
  destruct (blank s); [done|]. intros [Hv%enum_range_member | Hv]%any_of2_accept.
  - left. apply list_elem_of_fmap in Hv as ([url desc] & -> & Hin).
    apply list_elem_of_filter in Hin as [[Hnet Halive]%andb_prop Hin].
    apply String.eqb_eq in Hnet. split; [done|]. split; [|done].
    apply list_elem_of_fmap. by exists (url, desc).
  - right. unfold reachable_url in Hv. by destruct (probe _) eqn:E; [injection Hv as <-|].
Qed.

Lemma node_rpc_endpoint_accepts_witness :
  let probe := fun u => String.eqb u (mk_full_url "https://rpc.tzbeta.net" node_url_path) in
  validate (s_validator (get_node_rpc_endpoint_query probe "mainnet" None)) probe "1"
    = Accept "https://rpc.tzbeta.net" /\
  (("mainnet" = "mainnet" /\ "https://rpc.tzbeta.net" ∈ (fst <$> public_nodes) /\
    probe (mk_full_url "https://rpc.tzbeta.net" node_url_path) = true) \/
   ("https://rpc.tzbeta.net" = "1" /\ probe (mk_full_url "1" node_url_path) = true)).
Proof.
  intros probe. split; [reflexivity|].
  apply (node_rpc_endpoint_accepts probe "mainnet" None "1"). reflexivity.
Defined.

(** C35: asking the ballot step stores under [ballot_outcome] the outcome it
    returns, and that outcome is [yay], [nay] or [pass]. *)
Theorem query_ballot_outcome_stores (w w' : world) (v : string) :
  query_step ballot_outcome_query w = (Ok v, w') ->
  w_config w' !! "ballot_outcome" = Some (VStr v) /\ v ∈ ["yay"; "nay"; "pass"].
Proof.
  intros (Hc & line & _ & Hv)%query_step_stores_validated. split; [done|].
  apply ballot_outcome_query_validate in Hv as [[_ ->]|[[_ ->]|[[_ ->]|[_ Hv]]]];
    [..|done]; rewrite !elem_of_cons; auto.
Qed.

Lemma query_ballot_outcome_stores_witness :
  let w := start_world ["help"; "maybe"; "2"] quiet_proc (fun _ => false) ∅ in
  query_step ballot_outcome_query w = (Ok "nay", (query_step ballot_outcome_query w).2) /\
  w_config (query_step ballot_outcome_query w).2 !! "ballot_outcome" = Some (VStr "nay") /\
  "nay" ∈ ["yay"; "nay"; "pass"].
Proof.
  intros w. assert (query_step ballot_outcome_query w = (Ok "nay", (query_step ballot_outcome_query w).2)) as H.
  { unfold w. vm_compute. reflexivity. }
  split; [exact H|]. exact (query_ballot_outcome_stores _ _ _ H).
Defined.
