(* ===== verification/Client.v ===== *)
(** * Client: how the wizard drives octez-client

    The command prefix every client call uses, the client options built
    from the configuration ([get_tezos_client_options] and
    [check_ledger_use] of [tezos_baking.wizard_structure], not under src/:
    modelled from the spec, section 6), and [wait_for_ledger_app]
    (wizard, lines 68-85): a loop that lists the connected ledgers and
    sleeps a second until the listing says the wanted Tezos app is open.
    The loop has no bound in the code; [ledger_poll] takes fuel, and
    [wait_for_ledger_app_polls] shows that fuel one beyond the listing
    that shows the app is enough, and that the loop then runs exactly one
    round per listing up to it. *)

From S2P Require Import Prelude Runtime Control.

(** [suppress_warning_text]: the environment setting that silences the
    client's disclaimer. *)
Definition suppress_warning_text : string := "TEZOS_CLIENT_UNSAFE_DISABLE_DISCLAIMER=Y".

(** [f"sudo -u tezos {suppress_warning_text} octez-client {args}"]. *)
Definition octez_client (args : string) : string :=
  "sudo -u tezos " +:+ suppress_warning_text +:+ " octez-client " +:+ args.

(** [get_tezos_client_options()]. *)
Definition get_tezos_client_options : M string :=
  dir ← cfg_str "client_data_dir";
  endpoint ← cfg_str "node_rpc_endpoint";
  mret ("--base-dir " +:+ dir +:+ " --endpoint " +:+ endpoint).

Definition ledger_prefix : string := "ledger://".

(** [check_ledger_use()]: the voter key lives on a ledger. *)
Definition check_ledger_use : M bool :=
  v ← cfg_str "baker_key_value";
  mret (String.prefix ledger_prefix v).

(** The command [wait_for_ledger_app] polls with. *)
Definition list_ledgers_cmd (client_dir : string) : string :=
  octez_client ("--base-dir " +:+ client_dir +:+ " list connected ledgers").

Definition sleep_cmd : string := "sleep 1".

(** [b"Found a Tezos " + bytes(app_name, "utf8")]. *)
Definition search_string (app_name : string) : string := "Found a Tezos " +:+ app_name.

(** [while re.search(search_string, output) is None:] with the last
    listing in [output]. *)
Fixpoint ledger_poll (fuel : nat) (search client_dir output : string) : M unit :=
  if contains search output then mret tt
  else match fuel with
       | O => mthrow OutOfFuel
       | S n =>
           r ← get_proc_output (list_ledgers_cmd client_dir);
           proc_call sleep_cmd;;
           ledger_poll n search client_dir (stdout r)
       end.

(** [wait_for_ledger_app(app_name, client_dir)]; [app_name] is [Wallet]
    or [Baking]. *)
Definition wait_for_ledger_app (fuel : nat) (app_name client_dir : string) : M unit :=
  log_info ("Waiting for the ledger " +:+ app_name +:+ " app to be opened");;
  print ("Please make sure the Tezos " +:+ app_name +:+ " app is open on your ledger.");;
  print (color ("Waiting for the Tezos " +:+ app_name +:+ " app to be opened...") color_green);;
  ledger_poll fuel (search_string app_name) client_dir "".

(** ** The polling loop ends *)

(** The world after [k] rounds of the loop: a listing, then a sleep. *)
Fixpoint polled (k : nat) (dir : string) (w : world) : world :=
  match k with
  | O => w
  | S k => polled k dir (after_cmd sleep_cmd (after_cmd (list_ledgers_cmd dir) w))
  end.

Lemma ledger_poll_found fuel search dir out w :
  contains search out = true -> ledger_poll fuel search dir out w = (Ok tt, w).
Proof. intros H. destruct fuel; simpl; by rewrite H. Qed.

Lemma w_ncalls_after2 dir w :
  w_ncalls (after_cmd sleep_cmd (after_cmd (list_ledgers_cmd dir) w)) = w_ncalls w + 2.
Proof. simpl. lia. Qed.

(** Listings that do not show the app, then one that does at round [k]:
    the loop runs exactly [k + 1] rounds. *)
Lemma ledger_poll_rounds k fuel search dir out w :
  k < fuel -> contains search out = false ->
  (forall j, j <= k -> returncode (w_proc w (w_ncalls w + 2 * j + 1) sleep_cmd) = 0%Z) ->
  (forall j, j < k -> contains search (stdout (w_proc w (w_ncalls w + 2 * j) (list_ledgers_cmd dir))) = false) ->
  contains search (stdout (w_proc w (w_ncalls w + 2 * k) (list_ledgers_cmd dir))) = true ->
  ledger_poll fuel search dir out w = (Ok tt, polled (S k) dir w).
Proof.
  revert fuel w out. induction k as [|k IH]; intros fuel w out Hk Hout Hsleep Hmiss Hfound;
    (destruct fuel as [|n]; [lia|]); cbn [ledger_poll]; rewrite Hout;
    rewrite (bind_Ok _ _ _ _ _ (get_proc_output_run _ w));
    (assert (returncode (next_answer sleep_cmd (after_cmd (list_ledgers_cmd dir) w)) = 0%Z) as Hs
       by (rewrite <- (Hsleep 0) by lia; unfold next_answer; simpl; repeat f_equal; lia));
    rewrite (bind_Ok _ _ _ _ _ (proc_call_ok _ _ Hs)).
  - rewrite ledger_poll_found; [done|]. rewrite Nat.add_0_r in Hfound. exact Hfound.
  - apply IH; rewrite ?w_ncalls_after2; [lia | | | |].
    + rewrite <- (Hmiss 0) by lia. unfold next_answer. by rewrite Nat.add_0_r.
    + intros j Hj. replace (w_ncalls w + 2 + 2 * j + 1) with (w_ncalls w + 2 * S j + 1) by lia.
      apply Hsleep. lia.
    + intros j Hj. replace (w_ncalls w + 2 + 2 * j) with (w_ncalls w + 2 * S j) by lia.
      apply Hmiss. lia.
    + replace (w_ncalls w + 2 + 2 * k) with (w_ncalls w + 2 * S k) by lia. exact Hfound.
Qed.

(** The lines the wait prints before it polls, newest first. *)
Definition wait_lines (app : string) : list event :=
  [Printed (color ("Waiting for the Tezos " +:+ app +:+ " app to be opened...") color_green);
   Printed ("Please make sure the Tezos " +:+ app +:+ " app is open on your ledger.");
   Logged Info ("Waiting for the ledger " +:+ app +:+ " app to be opened")].

Lemma wait_for_ledger_app_run fuel app dir w :
  wait_for_ledger_app fuel app dir w =
  ledger_poll fuel (search_string app) dir "" (add_trace (wait_lines app) w).
Proof. unfold wait_for_ledger_app. out_steps. by rewrite ?add_trace_add_trace. Qed.

(** C40: [wait_for_ledger_app] prints its three lines, then lists the
    connected ledgers and sleeps a second, round after round, until a
    listing shows [Found a Tezos <app>]: when the first listing that shows
    it is the [k]-th and the sleeps succeed, it returns after exactly
    [k + 1] listings and [k + 1] sleeps, given fuel beyond [k]. *)
Theorem wait_for_ledger_app_polls (k fuel : nat) (app dir : string) (w : world) :
  k < fuel ->
  (forall j, j <= k -> returncode (w_proc w (w_ncalls w + 2 * j + 1) "sleep 1") = 0%Z) ->
  (forall j, j < k ->
     contains ("Found a Tezos " +:+ app) (stdout (w_proc w (w_ncalls w + 2 * j) (list_ledgers_cmd dir))) = false) ->
  contains ("Found a Tezos " +:+ app) (stdout (w_proc w (w_ncalls w + 2 * k) (list_ledgers_cmd dir))) = true ->
  wait_for_ledger_app fuel app dir w = (Ok tt, polled (S k) dir (add_trace (wait_lines app) w)).
Proof.
  intros Hk Hs Hm Hf. rewrite wait_for_ledger_app_run.
  by apply (ledger_poll_rounds k).
Qed.

Lemma Safe_check_ledger_use : Safe check_ledger_use.
Proof. unfold check_ledger_use. safe. Qed.

Lemma Safe_get_tezos_client_options : Safe get_tezos_client_options.
Proof. unfold get_tezos_client_options. safe. Qed.

#[export] Hint Resolve Safe_check_ledger_use Safe_get_tezos_client_options : wiz.

(** ** The polling loop under a responsive ledger *)
Lemma Mono_ledger_poll fuel search dir out : Mono (ledger_poll fuel search dir out).
Proof. revert out. induction fuel; intros out; simpl; mono. Qed.

Lemma Mono_wait_for_ledger_app fuel app dir : Mono (wait_for_ledger_app fuel app dir).
Proof. unfold wait_for_ledger_app. mono. apply Mono_ledger_poll. Qed.

#[export] Hint Resolve Mono_ledger_poll Mono_wait_for_ledger_app : wiz.

(** A ledger that, from any point of the run on, shows the Wallet and the
    Baking app, the two the wizard waits for, within fewer than [fuel]
    listings: the operator opens the app asked for. *)
Definition Responsive (fuel : nat) (w : world) : Prop :=
  forall n dir app, app ∈ ["Wallet"; "Baking"] -> exists k, k < fuel /\
    contains (search_string app) (stdout (w_proc w (n + 2 * k) (list_ledgers_cmd dir))) = true.

Lemma Stable_Responsive fuel : Stable (Responsive fuel).
Proof. intros w w' (_ & _ & _ & _ & Hp & _) H n dir app. rewrite Hp. apply H. Qed.

(** The loop does not run out of fuel when the [k]-th listing shows the
    app, whether or not the sleeps in between succeed. *)
Lemma ledger_poll_guarded k fuel search dir out w :
  k < fuel ->
  contains search (stdout (w_proc w (w_ncalls w + 2 * k) (list_ledgers_cmd dir))) = true ->
  (ledger_poll fuel search dir out w).1 <> Exn OutOfFuel.
Proof.
  revert fuel w out. induction k as [|k IH]; intros fuel w out Hk Hfound;
    (destruct fuel as [|n]; [lia|]); cbn [ledger_poll];
    (destruct (contains search out); [done|]);
    rewrite (bind_Ok _ _ _ _ _ (get_proc_output_run _ w));
    unfold proc_call; rewrite bind_assoc_run, get_proc_output_bind;
    (destruct (Z.eqb _ 0); [rewrite (bind_Ok _ _ _ _ _ (ret_run _ _)) | by rewrite throw_bind_run]).
  - rewrite Nat.add_0_r in Hfound. destruct n; cbn [ledger_poll]; unfold next_answer in *; by rewrite Hfound.
  - apply IH; [lia|]. rewrite <- Hfound. simpl. repeat f_equal. lia.
Qed.

Lemma wait_for_ledger_app_guarded fuel app dir :
  app ∈ ["Wallet"; "Baking"] -> Guarded (Responsive fuel) (wait_for_ledger_app fuel app dir).
Proof.
  intros Happ w Hw. rewrite wait_for_ledger_app_run.
  destruct (Hw (w_ncalls w) dir app Happ) as (k & Hk & Hf). by apply (ledger_poll_guarded k).
Qed.

Lemma wait_for_wallet_guarded fuel dir : Guarded (Responsive fuel) (wait_for_ledger_app fuel "Wallet" dir).
Proof. apply wait_for_ledger_app_guarded. set_solver. Qed.

Lemma wait_for_baking_guarded fuel dir : Guarded (Responsive fuel) (wait_for_ledger_app fuel "Baking" dir).
Proof. apply wait_for_ledger_app_guarded. set_solver. Qed.

#[export] Hint Resolve wait_for_wallet_guarded wait_for_baking_guarded : wiz.

Lemma wait_for_ledger_app_polls_witness :
  let w := start_world [] (fun n c => if Nat.eqb n 2 then mkProc 0 "Found a Tezos Wallet app" "" else mkProc 0 "" "")
                       (fun _ => false) ∅ in
  wait_for_ledger_app 3 "Wallet" "/var/lib/tezos/client-mainnet" w =
    (Ok tt, polled 2 "/var/lib/tezos/client-mainnet" (add_trace (wait_lines "Wallet") w)).
Proof.
  intros w. apply (wait_for_ledger_app_polls 1); [lia | | | reflexivity].
  - intros j Hj. destruct j as [|[|j]]; [reflexivity | reflexivity | lia].
  - intros j Hj. assert (j = 0) as -> by lia. reflexivity.
Defined.
