(* ===== verification/Voting.v ===== *)
(** * Voting: the voting-period controller

    The methods of the wizard's [Setup] class that read the voting period
    and vote (tezos_voting_wizard.py, lines 302-454):
    - [fill_voting_period_info]: runs [octez-client show voting period],
      stores the period name under [amendment_phase] and the hashes the
      output lists under [proposal_hashes]; a failing command ends the run
      with [KeyboardInterrupt], and output without a period line raises
      [AttributeError] (the [.group(1)] of a failed [re.search]);
    - [process_proposal_period]: asks for a hash (one of the listed ones
      or a new one), submits it, and handles a failure by its stderr
      ([handle_proposal_result], lines 345-391): an invalid proposal asks
      again, three known errors are reported, anything else raises
      [OSError] with the client's stderr;
    - [process_voting_period]: shows the single current proposal, asks for
      a ballot, submits it and handles a failure
      ([handle_ballot_result], lines 416-454).

    The retry of [process_proposal_period] is a recursive call in Python;
    here [proposal_loop] takes fuel, and [process_proposal_period] gives it
    one round more than the lines of input left, which is proved enough.

    The spec's classification of submission failures (section 4.4) is
    written as [proposal_outcome] and [ballot_outcome]; the refinement
    theorems relate the handlers to them, and show where the ballot
    handler departs from the spec. *)

From S2P Require Import Prelude Runtime Patterns Validators Wizard Steps Client.

(** ** Reading the voting period *)

Definition fill_voting_period_info : M unit :=
  log_info "Filling in voting period info";;
  log_info "Getting voting period from octez-client";;
  opts ← cfg_str "tezos_client_options";
  voting_proc ← get_proc_output (octez_client (opts +:+ " show voting period"));
  info ← (if Z.eqb (returncode voting_proc) 0 then mret (stdout voting_proc)
          else print_and_log_error "Couldn't get the voting period info.";;
               print "Please check that the network for voting has been set up correctly.";;
               mthrow KeyboardInterrupt);
  match search_current_period info with
  | Some phase => cfg_set "amendment_phase" (VStr phase)
  | None => mthrow (AttributeError "'NoneType' object has no attribute 'group'")
  end;;
  cfg_set "proposal_hashes" (VList (findall_protocol_hashes info)).

(** ** Proposal period *)

Definition ledger_prompt : M unit :=
  ledger ← check_ledger_use;
  if (ledger : bool)
  then print (color "Waiting for your response to the prompt on your Ledger Device..." color_green)
  else mret tt.

Definition submit_proposals_cmd (opts alias hash : string) : string :=
  octez_client (opts +:+ " submit proposals for " +:+ alias +:+ " " +:+ hash).

(** Lines 345-391: what a finished submission leads to; [again] is the
    recursive call that asks for a hash once more. *)
Definition handle_proposal_result (again : M unit) (result : proc_result) : M unit :=
  if negb (Z.eqb (returncode result) 0) then
    print "";;
    if contains "Invalid proposal" (stderr result) || contains "invalid proposal" (stderr result) then
      log_error "The submitted proposal hash is invalid";;
      print (color "The submitted proposal hash is invalid." color_red);;
      print "Check your custom submitted proposal hash and try again.";;
      again
    else
      (if contains "Unauthorized proposal" (stderr result) then
         log_error "Cannot submit because of an unauthorized proposal.";;
         print (color "Cannot submit because of an unauthorized proposal." color_red);;
         print "This means you are not present in the voting listings."
       else if contains "Not in a proposal period" (stderr result) then
         log_error "Cannot submit because the voting period is no longer 'proposal'.";;
         print (color "Cannot submit because the voting period is no longer 'proposal'." color_red);;
         print "This means the voting period has already advanced."
       else if contains "Too many proposals" (stderr result) then
         log_error "Cannot submit because of too many proposals submitted.";;
         print (color "Cannot submit because of too many proposals submitted." color_red);;
         print "This means you have already submitted more than 20 proposals."
       else
         log_error "Something went wrong when calling octez-client";;
         print "Something went wrong when calling octez-client. Please consult the logs.";;
         mthrow (OSError (stderr result)));;
      print "Please check your baker data and possibly try again."
  else mret tt.

(** The hash the operator chose: a listed one, or a new one asked for. *)
Definition choose_proposal_hash : M string :=
  hashes ← cfg_list "proposal_hashes";
  query_step (get_proposal_period_hash hashes);;
  hash_to_submit ← cfg_str "chosen_hash";
  if String.eqb hash_to_submit specify_new_hash then
    query_step new_proposal_query;;
    cfg_str "new_proposal_hash"
  else mret hash_to_submit.

Fixpoint proposal_loop (fuel : nat) : M unit :=
  match fuel with
  | O => mthrow OutOfFuel
  | S n =>
      log_info "Processing proposal period";;
      hash_to_submit ← choose_proposal_hash;
      log_info "Submitting proposals";;
      ledger_prompt;;
      opts ← cfg_str "tezos_client_options";
      alias ← cfg_str "baker_alias";
      result ← get_proc_output (submit_proposals_cmd opts alias hash_to_submit);
      handle_proposal_result (proposal_loop n) result
  end.

(** [process_proposal_period()]: each retry asks a step, which reads a
    line, so one more round than the lines left is enough. *)
Definition process_proposal_period : M unit := fun w =>
  proposal_loop (S (List.length (w_input w))) w.

(** ** Exploration and promotion periods *)

Definition submit_ballot_cmd (opts alias hash outcome : string) : string :=
  octez_client (opts +:+ " submit ballot for " +:+ alias +:+ " " +:+ hash +:+ " " +:+ outcome).

Definition unauthorized_ballot : string := "Unauthorized ballot".
Definition wrong_period : string := "Not in Exploration or Promotion period".

(** Lines 416-454.  The two checks are [if] and [if]/[else], as in the
    code: the [else] belongs to the second check only. *)
Definition handle_ballot_result (result : proc_result) : M unit :=
  if negb (Z.eqb (returncode result) 0) then
    (if contains unauthorized_ballot (stderr result) then
       log_error "Cannot vote because of an unauthorized ballot";;
       print "";;
       print (color "Cannot vote because of an unauthorized ballot." color_red);;
       print2 "This either means you have already voted or that you are not in the"
              "voting listings in the first place.";;
       print "Please check your baker data and possibly try again."
     else mret tt);;
    if contains wrong_period (stderr result) then
      phase ← cfg_str "amendment_phase";
      log_error ("Cannot vote because the voting period is no longer '" +:+ phase +:+ "'");;
      print "";;
      print2 (color "Cannot vote because the voting period is" color_red)
             (color ("no longer '" +:+ phase +:+ "'.") color_red);;
      print "This most likely means the voting period has already advanced to the next one."
    else
      log_error "Something went wrong when calling octez-client";;
      print "Something went wrong when calling octez-client. Please consult the logs.";;
      mthrow (OSError (stderr result))
  else mret tt.

Definition process_voting_period : M unit :=
  log_info "Processing voting period";;
  print "The current proposal is:";;
  hashes ← cfg_list "proposal_hashes";
  current ← head_or_index_error hashes;
  print current;;
  print "";;
  query_step ballot_outcome_query;;
  log_info "Submitting ballot";;
  ledger_prompt;;
  opts ← cfg_str "tezos_client_options";
  alias ← cfg_str "baker_alias";
  hashes' ← cfg_list "proposal_hashes";
  current' ← head_or_index_error hashes';
  outcome ← cfg_str "ballot_outcome";
  result ← get_proc_output (submit_ballot_cmd opts alias current' outcome);
  handle_ballot_result result.

(** ** The spec's classification of submission failures

    Section 4.4 of the spec: a failed proposal submission is classified by
    fixed substrings of the client's stderr, in priority order; an invalid
    proposal is asked again, three conditions are reported, and anything
    else is a fatal error carrying the raw stderr. *)
Inductive proposal_outcome :=
| PSubmitted
| PRetry
| PUnauthorized
| PPeriodAdvanced
| PTooMany
| PFatal (err : string).

Definition proposal_outcome_of (r : proc_result) : proposal_outcome :=
  let e := stderr r in
  if Z.eqb (returncode r) 0 then PSubmitted
  else if contains "Invalid proposal" e || contains "invalid proposal" e then PRetry
  else if contains "Unauthorized proposal" e then PUnauthorized
  else if contains "Not in a proposal period" e then PPeriodAdvanced
  else if contains "Too many proposals" e then PTooMany
  else PFatal e.

(** The line that explains a reported condition to the operator. *)
Definition proposal_report (o : proposal_outcome) : string :=
  match o with
  | PUnauthorized => "This means you are not present in the voting listings."
  | PPeriodAdvanced => "This means the voting period has already advanced."
  | PTooMany => "This means you have already submitted more than 20 proposals."
  | _ => ""
  end.

(** C1: the proposal handler implements the spec's classification: success
    does nothing, an invalid proposal prints and asks again, a reported
    condition prints its explanation and returns, and anything else
    raises [OSError] with the raw stderr; only the trace changes before. *)
Theorem handle_proposal_result_refines (again : M unit) (r : proc_result) (w : world) :
  match proposal_outcome_of r with
  | PSubmitted => handle_proposal_result again r w = (Ok tt, w)
  | PRetry => exists L, handle_proposal_result again r w = again (add_trace L w)
  | PFatal e => exists L, handle_proposal_result again r w = (Exn (OSError e), add_trace L w)
  | o => exists L, handle_proposal_result again r w = (Ok tt, add_trace L w) /\
                   Printed (proposal_report o) ∈ L
  end.
Proof.
  unfold proposal_outcome_of, handle_proposal_result.
  destruct (Z.eqb (returncode r) 0); [done|]. cbv [negb].
  out_steps.
  destruct (_ || _); [out_steps; by eexists|].
  destruct (contains "Unauthorized proposal" _);
    [|destruct (contains "Not in a proposal period" _);
      [|destruct (contains "Too many proposals" _)]];
    out_steps; try (eexists; split; [reflexivity | set_solver]).
  by eexists.
Qed.

(** The spec's classification of a ballot submission (section 4.4): an
    unauthorized ballot and a period that moved on are reported and end
    the workflow; anything else is fatal. *)
Inductive ballot_outcome :=
| BSubmitted
| BUnauthorized
| BPeriodAdvanced
| BFatal (err : string).

Definition ballot_outcome_of (r : proc_result) : ballot_outcome :=
  if Z.eqb (returncode r) 0 then BSubmitted
  else if contains unauthorized_ballot (stderr r) then BUnauthorized
  else if contains wrong_period (stderr r) then BPeriodAdvanced
  else BFatal (stderr r).

(** What the spec's outcome means for the run: reported conditions end
    the workflow normally, fatal ones raise. *)
Definition ballot_spec_result (o : ballot_outcome) : res unit :=
  match o with
  | BFatal e => Exn (OSError e)
  | _ => Ok tt
  end.

(** C5: the ballot handler, on every branch: success and a period that
    moved on end normally; any other failure raises [OSError] with the raw
    stderr, whether or not an unauthorized ballot was reported first; the
    handler runs no command and reads no input. *)
Theorem handle_ballot_result_behaviour (r : proc_result) (w : world) (phase : string) :
  w_config w !! "amendment_phase" = Some (VStr phase) ->
  exists L, handle_ballot_result r w =
    (if Z.eqb (returncode r) 0 then Ok tt
     else if contains wrong_period (stderr r) then Ok tt
     else Exn (OSError (stderr r)), add_trace L w).
Proof.
  intros Hp. unfold handle_ballot_result.
  destruct (Z.eqb (returncode r) 0); [exists []; by destruct w|]. cbv [negb].
  destruct (contains unauthorized_ballot _); out_steps;
    (destruct (contains wrong_period _); out_steps; [|by eexists]);
    rewrite (cfg_str_bind _ (VStr phase)) by cfg_lookups; out_steps; by eexists.
Qed.

Lemma handle_ballot_result_behaviour_witness :
  let r := mkProc 1 "" "Error: Not in Exploration or Promotion period" in
  let w := set_cfg "amendment_phase" (VStr "exploration") (start_world [] quiet_proc (fun _ => false) ∅) in
  w_config w !! "amendment_phase" = Some (VStr "exploration") /\
  exists L, handle_ballot_result r w =
    (if Z.eqb (returncode r) 0 then Ok tt
     else if contains wrong_period (stderr r) then Ok tt
     else Exn (OSError (stderr r)), add_trace L w).
Proof.
  intros r w. split; [reflexivity|].
  apply (handle_ballot_result_behaviour r w "exploration"). reflexivity.
Defined.

(** C2: an unauthorized ballot, which the spec classifies as reported and
    not fatal, is reported and then also raised as [OSError]: the second
    check of the handler is an [if] whose [else] fires for it. *)
Theorem unauthorized_ballot_aborts (r : proc_result) (w : world) :
  returncode r <> 0%Z -> contains unauthorized_ballot (stderr r) = true ->
  contains wrong_period (stderr r) = false ->
  ballot_outcome_of r = BUnauthorized /\
  ballot_spec_result (ballot_outcome_of r) = Ok tt /\
  exists L, handle_ballot_result r w = (Exn (OSError (stderr r)), add_trace L w) /\
            Printed (color "Cannot vote because of an unauthorized ballot." color_red) ∈ L.
Proof.
  intros Hrc Hu Hw. unfold ballot_outcome_of, handle_ballot_result.
  rewrite (proj2 (Z.eqb_neq _ _) Hrc), Hu, Hw. split; [done|]. split; [done|].
  cbv [negb]. out_steps. eexists. split; [reflexivity | set_solver].
Qed.

Lemma unauthorized_ballot_aborts_witness :
  let r := mkProc 1 "" "Error: Unauthorized ballot" in
  let w := start_world [] quiet_proc (fun _ => false) ∅ in
  ballot_outcome_of r = BUnauthorized /\
  ballot_spec_result (ballot_outcome_of r) = Ok tt /\
  exists L, handle_ballot_result r w = (Exn (OSError (stderr r)), add_trace L w) /\
            Printed (color "Cannot vote because of an unauthorized ballot." color_red) ∈ L.
Proof. intros r w. apply unauthorized_ballot_aborts; [discriminate | reflexivity | reflexivity]. Defined.

(** ** The retry loop ends *)
Lemma Safe_ledger_prompt : Safe ledger_prompt.
Proof. unfold ledger_prompt. safe. Qed.

#[export] Hint Resolve Safe_ledger_prompt : wiz.

Lemma Bounded_handle_proposal_result n again r :
  Bounded n again -> Bounded n (handle_proposal_result again r).
Proof.
  intros Ha. unfold handle_proposal_result.
  destruct (negb _); [|apply Safe_Bounded; safe].
  apply Bounded_bind; [safe|intros _].
  destruct (_ || _).
  - repeat (apply Bounded_bind; [safe|intros _]). exact Ha.
  - apply Safe_Bounded. safe.
Qed.

Lemma Safe_choose_proposal_hash : Safe choose_proposal_hash.
Proof. unfold choose_proposal_hash. safe. Qed.

Lemma Consumes_choose_proposal_hash : Consumes choose_proposal_hash.
Proof.
  unfold choose_proposal_hash. apply Consumes_bind_r; [apply Safe_cfg_list|intros hashes].
  apply Consumes_bind_l; [apply Consumes_query_step|intros _].
  apply Safe_bind; [safe|intros h]. destruct (String.eqb _ _); safe.
Qed.

Lemma proposal_loop_bounded n : Bounded n (proposal_loop n).
Proof.
  induction n as [|n IH]; [intros w Hw; lia|]. cbn [proposal_loop].
  apply Bounded_bind; [safe|intros _].
  apply Bounded_consume_bind; [apply Safe_choose_proposal_hash | apply Consumes_choose_proposal_hash|].
  intros h. repeat (apply Bounded_bind; [safe|intros ?]).
  by apply Bounded_handle_proposal_result.
Qed.

(** C28: [process_proposal_period] always ends: the retries after invalid
    proposals, unbounded in the code, each ask a step and so read a line;
    the run returns, reports, or raises a Python exception. *)
Theorem process_proposal_period_terminates (w : world) :
  (process_proposal_period w).1 <> Exn OutOfFuel.
Proof. apply proposal_loop_bounded. lia. Qed.

(** ** Scenarios of the spec (section 8) *)

Definition ledger_prompt_trace (key : string) : list event :=
  if String.prefix ledger_prefix key
  then [Printed (color "Waiting for your response to the prompt on your Ledger Device..." color_green)]
  else [].

Lemma ledger_prompt_bind {B} (k : unit -> M B) w key :
  w_config w !! "baker_key_value" = Some (VStr key) ->
  (ledger_prompt ≫= k) w = k tt (add_trace (ledger_prompt_trace key) w).
Proof.
  intros H. unfold ledger_prompt, check_ledger_use, ledger_prompt_trace. rewrite !bind_assoc_run.
  rewrite (cfg_str_bind _ (VStr key)) by done. out_steps.
  destruct (String.prefix _ _); out_steps; [done|]. by destruct w.
Qed.

Lemma classify_sentinel hs probe :
  classify_answer (get_proposal_period_hash hs) probe specify_new_hash = RAccept specify_new_hash.
Proof.
  rewrite classify_answer_validated by reflexivity.
  rewrite answer_of_nonempty by discriminate.
  unfold get_proposal_period_hash; simpl s_validator. rewrite validate_required.
  change (blank specify_new_hash) with false. cbv iota.
  rewrite enum_range_literal; [done | reflexivity |].
  apply elem_of_app. right. by apply list_elem_of_singleton.
Qed.

Lemma classify_new_hash probe h :
  is_protocol_hash h = true -> classify_answer new_proposal_query probe h = RAccept h.
Proof.
  intros Hh. pose proof (is_protocol_hash_inv h Hh) as (t & -> & Hl & _).
  destruct (long_answer_not_command (String "P" t)) as [H1 H2]; [simpl; lia|].
  rewrite classify_answer_validated by done. rewrite answer_of_nonempty by discriminate.
  by rewrite (proj2 (new_proposal_query_validate probe (String "P" t) (String "P" t)) (conj eq_refl Hh)).
Qed.

(** Choosing "Specify new proposal hash" and then typing a hash. *)
Lemma choose_proposal_hash_new w hs h rest :
  w_config w !! "proposal_hashes" = Some (VList hs) ->
  w_input w = specify_new_hash :: h :: rest -> is_protocol_hash h = true ->
  exists w', choose_proposal_hash w = (Ok h, w') /\ w_input w' = rest /\
    w_ncalls w' = w_ncalls w /\
    w_config w' = <["new_proposal_hash" := VStr h]> (<["chosen_hash" := VStr specify_new_hash]> (w_config w)).
Proof.
  intros Hhs E Hh. unfold choose_proposal_hash.
  rewrite (cfg_list_bind _ hs) by done.
  rewrite (query_step_accept_eq _ _ w _ _ _ E (classify_sentinel hs _)).
  rewrite (cfg_str_bind _ (VStr specify_new_hash)) by cfg_lookups.
  simpl render. rewrite String.eqb_refl.
  rewrite (query_step_accept_eq _ _ _ h rest h)
    by first [simpl; by rewrite E | by apply classify_new_hash].
  rewrite (cfg_str_run _ (VStr h)) by cfg_lookups.
  eexists. split; [reflexivity|]. simpl. rewrite E. done.
Qed.

(** C3: in the proposal period, choosing "Specify new proposal hash" and
    typing a well-shaped hash [h] makes the first command of the run the
    submission of [h] ([submit proposals for <alias> h]): no other command
    runs before it, and what follows depends only on its answer. *)
Theorem process_proposal_period_new_hash (w : world) hs opts alias key h rest :
  w_config w !! "proposal_hashes" = Some (VList hs) ->
  w_config w !! "tezos_client_options" = Some (VStr opts) ->
  w_config w !! "baker_alias" = Some (VStr alias) ->
  w_config w !! "baker_key_value" = Some (VStr key) ->
  w_input w = specify_new_hash :: h :: rest -> is_protocol_hash h = true ->
  exists w1, w_ncalls w1 = w_ncalls w /\ w_input w1 = rest /\
    process_proposal_period w =
      handle_proposal_result (proposal_loop (S (S (List.length rest))))
        (next_answer (submit_proposals_cmd opts alias h) w1)
        (after_cmd (submit_proposals_cmd opts alias h) w1).
Proof.
  intros Hhs Ho Ha Hk E Hh. unfold process_proposal_period. rewrite E. simpl List.length.
  cbn [proposal_loop]. out_steps.
  destruct (choose_proposal_hash_new (add_trace [Logged Info "Processing proposal period"] w) hs h rest)
    as (w2 & Hc & Hin & Hn & Hcfg); [done | done | done |].
  rewrite (bind_Ok _ _ _ _ _ Hc). out_steps.
  rewrite (ledger_prompt_bind _ _ key) by (cbn [w_config add_trace]; rewrite Hcfg; cfg_lookups).
  rewrite (cfg_str_bind _ (VStr opts)) by (cbn [w_config add_trace]; rewrite Hcfg; cfg_lookups).
  rewrite (cfg_str_bind _ (VStr alias)) by (cbn [w_config add_trace]; rewrite Hcfg; cfg_lookups).
  rewrite get_proc_output_bind. eexists. split; [|split; [|reflexivity]]; simpl in *; congruence.
Qed.

(** A configuration as [collect_baking_info] leaves it. *)
Definition sample_config (hashes : list string) : gmap string value :=
  <["proposal_hashes" := VList hashes]>
  (<["tezos_client_options" := VStr "--base-dir /var/lib/tezos/client-mainnet --endpoint http://localhost:8732"]>
  (<["baker_alias" := VStr "baker"]>
  (<["baker_key_value" := VStr "tz1VoterKeyExample"]>
  (<["amendment_phase" := VStr "proposal"]> ∅)))).

Definition sample_world (hashes : list string) (lines : list string)
  (proc : nat -> string -> proc_result) : world :=
  {| w_input := lines; w_proc := proc; w_ncalls := 0; w_reachable := fun _ => false;
     w_files := ∅; w_config := sample_config hashes; w_trace := [] |}.

Definition sample_hash2 : string := "PsParisCZo7KAh1Z1smVd9ZMZ1HHn5gkzbM94V3PLCpknFWhUAi".

Lemma process_proposal_period_new_hash_witness :
  let w := sample_world [sample_hash] [specify_new_hash; sample_hash2] quiet_proc in
  exists w1, w_ncalls w1 = w_ncalls w /\ w_input w1 = [] /\
    process_proposal_period w =
      handle_proposal_result (proposal_loop (S (S (List.length (@nil string)))))
        (next_answer (submit_proposals_cmd "--base-dir /var/lib/tezos/client-mainnet --endpoint http://localhost:8732" "baker" sample_hash2) w1)
        (after_cmd (submit_proposals_cmd "--base-dir /var/lib/tezos/client-mainnet --endpoint http://localhost:8732" "baker" sample_hash2) w1).
Proof.
  intros w. apply (process_proposal_period_new_hash w [sample_hash] _ _ "tz1VoterKeyExample");
    vm_compute; reflexivity.
Defined.

Lemma classify_nay probe : classify_answer ballot_outcome_query probe "nay" = RAccept "nay".
Proof. reflexivity. Qed.

(** C4: in an exploration or promotion period with current proposal [h],
    answering [nay] submits [submit ballot for <alias> h nay] as the only
    command of the run; when it succeeds the handler does nothing more and
    [nay] is stored under [ballot_outcome]. *)
Theorem process_voting_period_nay (w : world) h hs opts alias key rest :
  w_config w !! "proposal_hashes" = Some (VList (h :: hs)) ->
  w_config w !! "tezos_client_options" = Some (VStr opts) ->
  w_config w !! "baker_alias" = Some (VStr alias) ->
  w_config w !! "baker_key_value" = Some (VStr key) ->
  w_input w = "nay" :: rest ->
  returncode (next_answer (submit_ballot_cmd opts alias h "nay") w) = 0%Z ->
  exists w', process_voting_period w = (Ok tt, w') /\ w_input w' = rest /\
    w_ncalls w' = S (w_ncalls w) /\ Ran (submit_ballot_cmd opts alias h "nay") ∈ w_trace w' /\
    w_config w' !! "ballot_outcome" = Some (VStr "nay").
Proof.
  intros Hhs Ho Ha Hk E Hrc. unfold process_voting_period. out_steps.
  rewrite (cfg_list_bind _ (h :: hs)) by done. cbn [head_or_index_error]. out_steps.
  rewrite (query_step_accept_eq _ _ _ "nay" rest "nay") by first [simpl; by rewrite E | apply classify_nay].
  out_steps.
  rewrite (ledger_prompt_bind _ _ key) by (cbn [w_config add_trace set_cfg pop_input]; cfg_lookups).
  rewrite (cfg_str_bind _ (VStr opts)) by (cbn [w_config add_trace set_cfg pop_input]; cfg_lookups).
  rewrite (cfg_str_bind _ (VStr alias)) by (cbn [w_config add_trace set_cfg pop_input]; cfg_lookups).
  rewrite (cfg_list_bind _ (h :: hs)) by (cbn [w_config add_trace set_cfg pop_input]; cfg_lookups).
  cbn [head_or_index_error]. out_steps.
  rewrite (cfg_str_bind _ (VStr "nay")) by (cbn [w_config add_trace set_cfg pop_input]; cfg_lookups).
  rewrite get_proc_output_bind. unfold handle_ballot_result. cbn [render].
  rewrite (next_answer_same (submit_ballot_cmd opts alias h "nay") _ w) by reflexivity.
  rewrite Hrc. change (negb (Z.eqb 0 0)) with false. cbv iota. rewrite ret_run.
  eexists. split; [reflexivity|]. simpl. rewrite E.
  split; [done|]. split; [done|]. split; [by left|]. cfg_lookups.
Qed.

Lemma process_voting_period_nay_witness :
  let w := sample_world [sample_hash] ["nay"] quiet_proc in
  let opts := "--base-dir /var/lib/tezos/client-mainnet --endpoint http://localhost:8732" in
  exists w', process_voting_period w = (Ok tt, w') /\ w_input w' = [] /\
    w_ncalls w' = S (w_ncalls w) /\ Ran (submit_ballot_cmd opts "baker" sample_hash "nay") ∈ w_trace w' /\
    w_config w' !! "ballot_outcome" = Some (VStr "nay").
Proof.
  intros w opts. apply (process_voting_period_nay w sample_hash [] opts "baker" "tz1VoterKeyExample");
    vm_compute; reflexivity.
Defined.

Definition show_voting_period_cmd (opts : string) : string := octez_client (opts +:+ " show voting period").

(** C29: [fill_voting_period_info] on every branch: a failing
    [show voting period] ends the run with [KeyboardInterrupt]; output
    without a period line raises [AttributeError]; otherwise the period
    name and the hashes the output lists are stored.  It runs exactly one
    command and reads no input. *)
Theorem fill_voting_period_info_spec (w : world) (opts : string) :
  w_config w !! "tezos_client_options" = Some (VStr opts) ->
  let r := next_answer (show_voting_period_cmd opts) w in
  exists w', w_ncalls w' = S (w_ncalls w) /\ w_input w' = w_input w /\
    if negb (Z.eqb (returncode r) 0) then fill_voting_period_info w = (Exn KeyboardInterrupt, w')
    else match search_current_period (stdout r) with
         | None => fill_voting_period_info w =
                     (Exn (AttributeError "'NoneType' object has no attribute 'group'"), w')
         | Some phase =>
             fill_voting_period_info w = (Ok tt, w') /\
             w_config w' = <["proposal_hashes" := VList (findall_protocol_hashes (stdout r))]>
                             (<["amendment_phase" := VStr phase]> (w_config w))
         end.
Proof.
  intros Ho r. unfold fill_voting_period_info. out_steps.
  rewrite (cfg_str_bind _ (VStr opts)) by done. cbn [render].
  rewrite get_proc_output_bind. fold (show_voting_period_cmd opts).
  rewrite (next_answer_same _ _ w) by reflexivity. fold r.
  destruct (Z.eqb (returncode r) 0); cbv [negb].
  - rewrite (bind_Ok _ _ _ _ _ (ret_run _ _)).
    destruct (search_current_period (stdout r)) as [phase|].
    + rewrite cfg_set_bind, cfg_set_run. eexists.
      split; [shelve|split; [shelve|split; reflexivity]]. Unshelve. all: reflexivity.
    + rewrite throw_bind_run. eexists.
      split; [shelve|split; [shelve|reflexivity]]. Unshelve. all: reflexivity.
  - unfold print_and_log_error. out_steps. eexists.
    split; [shelve|split; [shelve|reflexivity]]. Unshelve. all: reflexivity.
Qed.

Lemma fill_voting_period_info_spec_witness :
  let out := period_marker +:+ "proposal" +:+ dq +:+ " Current proposals: " +:+ sample_hash in
  let w := sample_world [] [] (fun _ _ => mkProc 0 out "") in
  w_config w !! "tezos_client_options" = Some (VStr "--base-dir /var/lib/tezos/client-mainnet --endpoint http://localhost:8732") /\
  let r := next_answer (show_voting_period_cmd "--base-dir /var/lib/tezos/client-mainnet --endpoint http://localhost:8732") w in
  exists w', w_ncalls w' = S (w_ncalls w) /\ w_input w' = w_input w /\
    if negb (Z.eqb (returncode r) 0) then fill_voting_period_info w = (Exn KeyboardInterrupt, w')
    else match search_current_period (stdout r) with
         | None => fill_voting_period_info w =
                     (Exn (AttributeError "'NoneType' object has no attribute 'group'"), w')
         | Some phase =>
             fill_voting_period_info w = (Ok tt, w') /\
             w_config w' = <["proposal_hashes" := VList (findall_protocol_hashes (stdout r))]>
                             (<["amendment_phase" := VStr phase]> (w_config w))
         end.
Proof.
  intros out w. split; [vm_compute; reflexivity|].
  apply fill_voting_period_info_spec. vm_compute. reflexivity.
Defined.
