(* ===== verification/Setup.v ===== *)
(** * Setup: the baking environment setup

    The methods of the wizard's [Setup] class that find or build the
    voter's environment before any vote (tezos_voting_wizard.py, lines
    189-300): [check_baking_service], [check_data_correctness],
    [search_client_config], [collect_baking_info], [get_baker_key] and
    [get_network].

    They call helpers of [tezos_baking.wizard_structure], which is not
    under src/: [fill_baking_config], [get_key_address],
    [check_baker_account], [import_key] and the module-level tables
    [networks] and [key_import_modes].  The class [WizardStructure]
    states what the setup needs of them: the operations, and that each is
    [Safe] (it only evolves the world and never runs out of fuel).  The
    theorems of the section are proved against the class; the instance
    [spec_structure] at the end is a model of the helpers from the spec
    (section 4.3), which shows that the class can be met and runs the
    witnesses.

    [collect_baking_info] mutates the module-level [key_import_modes]
    ([key_import_modes.pop("json", None)]) in one branch and reads it in
    the confirmation loop; the dictionary the loop sees is passed on
    explicitly, as the branch left it.  The loop [while not collected]
    has no bound in the code; it asks a step every round, so fuel one
    more than the lines of input left is enough. *)

From S2P Require Import Prelude Runtime Control Patterns Validators Wizard Steps Client.

Class WizardStructure := {
  networks : list string;
  key_import_modes : list (string * string);
  fill_baking_config : M unit;
  get_key_address : string -> string -> M (option (string * string));
  check_baker_account : M bool;
  import_key : Step -> string -> M unit;
  fill_baking_config_safe : Safe fill_baking_config;
  get_key_address_safe opts alias : Safe (get_key_address opts alias);
  check_baker_account_safe : Safe check_baker_account;
  import_key_safe st app : Safe (import_key st app)
}.

#[export] Hint Resolve fill_baking_config_safe get_key_address_safe check_baker_account_safe
  import_key_safe : wiz.

(** A configuration value passed where Python passes [None] or a string. *)
Definition value_opt (v : value) : option string :=
  match v with VNone => None | _ => Some (render v) end.

Section Setup.
Context `{WS : WizardStructure}.

(** [check_baking_service()]: the [try] sets the flag when the service is
    active; the bare [except] reports and clears it; the [finally] logs
    it. *)
Definition check_baking_service : M unit :=
  net ← cfg_str "network";
  py_finally
    (py_try
       (proc_call ("systemctl is-active --quiet tezos-baking-" +:+ net +:+ ".service");;
        cfg_set "is_local_baking_setup" (VBool true))
       (fun _ =>
          print ("No local baking services for " +:+ net +:+ " running on this machine.");;
          print "If there should be, you can run 'tezos-setup' to set it up.";;
          print "";;
          cfg_set "is_local_baking_setup" (VBool false)))
    (running ← cfg_get "is_local_baking_setup";
     log_info ("The baking services are " +:+ (if truthy running then "" else "not") +:+ " running")).

(** [check_data_correctness()]. *)
Definition check_data_correctness : M bool :=
  log_info "Querying data correctness";;
  print "Baker data detected is as follows:";;
  dir ← cfg_str "client_data_dir";
  print ("Data directory: " +:+ dir);;
  endpoint ← cfg_str "node_rpc_endpoint";
  print ("Node RPC endpoint: " +:+ endpoint);;
  key ← cfg_str "baker_key_value";
  print ("Voter key: " +:+ key);;
  answer ← yes_or_no "Does this look correct? (Y/n) " (Some "yes");
  log_info ("Answer is " +:+ render (VBool answer));;
  mret answer.

(** [search_client_config(field, default)]. *)
Definition search_client_config (field : string) (default_ : value) : M value :=
  log_info "Searching client config";;
  dir ← cfg_str "client_data_dir";
  let config_filepath := os_path_join dir "config" in
  present ← isfile config_filepath;
  if (present : bool) then search_json_with_default config_filepath field default_
  else mret default_.

(** [get_baker_key()], with the import modes as the caller left them. *)
Definition get_baker_key (modes : list (string * string)) : M unit :=
  alias_set ← cfg_lookup "baker_alias";
  match alias_set with None => cfg_set "baker_alias" (VStr "baker") | Some _ => mret tt end;;
  opts ← get_tezos_client_options;
  cfg_set "tezos_client_options" (VStr opts);;
  opts' ← cfg_str "tezos_client_options";
  alias ← cfg_str "baker_alias";
  baker_key_value ← get_key_address opts' alias;
  match baker_key_value with
  | Some (value, _) => cfg_set "baker_key_value" (VStr value)
  | None =>
      log_info "No secret key found";;
      import_key (get_key_mode_query modes) "Wallet"
  end.

(** [parsed_args.network] (lines 40-50): [--network] takes one value and
    defaults to [mainnet]; without its value [argparse] exits with
    status 2. *)
Definition network_option (g : given) : res string :=
  match g with
  | Absent => Ok "mainnet"
  | Given v => Ok v
  | Bare => Exn (SystemExit 2)
  end.

(** [get_network()], with [parsed_args.network] as [arg]. *)
Definition get_network (arg : string) : M unit :=
  log_info "Getting network";;
  if bool_decide (arg ∈ networks) then cfg_set "network" (VStr arg)
  else cfg_set "network" (VStr ("custom@" +:+ arg)).

(** The branch of [collect_baking_info] for a running baking service
    (lines 226-235): [value, _ = get_key_address(...)] raises [TypeError]
    when no key answers to the alias. *)
Definition collect_local_setup : M bool :=
  fill_baking_config;;
  opts ← get_tezos_client_options;
  cfg_set "tezos_client_options" (VStr opts);;
  opts' ← cfg_str "tezos_client_options";
  alias ← cfg_str "baker_alias";
  kv ← get_key_address opts' alias;
  match kv with
  | None => mthrow (TypeError "cannot unpack non-iterable NoneType object")
  | Some (value, _) => cfg_set "baker_key_value" (VStr value)
  end;;
  check_data_correctness.

(** The branch without a baking service (lines 237-262). *)
Definition collect_default_setup (modes : list (string * string)) : M bool :=
  network ← cfg_str "network";
  let network_dir := "/var/lib/tezos/client-" +:+ network in
  log_info "Creating the network dir";;
  proc_call ("sudo -u tezos mkdir -p " +:+ network_dir);;
  print "With no tezos-baking.service running, this wizard will use";;
  print ("the default directory for this network: " +:+ network_dir);;
  cfg_set "client_data_dir" (VStr network_dir);;
  endpoint ← search_client_config "endpoint" VNone;
  cfg_set "node_rpc_endpoint" endpoint;;
  endpoint' ← cfg_get "node_rpc_endpoint";
  match endpoint' with
  | VNone =>
      network' ← cfg_str "network";
      probe ← get_prober;
      query_and_update_config (get_node_rpc_endpoint_query probe network' None);;
      mret tt
  | _ => mret tt
  end;;
  get_baker_key modes;;
  check_data_correctness.

(** One round of [while not collected:] (lines 264-276); it returns
    [not collected]. *)
Definition confirm_round (modes : list (string * string)) : M bool :=
  network ← cfg_str "network";
  endpoint ← cfg_get "node_rpc_endpoint";
  probe ← get_prober;
  query_and_update_config (get_node_rpc_endpoint_query probe network (value_opt endpoint));;
  replace_baker_key ← check_baker_account;
  (if (replace_baker_key : bool) then import_key (get_key_mode_query modes) "Wallet" else mret tt);;
  collected ← check_data_correctness;
  mret (negb collected).

(** [collect_baking_info()]: the branch the service check selects, then
    the confirmation loop over the import modes that branch left. *)
Definition collect_baking_info_fuel (fuel : nat) : M unit :=
  log_info "Collecting baking info";;
  log_info "Checking the local baking services";;
  check_baking_service;;
  local ← cfg_get_default "is_local_baking_setup" (VBool false);
  let modes := if truthy local then key_import_modes
               else py_dict_pop "json" key_import_modes in
  collected ← (if truthy local then collect_local_setup else collect_default_setup modes);
  if (collected : bool) then mret tt else while_fuel fuel (confirm_round modes).

Definition collect_baking_info : M unit := fun w =>
  collect_baking_info_fuel (S (List.length (w_input w))) w.

(** ** Every operation of the setup ends *)
Lemma Safe_check_baking_service : Safe check_baking_service.
Proof. unfold check_baking_service. safe_py. Qed.

Lemma Safe_check_data_correctness : Safe check_data_correctness.
Proof. unfold check_data_correctness. safe. Qed.

Lemma Safe_search_client_config f d : Safe (search_client_config f d).
Proof. unfold search_client_config. safe. Qed.

Lemma Safe_get_baker_key modes : Safe (get_baker_key modes).
Proof. unfold get_baker_key. safe. Qed.

Lemma Safe_get_network arg : Safe (get_network arg).
Proof. unfold get_network. safe. Qed.

#[local] Hint Resolve Safe_check_baking_service Safe_check_data_correctness
  Safe_search_client_config Safe_get_baker_key : wiz.

Lemma Safe_collect_local_setup : Safe collect_local_setup.
Proof. unfold collect_local_setup. safe. Qed.

Lemma Safe_collect_default_setup modes : Safe (collect_default_setup modes).
Proof. unfold collect_default_setup. safe. Qed.

Lemma Safe_confirm_round modes : Safe (confirm_round modes).
Proof. unfold confirm_round. safe. Qed.

(** Every round of the confirmation loop asks the endpoint step. *)
Lemma Consumes_confirm_round modes : Consumes (confirm_round modes).
Proof.
  unfold confirm_round.
  do 3 (apply Consumes_bind_r; [mono|intros ?]).
  apply Consumes_bind_l; [apply Consumes_query_step | intros _; mono].
Qed.

#[local] Hint Resolve Safe_collect_local_setup Safe_collect_default_setup Safe_confirm_round : wiz.

Lemma collect_baking_info_fuel_bounded n : Bounded n (collect_baking_info_fuel n).
Proof.
  unfold collect_baking_info_fuel.
  repeat (apply Bounded_bind; [safe_py|intros ?]).
  destruct (_ : bool); [apply Safe_Bounded, Safe_ret|].
  apply while_fuel_bounded; [apply Safe_confirm_round | apply Consumes_confirm_round].
Qed.

Lemma Mono_collect_baking_info_fuel n : Mono (collect_baking_info_fuel n).
Proof.
  unfold collect_baking_info_fuel.
  repeat first [apply Mono_bind; [solve [eauto with wiz] | intros ?]
               | progress case_match | solve [eauto with wiz]].
Qed.

Lemma collect_baking_info_safe : Safe collect_baking_info.
Proof.
  split; [intros w r w'; apply (Mono_collect_baking_info_fuel (S (List.length (w_input w))))|].
  intros w. apply (collect_baking_info_fuel_bounded (S (List.length (w_input w)))). lia.
Qed.

(** ** What the setup does *)

(** C15: [check_baking_service] on both branches: it runs one command, the
    [systemctl is-active] check of the network's baking service, records
    under [is_local_baking_setup] whether it succeeded, reports a missing
    service, and logs the flag; it raises nothing. *)
Theorem check_baking_service_spec (w : world) (net : string) :
  w_config w !! "network" = Some (VStr net) ->
  let cmd := "systemctl is-active --quiet tezos-baking-" +:+ net +:+ ".service" in
  let active := Z.eqb (returncode (next_answer cmd w)) 0 in
  exists L, check_baking_service w =
    (Ok tt, add_trace L (set_cfg "is_local_baking_setup" (VBool active) (after_cmd cmd w))) /\
    Logged Info ("The baking services are " +:+ (if active then "" else "not") +:+ " running") ∈ L /\
    (active = false -> Printed ("No local baking services for " +:+ net +:+ " running on this machine.") ∈ L).
Proof.
  intros Hn cmd active. unfold check_baking_service.
  rewrite (cfg_str_bind _ (VStr net)) by done. cbn [render]. fold cmd.
  assert ((proc_call cmd;; cfg_set "is_local_baking_setup" (VBool true)) w =
          if active then (Ok tt, set_cfg "is_local_baking_setup" (VBool true) (after_cmd cmd w))
          else (Exn (CalledProcessError cmd), after_cmd cmd w)) as Hp.
  { unfold proc_call. rewrite bind_assoc_run, get_proc_output_bind. fold active. by destruct active. }
  destruct active eqn:Ha.
  - erewrite py_finally_run; [| apply py_try_Ok, Hp |].
    2: { erewrite bind_Ok; [|apply (cfg_get_run _ (VBool true)); cfg_lookups].
         simpl truthy. cbv iota. apply log_info_run. }
    eexists. split; [reflexivity|]. split; [left|done].
  - erewrite py_finally_run;
      [| rewrite (py_try_Exn _ _ _ _ _ Hp) by discriminate; out_steps; rewrite cfg_set_run; reflexivity |].
    2: { erewrite bind_Ok; [|apply (cfg_get_run _ (VBool false)); cfg_lookups].
         simpl truthy. cbv iota. apply log_info_run. }
    rewrite set_cfg_add_trace, add_trace_add_trace.
    eexists. split; [reflexivity|]. split; [left | intros _; set_solver].
Qed.

(** C12: [collect_baking_info] always ends: the confirmation loop, unbounded
    in the code, asks the endpoint step every round, so it returns, or
    raises a Python exception, within the lines of input. *)
Theorem collect_baking_info_terminates (w : world) :
  (collect_baking_info w).1 <> Exn OutOfFuel.
Proof. apply (proj2 collect_baking_info_safe). Qed.


(** [get_key_address] is asked with the client options built from the
    directory and the endpoint, after they are stored. *)
Lemma client_key_lookup_run (w1 w2 : world) (dir endpoint alias : string) kv B
    (k : option (string * string) -> M B) :
  w_config w1 !! "client_data_dir" = Some (VStr dir) ->
  w_config w1 !! "node_rpc_endpoint" = Some (VStr endpoint) ->
  w_config w1 !! "baker_alias" = Some (VStr alias) ->
  let opts := "--base-dir " +:+ dir +:+ " --endpoint " +:+ endpoint in
  get_key_address opts alias (set_cfg "tezos_client_options" (VStr opts) w1) = (Ok kv, w2) ->
  (get_tezos_client_options ≫= fun o => cfg_set "tezos_client_options" (VStr o) ≫= fun _ =>
   cfg_str "tezos_client_options" ≫= fun o' => cfg_str "baker_alias" ≫= fun a =>
   get_key_address o' a ≫= k) w1 = k kv w2.
Proof.
  intros Hd He Ha opts Hk. unfold get_tezos_client_options. rewrite !bind_assoc_run.
  rewrite (cfg_str_bind _ (VStr dir)) by done. rewrite bind_assoc_run, (cfg_str_bind _ (VStr endpoint)) by done.
  rewrite (bind_Ok _ _ _ _ _ (ret_run _ _)), cfg_set_bind.
  rewrite (cfg_str_bind _ (VStr opts)) by cfg_lookups.
  rewrite (cfg_str_bind _ (VStr alias)) by cfg_lookups. cbn [render]. exact (bind_Ok _ _ _ _ _ Hk).
Qed.

(** C16: with a running baking service, an alias that names no key makes
    the tuple unpacking [value, _ = get_key_address(...)] raise
    [TypeError]; [get_baker_key], in the same situation, logs and starts
    the key import instead. *)
Theorem collect_local_setup_no_key (w w1 w2 : world) (dir endpoint alias : string) modes :
  fill_baking_config w = (Ok tt, w1) ->
  w_config w1 !! "client_data_dir" = Some (VStr dir) ->
  w_config w1 !! "node_rpc_endpoint" = Some (VStr endpoint) ->
  w_config w1 !! "baker_alias" = Some (VStr alias) ->
  let opts := "--base-dir " +:+ dir +:+ " --endpoint " +:+ endpoint in
  get_key_address opts alias (set_cfg "tezos_client_options" (VStr opts) w1) = (Ok None, w2) ->
  collect_local_setup w = (Exn (TypeError "cannot unpack non-iterable NoneType object"), w2) /\
  get_baker_key modes w1 =
    import_key (get_key_mode_query modes) "Wallet" (add_trace [Logged Info "No secret key found"] w2).
Proof.
  intros Hf Hd He Ha opts Hk. split.
  - unfold collect_local_setup. rewrite (bind_Ok _ _ _ _ _ Hf), (client_key_lookup_run w1 w2 dir endpoint alias None)
      by done. apply throw_bind_run.
  - unfold get_baker_key. rewrite cfg_lookup_bind, Ha, (bind_Ok _ _ _ _ _ (ret_run _ _)).
    rewrite (client_key_lookup_run w1 w2 dir endpoint alias None) by done.
    exact (bind_Ok _ _ _ _ _ (log_info_run _ _)).
Qed.

(** C11: with a running baking service and an alias that names a key,
    the local branch of [collect_baking_info] stores the client options
    built from the directory and the endpoint under
    [tezos_client_options], asks [get_key_address] with them, stores the
    key it answers under [baker_key_value], and goes on to the
    correctness check on that configuration. *)
Theorem collect_local_setup_key (w w1 w2 : world) (dir endpoint alias value addr : string) :
  fill_baking_config w = (Ok tt, w1) ->
  w_config w1 !! "client_data_dir" = Some (VStr dir) ->
  w_config w1 !! "node_rpc_endpoint" = Some (VStr endpoint) ->
  w_config w1 !! "baker_alias" = Some (VStr alias) ->
  let opts := "--base-dir " +:+ dir +:+ " --endpoint " +:+ endpoint in
  get_key_address opts alias (set_cfg "tezos_client_options" (VStr opts) w1) = (Ok (Some (value, addr)), w2) ->
  collect_local_setup w = check_data_correctness (set_cfg "baker_key_value" (VStr value) w2).
Proof.
  intros Hf Hd He Ha opts Hk. unfold collect_local_setup.
  rewrite (bind_Ok _ _ _ _ _ Hf), (client_key_lookup_run w1 w2 dir endpoint alias (Some (value, addr)))
    by done.
  apply cfg_set_bind.
Qed.

(** The steps after the endpoint lookup found nothing: the endpoint
    step is asked with the prober of the moment. *)
Local Ltac endpoint_asked net :=
  erewrite bind_Ok; [|apply (cfg_get_run _ VNone); cfg_lookups]; cbv beta iota;
  rewrite bind_assoc_run, (cfg_str_bind _ (VStr net)) by cfg_lookups; cbn [render];
  rewrite bind_assoc_run, get_prober_bind;
  eexists; split; [reflexivity|]; repeat split; cbn; try reflexivity; set_solver.

(** C17: without a running service, [collect_baking_info] creates
    [/var/lib/tezos/client-<network>] with one [mkdir] command, stores it
    as the client directory, and takes the node endpoint from the
    client's own [config] file when the file gives one, asking the
    endpoint step only when it does not; no input is read before that. *)
Theorem collect_default_setup_endpoint (w : world) (net : string) modes :
  w_config w !! "network" = Some (VStr net) ->
  let dir := "/var/lib/tezos/client-" +:+ net in
  let mk := "sudo -u tezos mkdir -p " +:+ dir in
  returncode (next_answer mk w) = 0%Z ->
  let found := w_files w !! os_path_join dir "config" ≫= (.!! "endpoint") in
  exists w1,
    collect_default_setup modes w =
      match found with
      | Some _ => (get_baker_key modes;; check_data_correctness) w1
      | None =>
          ((query_and_update_config (get_node_rpc_endpoint_query (w_reachable w) net None);; mret tt);;
           get_baker_key modes;; check_data_correctness) w1
      end /\
    w_config w1 = <["node_rpc_endpoint" := default VNone (VStr <$> found)]>
                    (<["client_data_dir" := VStr dir]> (w_config w)) /\
    w_input w1 = w_input w /\ w_ncalls w1 = S (w_ncalls w) /\ Ran mk ∈ w_trace w1 /\
    w_proc w1 = w_proc w /\ w_reachable w1 = w_reachable w /\ w_files w1 = w_files w.
Proof.
  intros Hn dir mk Hrc found. unfold collect_default_setup.
  rewrite (cfg_str_bind _ (VStr net)) by done. cbn [render]. fold dir mk. out_steps.
  unfold proc_call. rewrite !bind_assoc_run, get_proc_output_bind.
  rewrite (next_answer_same _ _ w), Hrc by reflexivity. cbn [Z.eqb]. out_steps.
  rewrite cfg_set_bind. unfold search_client_config. rewrite !bind_assoc_run. out_steps.
  rewrite (cfg_str_bind _ (VStr dir)) by cfg_lookups. cbn [render]. rewrite bind_assoc_run.
  rewrite isfile_bind. cbn [w_files add_trace set_cfg after_cmd].
  unfold found. destruct (w_files w !! os_path_join dir "config") as [j|] eqn:Hf;
    [rewrite bool_decide_eq_true_2 by by eexists | rewrite bool_decide_eq_false_2 by by intros [? ?]].
  - rewrite search_json_bind. cbn [w_files add_trace set_cfg after_cmd]. rewrite Hf. cbn [mbind option_bind].
    rewrite cfg_set_bind. destruct (j !! "endpoint") as [e|] eqn:He.
    + erewrite bind_Ok; [|apply (cfg_get_run _ (VStr e)); cfg_lookups]. cbv beta iota. rewrite (bind_Ok _ _ _ _ _ (ret_run _ _)).
      eexists. split; [reflexivity|]. repeat split; cbn; try reflexivity. set_solver.
    + endpoint_asked net.
  - rewrite (bind_Ok _ _ _ _ _ (ret_run _ _)), cfg_set_bind.
    endpoint_asked net.
Qed.

End Setup.

(** ** A model of the helpers from the spec

    The helpers of [tezos_baking.wizard_structure] as the spec describes
    them at their interface (sections 4.3 and 6): the baking service's
    settings are read from its environment file, falling back to the
    packaging defaults; a key is looked up with [show address];
    replacing an existing key is asked with a yes/no question; a key is
    imported by asking for the mode and the secret key.  The ledger path
    of the import, which waits for the device, is not part of this
    model. *)

Fixpoint take_line (s : string) : string :=
  match s with
  | EmptyString => EmptyString
  | String c s' => if Ascii.eqb c (ascii_of_nat 10) then EmptyString else String c (take_line s')
  end.

(** The rest of the line after the first occurrence of [marker]. *)
Fixpoint field_after (marker s : string) : option string :=
  if String.prefix marker s
  then Some (take_line (String.substring (String.length marker) (String.length s) s))
  else match s with EmptyString => None | String _ s' => field_after marker s' end.

Definition spec_networks : list string := ["mainnet"; "ghostnet"].

Definition spec_key_import_modes : list (string * string) :=
  [("ledger", "From a ledger");
   ("secret-key", "Either the unencrypted or password-encrypted secret key for your address");
   ("remote", "Remote key governed by a signer running on a different machine");
   ("generate-fresh-key", "Generate fresh key that you should fill in later");
   ("json", "Faucet JSON file")].

Definition spec_fill_baking_config : M unit :=
  net ← cfg_str "network";
  let env := "/etc/default/tezos-baking-" +:+ net in
  dir ← search_json_with_default env "TEZOS_CLIENT_DIR" (VStr "/var/lib/tezos/.tezos-client");
  cfg_set "client_data_dir" dir;;
  endpoint ← search_json_with_default env "NODE_RPC_ENDPOINT" (VStr "http://localhost:8732");
  cfg_set "node_rpc_endpoint" endpoint;;
  alias ← search_json_with_default env "BAKER_ADDRESS_ALIAS" (VStr "baker");
  cfg_set "baker_alias" alias.

Definition spec_get_key_address (opts alias : string) : M (option (string * string)) :=
  r ← get_proc_output (octez_client (opts +:+ " show address " +:+ alias +:+ " --show-secret"));
  mret (if Z.eqb (returncode r) 0
        then match field_after "Secret Key: " (stdout r), field_after "Hash: " (stdout r) with
             | Some v, Some a => Some (v, a)
             | _, _ => None
             end
        else None).

Definition spec_check_baker_account : M bool :=
  alias ← cfg_str "baker_alias";
  opts ← cfg_str "tezos_client_options";
  kv ← spec_get_key_address opts alias;
  match kv with
  | Some (_, address) =>
      print "";;
      print ("An account with the '" +:+ alias +:+ "' alias already exists.");;
      print2 "Its current address is" address;;
      yes_or_no "Would you like to import a new key and replace this one? <y/N> " (Some "no")
  | None => mret true
  end.

Definition secret_key_query : Step :=
  mkStep "secret_key" "Provide either the unencrypted or password-encrypted secret key for your address."
    None "The format is 'unencrypted:edsk...' for the unencrypted key, or 'encrypted:edesk...'."
    None (VChain [required_field]).

Definition spec_import_key (st : Step) (app : string) : M unit :=
  query_and_update_config st;;
  key ← query_and_update_config secret_key_query;
  opts ← cfg_str "tezos_client_options";
  alias ← cfg_str "baker_alias";
  proc_call (octez_client (opts +:+ " import secret key " +:+ alias +:+ " " +:+ key +:+ " --force"));;
  kv ← spec_get_key_address opts alias;
  match kv with
  | Some (value, _) => cfg_set "baker_key_value" (VStr value)
  | None => mret tt
  end.

Lemma Safe_spec_fill_baking_config : Safe spec_fill_baking_config.
Proof. unfold spec_fill_baking_config. safe. Qed.

Lemma Safe_spec_get_key_address opts alias : Safe (spec_get_key_address opts alias).
Proof. unfold spec_get_key_address. safe. Qed.

#[local] Hint Resolve Safe_spec_get_key_address : wiz.

Lemma Safe_spec_check_baker_account : Safe spec_check_baker_account.
Proof. unfold spec_check_baker_account. safe. Qed.

Lemma Safe_spec_import_key st app : Safe (spec_import_key st app).
Proof. unfold spec_import_key. safe. Qed.

#[export] Instance spec_structure : WizardStructure := {|
  networks := spec_networks;
  key_import_modes := spec_key_import_modes;
  fill_baking_config := spec_fill_baking_config;
  get_key_address := spec_get_key_address;
  check_baker_account := spec_check_baker_account;
  import_key := spec_import_key;
  fill_baking_config_safe := Safe_spec_fill_baking_config;
  get_key_address_safe := Safe_spec_get_key_address;
  check_baker_account_safe := Safe_spec_check_baker_account;
  import_key_safe := Safe_spec_import_key
|}.

(** ** Runs of the setup *)

Definition key_listing : string :=
  "Hash: tz1VoterKeyExample" +:+ newline +:+ "Secret Key: unencrypted:edskExample" +:+ newline.

(** A fresh run on [mainnet] where every command exits with [rc] and
    prints [key_listing]. *)
Definition setup_world (rc : Z) (lines : list string) : world :=
  set_cfg "network" (VStr "mainnet")
    (start_world lines (fun _ _ => mkProc rc key_listing "") (fun _ => false) ∅).

Lemma check_baking_service_spec_witness :
  let w := setup_world 0 [] in
  let cmd := "systemctl is-active --quiet tezos-baking-" +:+ "mainnet" +:+ ".service" in
  let active := Z.eqb (returncode (next_answer cmd w)) 0 in
  exists L, check_baking_service w =
    (Ok tt, add_trace L (set_cfg "is_local_baking_setup" (VBool active) (after_cmd cmd w))) /\
    Logged Info ("The baking services are " +:+ (if active then "" else "not") +:+ " running") ∈ L /\
    (active = false -> Printed ("No local baking services for " +:+ "mainnet" +:+ " running on this machine.") ∈ L).
Proof. intros w. apply check_baking_service_spec. reflexivity. Defined.

Lemma collect_local_setup_key_witness :
  let w := setup_world 0 [] in
  let w1 := (fill_baking_config w).2 in
  let opts := "--base-dir /var/lib/tezos/.tezos-client --endpoint http://localhost:8732" in
  let r := get_key_address opts "baker" (set_cfg "tezos_client_options" (VStr opts) w1) in
  collect_local_setup w = check_data_correctness (set_cfg "baker_key_value" (VStr "unencrypted:edskExample") r.2).
Proof.
  intros w w1 opts r.
  apply (collect_local_setup_key w w1 r.2 "/var/lib/tezos/.tezos-client" "http://localhost:8732" "baker"
           "unencrypted:edskExample" "tz1VoterKeyExample"); vm_compute; reflexivity.
Defined.

Lemma collect_local_setup_no_key_witness :
  let w := setup_world 1 [] in
  let w1 := (fill_baking_config w).2 in
  let opts := "--base-dir /var/lib/tezos/.tezos-client --endpoint http://localhost:8732" in
  let w2 := (get_key_address opts "baker" (set_cfg "tezos_client_options" (VStr opts) w1)).2 in
  collect_local_setup w = (Exn (TypeError "cannot unpack non-iterable NoneType object"), w2) /\
  get_baker_key spec_key_import_modes w1 =
    import_key (get_key_mode_query spec_key_import_modes) "Wallet"
      (add_trace [Logged Info "No secret key found"] w2).
Proof.
  intros w w1 opts w2.
  apply (collect_local_setup_no_key w w1 w2 "/var/lib/tezos/.tezos-client" "http://localhost:8732" "baker");
    vm_compute; reflexivity.
Defined.

Lemma collect_default_setup_endpoint_witness :
  let w := setup_world 0 [] in
  let dir := "/var/lib/tezos/client-" +:+ "mainnet" in
  let mk := "sudo -u tezos mkdir -p " +:+ dir in
  let found := w_files w !! os_path_join dir "config" ≫= (.!! "endpoint") in
  exists w1,
    collect_default_setup spec_key_import_modes w =
      match found with
      | Some _ => (get_baker_key spec_key_import_modes;; check_data_correctness) w1
      | None =>
          ((query_and_update_config (get_node_rpc_endpoint_query (w_reachable w) "mainnet" None);; mret tt);;
           get_baker_key spec_key_import_modes;; check_data_correctness) w1
      end /\
    w_config w1 = <["node_rpc_endpoint" := default VNone (VStr <$> found)]>
                    (<["client_data_dir" := VStr dir]> (w_config w)) /\
    w_input w1 = w_input w /\ w_ncalls w1 = S (w_ncalls w) /\ Ran mk ∈ w_trace w1 /\
    w_proc w1 = w_proc w /\ w_reachable w1 = w_reachable w /\ w_files w1 = w_files w.
Proof. intros w dir mk found. apply collect_default_setup_endpoint; reflexivity. Defined.
