(* ===== verification/Top.v ===== *)
(** * Top: the wizard's run and its exit status

    [Setup.run_voting] (tezos_voting_wizard.py, lines 456-506) composes
    the parts: the network from the command line, the baking environment
    ([Setup.collect_baking_info]), the ledger wait for the Wallet app,
    the voting period ([Voting.fill_voting_period_info]), the workflow of
    the period ([dispatch_period], lines 476-496: proposal, exploration or
    promotion, or none), and, for a local baking setup on a ledger, the
    wait for the Baking app and the restart of the baking service.
    [main] (lines 509-538) runs it under [try]/[except] and maps every
    outcome to the process exit status.

    The exit status is proved to be 0 or 1 for every run in which the
    ledger, when it is waited for, shows the app within the fuel of the
    poll ([Client.Responsive]): every other loop of the run has been shown
    to end. *)

From S2P Require Import Prelude Runtime Control Patterns Validators Wizard Steps Client Voting Setup.

Definition lines_text (ls : list string) : string := foldr (fun l acc => l +:+ newline +:+ acc) "" ls.

(** [welcome_text]. *)
Definition welcome_text : string :=
  lines_text
    ["Tezos Voting Wizard";
     "";
     "Welcome, this wizard will help you vote in the Tezos protocol amendment process.";
     "Please note that to vote on mainnet, the minimum requirement is to have access";
     "to a key that has voting rights, preferably through a connected ledger device.";
     "";
     "All commands within the service are run under the 'tezos' user.";
     "";
     "To access help and possible options for each question, type in 'help' or '?'.";
     "Type in 'exit' to quit."].

Section Top.
Context `{WS : WizardStructure}.

(** Lines 476-496: report the period and run its workflow. *)
Definition dispatch_period : M unit :=
  phase ← cfg_str "amendment_phase";
  print_and_log ("The amendment is currently in the " +:+ phase +:+ " period.");;
  phase' ← cfg_get "amendment_phase";
  if decide (phase' = VStr "proposal") then
    print2 "Bakers can submit up to 20 protocol amendment proposals,"
           "including supporting existing ones.";;
    print "";;
    process_proposal_period
  else if decide (phase' ∈ [VStr "exploration"; VStr "promotion"]) then
    print2 "Bakers can submit one ballot regarding the current proposal,"
           "voting either 'yay', 'nay', or 'pass'.";;
    print "";;
    process_voting_period
  else
    print_and_log "Voting isn't possible at the moment.";;
    print_and_log "Exiting the Tezos Voting Wizard.".

(** [run_voting()], with [parsed_args.network] as [arg] and [fuel] for
    each ledger poll. *)
Definition run_voting (arg : string) (fuel : nat) : M unit :=
  print welcome_text;;
  get_network arg;;
  collect_baking_info;;
  opts ← get_tezos_client_options;
  cfg_set "tezos_client_options" (VStr opts);;
  ledger ← check_ledger_use;
  (if (ledger : bool) then
     dir ← cfg_str "client_data_dir";
     wait_for_ledger_app fuel "Wallet" dir
   else mret tt);;
  fill_voting_period_info;;
  dispatch_period;;
  local ← cfg_get_default "is_local_baking_setup" (VBool false);
  (if truthy local then
     ledger' ← check_ledger_use;
     if (ledger' : bool) then
       dir ← cfg_str "client_data_dir";
       wait_for_ledger_app fuel "Baking" dir;;
       net ← cfg_str "network";
       print_and_log ("Restarting local " +:+ net +:+ " baking setup");;
       proc_call ("sudo systemctl restart tezos-baking-" +:+ net +:+ ".service")
     else mret tt
   else mret tt);;
  print "";;
  print "Thank you for voting!";;
  log_info "Exiting the Tezos Voting Wizard.".

End Top.

(** [print_and_log(msg, log=logging.error, colorcode=color_red)] of
    [tezos_baking.util]. *)
Definition print_and_log_colored (msg code : string) : M unit :=
  print (color msg code);; log_error msg.

(** The name and message of an exception, as [log_exception] writes it. *)
Definition exn_text (e : exn) : string :=
  match e with
  | KeyboardInterrupt => "KeyboardInterrupt"
  | EOFError => "EOFError"
  | OSError m => "OSError: " +:+ m
  | CalledProcessError c => "CalledProcessError: " +:+ c
  | KeyError k => "KeyError: " +:+ k
  | IndexError => "IndexError"
  | AttributeError m => "AttributeError: " +:+ m
  | TypeError m => "TypeError: " +:+ m
  | NameError n => "NameError: name '" +:+ n +:+ "' is not defined"
  | PyException m => "Exception: " +:+ m
  | URLError m => "URLError: " +:+ m
  | ValueError m => "ValueError: " +:+ m
  | SystemExit c => "SystemExit: " +:+ str_of_nat c
  | OutOfFuel => "OutOfFuel"
  end.

(** [log_exception(exception=e, logfile=...)] of [tezos_baking.util]. *)
Definition log_exception (e : exn) : M unit := log_error (exn_text e).

Section Main.
Context `{WS : WizardStructure}.

(** [main()]: the status it passes to [sys.exit], or 0 when [run_voting]
    returns. *)
Definition main (arg : string) (fuel : nat) : M Z :=
  py_try
    (log_info "Starting the Tezos Voting Wizard.";;
     run_voting arg fuel;;
     mret 0%Z)
    (fun e =>
       match e with
       | KeyboardInterrupt =>
           print "Exiting the Tezos Voting Wizard.";;
           log_info "Received keyboard interrupt.";;
           log_info "Exiting the Tezos Voting Wizard.";;
           mret 1%Z
       | EOFError =>
           print "Exiting the Tezos Voting Wizard.";;
           log_error "Reached EOF.";;
           log_info "Exiting the Tezos Voting Wizard.";;
           mret 1%Z
       | _ =>
           print_and_log_colored "Error in the Tezos Voting Wizard, exiting." color_red;;
           log_exception e;;
           log_info "Exiting the Tezos Voting Wizard.";;
           mret 1%Z
       end).

End Main.

(** ** Every part of the run ends *)
Lemma Mono_proposal_loop n : Mono (proposal_loop n).
Proof. induction n; cbn [proposal_loop]; [mono|]. unfold handle_proposal_result. mono. Qed.

Lemma Safe_process_proposal_period : Safe process_proposal_period.
Proof.
  split; [intros w r w'; apply (Mono_proposal_loop (S (List.length (w_input w))))|].
  intros w. apply (proposal_loop_bounded (S (List.length (w_input w)))). lia.
Qed.

Lemma Safe_fill_voting_period_info : Safe fill_voting_period_info.
Proof. unfold fill_voting_period_info. safe. Qed.

Lemma Safe_handle_ballot_result r : Safe (handle_ballot_result r).
Proof. unfold handle_ballot_result. safe. Qed.

#[local] Hint Resolve Safe_handle_ballot_result : wiz.

Lemma Safe_process_voting_period : Safe process_voting_period.
Proof. unfold process_voting_period. safe. Qed.

#[local] Hint Resolve Safe_process_proposal_period Safe_fill_voting_period_info
  Safe_process_voting_period collect_baking_info_safe Safe_get_network : wiz.

Section Proofs.
Context `{WS : WizardStructure}.

Lemma Safe_dispatch_period : Safe dispatch_period.
Proof. unfold dispatch_period. safe. Qed.

#[local] Hint Resolve Safe_dispatch_period : wiz.

Lemma Guarded_run_voting arg fuel : Guarded (Responsive fuel) (run_voting arg fuel).
Proof. unfold run_voting. guarded (Stable_Responsive fuel). Qed.

End Proofs.

(** ** The exit status *)

Section Exit.
Context `{WS : WizardStructure}.

Definition start_log : event := Logged Info "Starting the Tezos Voting Wizard.".

(** [main] maps the outcome of [run_voting] to the exit status: 0 when it
    returns, 1 for every Python exception. *)
Lemma main_outcome arg fuel w :
  (main arg fuel w).1 =
    match (run_voting arg fuel (add_trace [start_log] w)).1 with
    | Ok _ => Ok 0%Z
    | Exn OutOfFuel => Exn OutOfFuel
    | Exn _ => Ok 1%Z
    end.
Proof.
  unfold main, py_try. rewrite (bind_Ok _ _ _ _ _ (log_info_run _ _)). fold start_log.
  destruct (run_voting arg fuel (add_trace [start_log] w)) as [[u|e] w1] eqn:E.
  - by rewrite (bind_Ok _ _ _ _ _ E).
  - rewrite (bind_Exn _ _ _ _ _ E). by destruct e.
Qed.

(** C6: the wizard exits with status 0 when [run_voting] returns and 1
    when it raises (cancellation, end of input, or a fatal error), and
    with no other status: with a ledger that shows the app asked for, no
    part of the run loops without end. *)
Theorem main_exit_status arg fuel w :
  Responsive fuel w ->
  (main arg fuel w).1 =
    match (run_voting arg fuel (add_trace [start_log] w)).1 with
    | Ok _ => Ok 0%Z
    | Exn _ => Ok 1%Z
    end.
Proof.
  intros Hr. rewrite main_outcome.
  pose proof (Guarded_run_voting arg fuel (add_trace [start_log] w)
                (Stable_Responsive fuel _ _ (evolves_add_trace _ w) Hr)) as Hg.
  by destruct (run_voting _ _ _).1 as [|[]].
Qed.

End Exit.

(** ** The period selects the workflow *)

Section Dispatch.
Context `{WS : WizardStructure}.

(** C14: the voting period read from the client selects the workflow, as
    spec section 4.4 has it: [proposal] runs the proposal submission,
    [exploration] and [promotion] the ballot, and any other period only
    reports that voting is not possible, running no command and reading
    no input.  The period is reported first in every case. *)
Theorem dispatch_period_spec (w : world) (phase : string) :
  w_config w !! "amendment_phase" = Some (VStr phase) ->
  exists L, Printed ("The amendment is currently in the " +:+ phase +:+ " period.") ∈ L /\
    if String.eqb phase "proposal" then dispatch_period w = process_proposal_period (add_trace L w)
    else if bool_decide (phase ∈ ["exploration"; "promotion"])
    then dispatch_period w = process_voting_period (add_trace L w)
    else dispatch_period w = (Ok tt, add_trace L w) /\
         Printed "Voting isn't possible at the moment." ∈ L.
Proof.
  intros Hp. unfold dispatch_period, print_and_log.
  rewrite (cfg_str_bind _ (VStr phase)) by done. cbn [render]. out_steps.
  erewrite bind_Ok; [|apply (cfg_get_run _ (VStr phase)); cfg_lookups].
  destruct (String.eqb_spec phase "proposal") as [->|Hne].
  - rewrite decide_True by done. out_steps. eexists. split; [|reflexivity]. set_solver.
  - rewrite decide_False by congruence.
    destruct (bool_decide_reflect (phase ∈ ["exploration"; "promotion"])) as [Hin|Hin].
    + rewrite decide_True by (revert Hin; rewrite !elem_of_cons, elem_of_nil; intros [->|[->|[]]]; set_solver).
      out_steps. eexists. split; [|reflexivity]. set_solver.
    + rewrite decide_False by (intros Hv; apply Hin; set_solver).
      out_steps. eexists. split; [|split; [reflexivity | set_solver]]. set_solver.
Qed.

End Dispatch.

(** ** Runs of the top level *)

Definition ledger_listing : string :=
  "Found a Tezos Wallet app" +:+ newline +:+ "Found a Tezos Baking app".

(** A run whose every command succeeds and whose ledger shows both apps. *)
Definition ledger_world (lines : list string) : world :=
  start_world lines (fun _ _ => mkProc 0 ledger_listing "") (fun _ => false) ∅.

Lemma Responsive_ledger_world lines : Responsive 1 (ledger_world lines).
Proof.
  intros n dir app Happ. exists 0. split; [lia|].
  revert Happ. rewrite !elem_of_cons, elem_of_nil. intros [->|[->|[]]]; vm_compute; reflexivity.
Qed.

Lemma main_exit_status_witness :
  let w := ledger_world ["y"] in
  (main "mainnet" 1 w).1 =
    match (run_voting "mainnet" 1 (add_trace [start_log] w)).1 with
    | Ok _ => Ok 0%Z
    | Exn _ => Ok 1%Z
    end.
Proof. intros w. apply main_exit_status. apply Responsive_ledger_world. Defined.

Lemma dispatch_period_spec_witness :
  let w := set_cfg "amendment_phase" (VStr "adoption") (ledger_world []) in
  exists L, Printed ("The amendment is currently in the " +:+ "adoption" +:+ " period.") ∈ L /\
    if String.eqb "adoption" "proposal" then dispatch_period w = process_proposal_period (add_trace L w)
    else if bool_decide ("adoption" ∈ ["exploration"; "promotion"])
    then dispatch_period w = process_voting_period (add_trace L w)
    else dispatch_period w = (Ok tt, add_trace L w) /\
         Printed "Voting isn't possible at the moment." ∈ L.
Proof. intros w. apply dispatch_period_spec. reflexivity. Defined.
