(* ===== verification/Shell.v ===== *)
(** * Shell: the world of the packaging scripts

    The release scripts under [src/docker] and [src/scripts] run as
    batch programs: they read the environment and directory listings,
    run shell commands, write files and print.  Their state is [shell]:
    - [sh_env]: [os.environ];
    - [sh_dirs]: what [os.listdir] answers for each directory;
    - [sh_which]: what [shutil.which] answers for each program;
    - [sh_status]: the exit status of each command (an oracle);
    - [sh_files]: the contents of the files the scripts read and write;
    - [sh_ran]: the commands run, newest first;
    - [sh_out]: the lines printed, newest first.
    The scripts are [PyM shell] computations.

    [Runs cmds m] says that [m] runs exactly the commands [cmds], in this
    order, and returns when they all exit with status 0; the loops of the
    scripts are proved to run the concatenation of what their bodies
    run. *)

From S2P Require Import Prelude.
From Stdlib Require Export ZArith.

Record shell := mkShell {
  sh_env : gmap string string;
  sh_dirs : gmap string (list string);
  sh_which : gmap string string;
  sh_status : string -> Z;
  sh_files : gmap string string;
  sh_ran : list string;
  sh_out : list string
}.

Abbreviation SH := (PyM shell).

(** ** Primitive actions *)

Definition ran (cmd : string) (s : shell) : shell :=
  {| sh_env := sh_env s; sh_dirs := sh_dirs s; sh_which := sh_which s; sh_status := sh_status s;
     sh_files := sh_files s; sh_ran := cmd :: sh_ran s; sh_out := sh_out s |}.

(** Run a shell command and return its status. *)
Definition sh_run (cmd : string) : SH Z := fun s => (Ok (sh_status s cmd), ran cmd s).

(** [subprocess.call(cmd, shell=True)]: the status is not checked. *)
Definition subprocess_call (cmd : string) : SH unit := _ ← sh_run cmd; mret tt.

(** [call(cmd)] of [package.util.build] (not under src/): a failing
    command raises. *)
Definition call (cmd : string) : SH unit :=
  rc ← sh_run cmd;
  if Z.eqb rc 0 then mret tt else mthrow (CalledProcessError cmd).

(** [os.listdir(d)]: [FileNotFoundError], an [OSError], when [d] is not a
    directory. *)
Definition listdir (d : string) : SH (list string) := fun s =>
  match sh_dirs s !! d with
  | Some l => (Ok l, s)
  | None => (Exn (OSError ("[Errno 2] No such file or directory: '" +:+ d +:+ "'")), s)
  end.

(** [os.getenv(k, None)] and [os.environ[k]]. *)
Definition getenv (k : string) : SH (option string) := fun s => (Ok (sh_env s !! k), s).

Definition environ (k : string) : SH string := fun s =>
  match sh_env s !! k with
  | Some v => (Ok v, s)
  | None => (Exn (KeyError k), s)
  end.

(** [shutil.which(p)]. *)
Definition which (p : string) : SH (option string) := fun s => (Ok (sh_which s !! p), s).

Definition set_file (name content : string) (s : shell) : shell :=
  {| sh_env := sh_env s; sh_dirs := sh_dirs s; sh_which := sh_which s; sh_status := sh_status s;
     sh_files := <[name := content]> (sh_files s); sh_ran := sh_ran s; sh_out := sh_out s |}.

(** [open(name, "w")]: the file is created or emptied. *)
Definition open_w (name : string) : SH unit := fun s => (Ok tt, set_file name "" s).

(** [f.write(text)] on a file opened for writing. *)
Definition append_file (name text : string) : SH unit := fun s =>
  (Ok tt, set_file name (default "" (sh_files s !! name) +:+ text) s).

(** [open(name, "w").write(content)]. *)
Definition write_file (name content : string) : SH unit := open_w name;; append_file name content.

(** [open(name).read()]. *)
Definition read_file (name : string) : SH string := fun s =>
  match sh_files s !! name with
  | Some c => (Ok c, s)
  | None => (Exn (OSError ("[Errno 2] No such file or directory: '" +:+ name +:+ "'")), s)
  end.

Lemma set_file_same name c s : sh_files s !! name = Some c -> set_file name c s = s.
Proof. intros H. destruct s; unfold set_file; simpl in *. f_equal. by apply insert_id. Qed.

Lemma set_file_twice name a b s : set_file name a (set_file name b s) = set_file name a s.
Proof. unfold set_file. simpl. f_equal. apply insert_insert_eq. Qed.

Lemma read_file_Ok name c s : sh_files s !! name = Some c -> read_file name s = (Ok c, s).
Proof. intros H. unfold read_file. by rewrite H. Qed.

Definition sh_print (line : string) : SH unit := fun s =>
  (Ok tt, {| sh_env := sh_env s; sh_dirs := sh_dirs s; sh_which := sh_which s; sh_status := sh_status s;
             sh_files := sh_files s; sh_ran := sh_ran s; sh_out := line :: sh_out s |}).

(** A value computed without effects, or the exception it raises. *)
Definition lift {A} (r : res A) : SH A := fun s => (r, s).

(** [f"{x}"] of an optional string: [None] prints as [None]. *)
Definition render_opt (o : option string) : string :=
  match o with Some x => x | None => "None" end.

(** Python truthiness of an optional string. *)
Definition truthy_opt (o : option string) : bool :=
  match o with Some x => negb (String.eqb x "") | None => false end.

(** [for x in l: body(x)]. *)
Fixpoint py_for {St A} (l : list A) (body : A -> PyM St unit) : PyM St unit :=
  match l with
  | [] => mret tt
  | x :: l' => body x;; py_for l' body
  end.

(** ** Commands run *)

Definition ran_all (cmds : list string) (s : shell) : shell := foldl (fun s c => ran c s) s cmds.

Definition Runs (cmds : list string) (m : SH unit) : Prop :=
  forall s, Forall (fun c => sh_status s c = 0%Z) cmds -> m s = (Ok tt, ran_all cmds s).

Lemma status_ran c s : sh_status (ran c s) = sh_status s.
Proof. reflexivity. Qed.

Lemma status_ran_all cmds s : sh_status (ran_all cmds s) = sh_status s.
Proof. revert s. induction cmds as [|c cmds IH]; intros s; [done|]. simpl. by rewrite IH. Qed.

Lemma ran_all_app c1 c2 s : ran_all (c1 ++ c2) s = ran_all c2 (ran_all c1 s).
Proof. unfold ran_all. by rewrite foldl_app. Qed.

Lemma sh_ran_ran_all cmds s : sh_ran (ran_all cmds s) = reverse cmds ++ sh_ran s.
Proof.
  revert s. induction cmds as [|c cmds IH]; intros s; [done|].
  cbn [ran_all foldl]. fold (ran_all cmds (ran c s)). rewrite IH, reverse_cons, <- List.app_assoc. done.
Qed.

Lemma Runs_ret : Runs [] (mret tt).
Proof. by intros s _. Qed.

Lemma Runs_call c : Runs [c] (call c).
Proof. intros s Hs. apply Forall_inv in Hs. unfold call, mbind, PyM_bind, sh_run. by rewrite Hs. Qed.

Lemma Runs_subprocess_call c : Runs [c] (subprocess_call c).
Proof. by intros s _. Qed.

Lemma Runs_seq c1 c2 (m1 m2 : SH unit) : Runs c1 m1 -> Runs c2 m2 -> Runs (c1 ++ c2) (m1;; m2).
Proof.
  intros H1 H2 s Hs. apply Forall_app in Hs as [Hs1 Hs2].
  rewrite (bind_Ok _ _ _ _ _ (H1 s Hs1)), ran_all_app. apply H2.
  by rewrite status_ran_all.
Qed.

Lemma Runs_for {A} (l : list A) (cmds : A -> list string) (body : A -> SH unit) :
  (forall x, Runs (cmds x) (body x)) -> Runs (List.concat (cmds <$> l)) (py_for l body).
Proof.
  intros Hb. induction l as [|x l IH]; [apply Runs_ret|]. cbn [py_for fmap list_fmap List.concat].
  by apply Runs_seq.
Qed.

#[export] Hint Resolve Runs_ret Runs_call Runs_subprocess_call Runs_seq Runs_for : wiz.

(** A loop that runs one command per element runs the list. *)
Lemma Runs_for_cmds (run : string -> SH unit) (l : list string) :
  (forall c, Runs [c] (run c)) -> Runs l (py_for l run).
Proof.
  intros Hr. induction l as [|c l IH]; [apply Runs_ret|]. cbn [py_for].
  change (c :: l) with ([c] ++ l). by apply Runs_seq.
Qed.

Lemma Runs_weaken cmds (m : SH unit) s :
  Runs cmds m -> (forall c, sh_status s c = 0%Z) -> m s = (Ok tt, ran_all cmds s).
Proof. intros H Hs. apply H, Forall_forall. intros c _. apply Hs. Qed.

Lemma listdir_bind {B} d (f : list string -> SH B) s :
  (listdir d ≫= f) s =
    match sh_dirs s !! d with
    | Some l => f l s
    | None => (Exn (OSError ("[Errno 2] No such file or directory: '" +:+ d +:+ "'")), s)
    end.
Proof. unfold listdir, mbind, PyM_bind. by destruct (sh_dirs s !! d). Qed.

Lemma which_bind {B} p (f : option string -> SH B) s : (which p ≫= f) s = f (sh_which s !! p) s.
Proof. reflexivity. Qed.

Lemma env_ran_all cmds s : sh_env (ran_all cmds s) = sh_env s.
Proof. revert s. induction cmds as [|c cmds IH]; intros s; [done|]. simpl. by rewrite IH. Qed.

Lemma dirs_ran_all cmds s : sh_dirs (ran_all cmds s) = sh_dirs s.
Proof. revert s. induction cmds as [|c cmds IH]; intros s; [done|]. simpl. by rewrite IH. Qed.
