(* ===== verification/Release.v ===== *)
(** * Release: signing and uploading the built packages

    [src/docker/package/util/sign.py] signs the artifacts of a build:
    Debian [.changes] files get their [Changed-By] field set to the
    signing identity and are signed with [debsign]; source RPMs are
    signed with [rpmsign].  [src/docker/package/util/upload.py] uploads
    the [.changes] files to a Launchpad PPA with [dput] and the source
    RPMs to Copr, choosing the release-candidate or the stable repository
    by [OCTEZ_VERSION] and the Copr chroots by the destination.
    [src/docker/docker-tezos-packages.py] builds, then signs when an
    identity is given and uploads only after signing.

    Each script's [main] takes its [Arguments] or, run as a script,
    fills them from the [argparse] namespace of its own parser
    ([sign_parse], [upload_parse]: the attributes the parser creates).
    [docker_main] is [docker-tezos-packages.py] from its own options on:
    [--gpg-sign] ([gpg_sign_option]) and [--upload] ([upload_option],
    whose bare form means the [regular] destination).
    The build itself ([package.util.build.main]) is not under src/: the
    artifacts it returns are a parameter, and so is [fedora_versions] of
    [docker/supported_versions.py], which is not in the repository. *)

From S2P Require Import Prelude Patterns Shell.

(** ** The [argparse] namespace *)

Inductive arg := AStr (s : string) | AList (l : list string) | ANone.

Definition namespace := list (string * arg).

(** [getattr(ns, name)]. *)
Definition getattr (ns : namespace) (name : string) : res arg :=
  match List.find (fun kv => String.eqb kv.1 name) ns with
  | Some (_, v) => Ok v
  | None => Exn (AttributeError ("'Namespace' object has no attribute '" +:+ name +:+ "'"))
  end.

Definition arg_str (a : arg) : res string :=
  match a with AStr s => Ok s | _ => Exn (TypeError "expected str") end.
Definition arg_list (a : arg) : res (list string) :=
  match a with AList l => Ok l | _ => Exn (TypeError "expected list") end.
Definition arg_opt (a : arg) : option string :=
  match a with AStr s => Some s | _ => None end.

Definition opt_arg (o : option string) : arg :=
  match o with Some s => AStr s | None => ANone end.

(** [f"{artifact}"] joined to a directory for every name it lists. *)
Definition listed (dir : string) (names : list string) : list string := os_path_join dir <$> names.

(** ** sign.py *)

Record sign_args := SignArgs {
  sa_directory : string;
  sa_artifacts : list string;
  sa_identity : option string
}.

(** [parser.parse_args()] of sign.py: [--directory], [--artifacts] and
    [--identity] (lines 12-34). *)
Definition sign_parse (directory : string) (artifacts : list string) (identity : option string) : namespace :=
  [("directory", AStr directory); ("artifacts", AList artifacts); ("identity", opt_arg identity)].

(** [fill_args(args)] (lines 44-49): it reads [args.packages]. *)
Definition sign_fill_args (ns : namespace) : res sign_args :=
  d ← getattr ns "directory" ≫= arg_str;
  a ← getattr ns "packages" ≫= arg_list;
  i ← getattr ns "identity";
  mret (SignArgs d a (arg_opt i)).

(** The commands that sign one artifact (lines 66-73). *)
Definition sign_commands (identity gpg : option string) (f : string) : list string :=
  if endswith f ".changes" then
    ["sed -i 's/^Changed-By: .*$/Changed-By: " +:+ render_opt identity +:+ "/' " +:+ f;
     "debsign " +:+ f]
  else if endswith f ".src.rpm" then
    ["rpmsign --define=" +:+ dq +:+ "%_gpg_name " +:+ render_opt identity +:+ dq +:+
     " --define=" +:+ dq +:+ "%__gpg " +:+ render_opt gpg +:+ dq +:+ " --addsign " +:+ f]
  else [].

Definition sign_artifact (identity gpg : option string) (f : string) : SH unit :=
  py_for (sign_commands identity gpg f) call.

(** [main(args)] of sign.py (lines 52-73). *)
Definition sign_main (args : option sign_args) (ns : namespace) : SH unit :=
  a ← (match args with Some a => mret a | None => lift (sign_fill_args ns) end);
  artifacts ← (if bool_decide (sa_artifacts a = [])
               then names ← listdir (sa_directory a); mret (listed (sa_directory a) names)
               else mret (sa_artifacts a));
  gpg ← which "gpg";
  py_for artifacts (sign_artifact (sa_identity a) gpg).

(** ** upload.py *)

Record upload_args := UploadArgs {
  ua_directory : string;
  ua_artifacts : list string;
  ua_destination : option string
}.

(** [parser.parse_args()] of upload.py (lines 16-38). *)
Definition upload_parse (directory : string) (artifacts : list string) (upload : option string) : namespace :=
  [("directory", AStr directory); ("artifacts", AList artifacts); ("upload", opt_arg upload)].

(** [fill_args(args)] (lines 48-53). *)
Definition upload_fill_args (ns : namespace) : res upload_args :=
  d ← getattr ns "directory" ≫= arg_str;
  a ← getattr ns "artifacts" ≫= arg_list;
  u ← getattr ns "upload";
  mret (UploadArgs d a (arg_opt u)).

Definition tab : string := String (ascii_of_nat 9) EmptyString.

(** The [dput.cfg] the script writes (lines 61-92). *)
Definition dput_cfg : string :=
  join_str newline
    ["";
     "[DEFAULT]";
     "login" +:+ tab +:+ " = *";
     "method = ftp";
     "hash = md5";
     "allow_unsigned_uploads = 0";
     "allow_dcut = 0";
     "run_lintian = 0";
     "run_dinstall = 0";
     "check_version = 0";
     "scp_compress = 0";
     "post_upload_command" +:+ tab +:+ "=";
     "pre_upload_command =";
     "passive_ftp = 1";
     "default_host_main" +:+ tab +:+ "=";
     "allowed_distributions" +:+ tab +:+ "= (?!UNRELEASED)";
     "";
     "[tezos-serokell]";
     "fqdn      = ppa.launchpad.net";
     "method    = ftp";
     "incoming  = ~serokell/ubuntu/tezos";
     "login     = anonymous";
     "";
     "[tezos-rc-serokell]";
     "fqdn        = ppa.launchpad.net";
     "method      = ftp";
     "incoming    = ~serokell/ubuntu/tezos-rc";
     "login       = anonymous";
     "    "].

(** [re.search("v.*-rc[0-9]*", s) is not None]: a [v], then on the same
    line [-rc]; the digits may be none. *)
Fixpoint rc_after (s : string) : bool :=
  String.prefix "-rc" s ||
  match s with
  | EmptyString => false
  | String c s' => negb (Ascii.eqb c (ascii_of_nat 10)) && rc_after s'
  end.

Fixpoint is_rc_version (s : string) : bool :=
  match s with
  | EmptyString => false
  | String c s' => (Ascii.eqb c "v"%char && rc_after s') || is_rc_version s'
  end.

(** The PPA and the Copr project for a version (lines 94-101). *)
Definition repositories (version : string) : string * string :=
  if is_rc_version version then ("tezos-rc-serokell", "@Serokell/Tezos-rc")
  else ("tezos-serokell", "@Serokell/Tezos-test").

Section Upload.
Variable fedora_versions : list string.

(** The chroots of a destination (lines 121-129); [None] when neither
    branch assigns [chroots]. *)
Definition chroots_of (destination : option string) : option (list string) :=
  if bool_decide (destination = Some "epel") then Some ["epel-x86_64"]
  else if bool_decide (destination = Some "regular") then
    Some (List.concat ((fun version => (fun arch => "fedora-" +:+ version +:+ "-" +:+ arch)
                                          <$> ["x86_64"; "aarch64"]) <$> fedora_versions))
  else None.

Definition dput_commands (ppa dir : string) (packages : list string) : list string :=
  (fun f => "execute-dput -c dput.cfg " +:+ ppa +:+ " " +:+ os_path_join dir f)
    <$> List.filter (fun x => endswith x ".changes") packages.

Definition copr_commands (chroots copr : string) (packages : list string) : list string :=
  (fun f => "copr-cli build " +:+ chroots +:+ " --nowait " +:+ copr +:+ " " +:+ f)
    <$> List.filter (fun x => endswith x ".src.rpm") packages.

(** [main(args)] of upload.py (lines 56-137). *)
Definition upload_main (args : option upload_args) (ns : namespace) : SH unit :=
  a ← (match args with Some a => mret a | None => lift (upload_fill_args ns) end);
  write_file "dput.cfg" dput_cfg;;
  octez_version ← getenv "OCTEZ_VERSION";
  version ← (match octez_version with
             | Some v => mret v
             | None => mthrow (TypeError "expected string or bytes-like object, got 'NoneType'")
             end);
  let '(launchpad_ppa, copr_project) := repositories version in
  let source_packages_path := ua_directory a in
  packages ← (if bool_decide (ua_artifacts a = [])
              then names ← listdir source_packages_path; mret (listed source_packages_path names)
              else mret (ua_artifacts a));
  py_for (dput_commands launchpad_ppa source_packages_path packages) subprocess_call;;
  chroots ← (match chroots_of (ua_destination a) with
             | Some c => mret c
             | None => mthrow (NameError "chroots")
             end);
  let chroots_s := join_str " " ((fun chroot => "-r " +:+ chroot) <$> chroots) in
  py_for (copr_commands chroots_s copr_project packages) subprocess_call.

(** ** docker-tezos-packages.py *)

(** [--upload] (lines 27-33, as in upload.py lines 32-38): [nargs="?"]
    with [default=None] and [const="regular"]. *)
Definition upload_option (g : given) : option string :=
  match g with Absent => None | Bare => Some "regular" | Given v => Some v end.

(** [--gpg-sign] (lines 19-24): one value, [None] by default. *)
Definition gpg_sign_option (g : given) : res (option string) :=
  match g with Absent => Ok None | Given v => Ok (Some v) | Bare => Exn (SystemExit 2) end.


(** The script after [build.main(args)] returned [artifacts] (lines
    35-47). *)
Definition docker_tezos_packages (output_dir : string) (artifacts : list string)
  (gpg_sign upload : option string) : SH unit :=
  (if truthy_opt gpg_sign then
     sign_main (Some (SignArgs output_dir artifacts gpg_sign)) [];;
     (if truthy_opt upload then upload_main (Some (UploadArgs output_dir artifacts upload)) []
      else mret tt)
   else mret tt);;
  if negb (truthy_opt gpg_sign) && truthy_opt upload
  then mthrow (PyException "You have to sign packages before uploading them.")
  else mret tt.


(** The script from [parser.parse_args()] on (lines 35-47), with the
    artifacts that [build.main(args)] returns. *)
Definition docker_main (output_dir : string) (artifacts : list string) (gpg_sign upload : given) : SH unit :=
  identity ← lift (gpg_sign_option gpg_sign);
  docker_tezos_packages output_dir artifacts identity (upload_option upload).

End Upload.

(** ** What the scripts run *)
Lemma Runs_sign_artifact identity gpg f : Runs (sign_commands identity gpg f) (sign_artifact identity gpg f).
Proof. apply Runs_for_cmds, Runs_call. Qed.

(** [sign.main] with its arguments given signs every artifact (those
    listed in the directory when none is given): [sed] and [debsign] for
    a [.changes] file, [rpmsign] with the identity and the [gpg] binary
    for a source RPM, nothing for other files, in the order of the
    artifacts; a missing directory raises [FileNotFoundError]. *)
Lemma sign_main_run (a : sign_args) ns s :
  (forall c, sh_status s c = 0%Z) ->
  sign_main (Some a) ns s =
    match (if bool_decide (sa_artifacts a = [])
           then listed (sa_directory a) <$> sh_dirs s !! sa_directory a
           else Some (sa_artifacts a)) with
    | Some arts =>
        (Ok tt, ran_all (List.concat (sign_commands (sa_identity a) (sh_which s !! "gpg") <$> arts)) s)
    | None => (Exn (OSError ("[Errno 2] No such file or directory: '" +:+ sa_directory a +:+ "'")), s)
    end.
Proof.
  intros Hs. unfold sign_main. rewrite (bind_Ok _ _ _ _ _ (eq_refl : (mret a : SH sign_args) s = (Ok a, s))).
  case_bool_decide.
  - rewrite bind_assoc_run, listdir_bind. destruct (sh_dirs s !! sa_directory a) as [names|]; [|done].
    rewrite (bind_Ok _ _ _ _ _ (eq_refl : (mret (listed (sa_directory a) names) : SH _) s = (Ok _, s))).
    rewrite which_bind. apply Runs_weaken; [|done]. apply Runs_for. intros f. apply Runs_sign_artifact.
  - rewrite (bind_Ok _ _ _ _ _ (eq_refl : (mret (sa_artifacts a) : SH _) s = (Ok _, s))).
    rewrite which_bind. apply Runs_weaken; [|done]. apply Runs_for. intros f. apply Runs_sign_artifact.
Qed.

(** C26: run as a script, [sign.py] always fails before signing anything:
    [fill_args] reads [args.packages], but the parser defines the
    option [--artifacts], so the namespace has no attribute [packages]
    and [AttributeError] is raised. *)
Theorem sign_script_attribute_error directory artifacts identity s :
  sign_main None (sign_parse directory artifacts identity) s =
    (Exn (AttributeError "'Namespace' object has no attribute 'packages'"), s).
Proof. reflexivity. Qed.

Section UploadRuns.
Variable fedora_versions : list string.

Definition dput_written (s : shell) : shell := (write_file "dput.cfg" dput_cfg s).2.

Definition chroot_flags (chroots : list string) : string :=
  join_str " " ((fun chroot => "-r " +:+ chroot) <$> chroots).

(** What [upload.main] does, on every branch, when the commands it runs
    succeed. *)
Lemma upload_main_run (a : upload_args) ns s :
  (forall c, sh_status s c = 0%Z) ->
  upload_main fedora_versions (Some a) ns s =
    match sh_env s !! "OCTEZ_VERSION" with
    | None => (Exn (TypeError "expected string or bytes-like object, got 'NoneType'"), dput_written s)
    | Some v =>
        let '(ppa, copr) := repositories v in
        match (if bool_decide (ua_artifacts a = [])
               then listed (ua_directory a) <$> sh_dirs s !! ua_directory a
               else Some (ua_artifacts a)) with
        | None => (Exn (OSError ("[Errno 2] No such file or directory: '" +:+ ua_directory a +:+ "'")),
                   dput_written s)
        | Some pkgs =>
            let s1 := ran_all (dput_commands ppa (ua_directory a) pkgs) (dput_written s) in
            match chroots_of fedora_versions (ua_destination a) with
            | None => (Exn (NameError "chroots"), s1)
            | Some ch => (Ok tt, ran_all (copr_commands (chroot_flags ch) copr pkgs) s1)
            end
        end
    end.
Proof.
  intros Hs. unfold upload_main.
  rewrite (bind_Ok _ _ _ _ _ (eq_refl : (mret a : SH upload_args) s = (Ok a, s))).
  rewrite (bind_Ok _ _ _ _ _ (eq_refl : write_file "dput.cfg" dput_cfg s = (Ok tt, dput_written s))).
  rewrite (bind_Ok _ _ _ _ _ (eq_refl : getenv "OCTEZ_VERSION" (dput_written s) =
                                        (Ok (sh_env s !! "OCTEZ_VERSION"), dput_written s))).
  destruct (sh_env s !! "OCTEZ_VERSION") as [v|]; [|done].
  rewrite (bind_Ok _ _ _ _ _ (eq_refl : (mret v : SH string) (dput_written s) = (Ok v, dput_written s))).
  destruct (repositories v) as [ppa copr].
  assert (Hrest : forall pkgs,
    (py_for (dput_commands ppa (ua_directory a) pkgs) subprocess_call;;
     chroots ← (match chroots_of fedora_versions (ua_destination a) with
                | Some c => mret c | None => mthrow (NameError "chroots") end);
     py_for (copr_commands (chroot_flags chroots) copr pkgs) subprocess_call) (dput_written s) =
    (let s1 := ran_all (dput_commands ppa (ua_directory a) pkgs) (dput_written s) in
     match chroots_of fedora_versions (ua_destination a) with
     | None => (Exn (NameError "chroots"), s1)
     | Some ch => (Ok tt, ran_all (copr_commands (chroot_flags ch) copr pkgs) s1)
     end)).
  { intros pkgs.
    rewrite (bind_Ok _ _ _ _ _ (Runs_weaken _ _ (dput_written s) (Runs_for_cmds _ _ Runs_subprocess_call) Hs)).
    destruct (chroots_of _ _) as [ch|]; [|done].
    rewrite (bind_Ok _ _ _ _ _ (eq_refl : (mret ch : SH _) _ = (Ok ch, _))).
    apply Runs_weaken; [apply Runs_for_cmds, Runs_subprocess_call|]. intros c. rewrite status_ran_all. apply Hs. }
  case_bool_decide.
  - rewrite bind_assoc_run, listdir_bind. destruct (sh_dirs (dput_written s) !! ua_directory a) as [names|] eqn:Hd;
      change (sh_dirs (dput_written s)) with (sh_dirs s) in Hd; rewrite Hd; [|done].
    rewrite (bind_Ok _ _ _ _ _ (eq_refl : (mret (listed (ua_directory a) names) : SH _) _ = (Ok _, _))).
    apply Hrest.
  - rewrite (bind_Ok _ _ _ _ _ (eq_refl : (mret (ua_artifacts a) : SH _) _ = (Ok _, _))). apply Hrest.
Qed.

End UploadRuns.

(** ** The release-candidate pattern *)
Lemma rc_after_spec s :
  rc_after s = true <-> exists b c, s = b +:+ "-rc" +:+ c /\ line_free b = true.
Proof.
  induction s as [|d s IH]; cbn [rc_after]; rewrite orb_true_iff, prefix_spec.
  - split; [intros [[t Ht]|H]; [by exists "", t | done]|].
    intros ([|e b] & c & Hs & _); [left; by exists c | by rewrite append_cons in Hs].
  - rewrite andb_true_iff, IH. split.
    + intros [[t Ht]|[Hd (b & c & -> & Hb)]]; [by exists "", t|].
      exists (String d b), c. split; [done|]. simpl. by rewrite Hd, Hb.
    + intros ([|e b] & c & Hs & Hb); [left; by exists c|].
      rewrite append_cons in Hs. injection Hs as -> ->. simpl in Hb.
      apply andb_true_iff in Hb as [He Hb]. right. split; [done|]. by exists b, c.
Qed.

(** C27: the hand-written matcher [is_rc_version] is the regular
    expression [v.*-rc[0-9]*] of upload.py searched in the version: it
    holds exactly when the version has a [v] followed, on the same line,
    by [-rc]. *)
Theorem is_rc_version_spec (s : string) :
  is_rc_version s = true <->
  exists a b c, s = a +:+ "v" +:+ b +:+ "-rc" +:+ c /\ line_free b = true.
Proof.
  induction s as [|d s IH]; cbn [is_rc_version].
  - split; [done|]. intros ([|? ?] & ? & ? & Hs & _); by rewrite ?append_cons in Hs.
  - rewrite orb_true_iff, andb_true_iff, rc_after_spec, IH. split.
    + intros [[Hd%Ascii.eqb_eq (b & c & -> & Hb)]|(a & b & c & -> & Hb)].
      * subst d. by exists "", b, c.
      * by exists (String d a), b, c.
    + intros ([|e a] & b & c & Hs & Hb); rewrite ?append_cons in Hs; injection Hs as -> ->.
      * left. split; [apply Ascii.eqb_refl|]. by exists b, c.
      * right. by exists a, b, c.
Qed.

(** ** Upload errors *)

Section UploadErrors.
Variable fedora_versions : list string.

(** C24: with a destination other than [epel] and [regular] (for instance
    [--upload] given another name, or [upload.main] called without one),
    [upload.py] first uploads every [.changes] file to Launchpad and only
    then fails: neither branch assigns [chroots], and reading it raises
    [NameError] (an [UnboundLocalError]); no Copr build is started. *)
Theorem upload_unknown_destination (a : upload_args) ns s v :
  (forall c, sh_status s c = 0%Z) ->
  sh_env s !! "OCTEZ_VERSION" = Some v ->
  ua_artifacts a <> [] ->
  chroots_of fedora_versions (ua_destination a) = None ->
  upload_main fedora_versions (Some a) ns s =
    (Exn (NameError "chroots"),
     ran_all (dput_commands (repositories v).1 (ua_directory a) (ua_artifacts a)) (dput_written s)).
Proof.
  intros Hs Hv Ha Hd. rewrite upload_main_run, Hv by done.
  destruct (repositories v) as [ppa copr]. rewrite bool_decide_eq_false_2 by done. cbn. by rewrite Hd.
Qed.

(** C25: without [OCTEZ_VERSION] in the environment, [upload.py] writes
    [dput.cfg] and then fails in [re.search] with [TypeError], before any
    upload command. *)
Theorem upload_without_version (a : upload_args) ns s :
  sh_env s !! "OCTEZ_VERSION" = None ->
  upload_main fedora_versions (Some a) ns s =
    (Exn (TypeError "expected string or bytes-like object, got 'NoneType'"), dput_written s).
Proof.
  intros Hv. unfold upload_main.
  rewrite (bind_Ok _ _ _ _ _ (eq_refl : (mret a : SH upload_args) s = (Ok a, s))).
  rewrite (bind_Ok _ _ _ _ _ (eq_refl : write_file "dput.cfg" dput_cfg s = (Ok tt, dput_written s))).
  rewrite (bind_Ok _ _ _ _ _ (eq_refl : getenv "OCTEZ_VERSION" (dput_written s) =
                                        (Ok (sh_env s !! "OCTEZ_VERSION"), dput_written s))).
  by rewrite Hv.
Qed.

End UploadErrors.

(** ** docker-tezos-packages.py *)

Section Docker.
Variable fedora_versions : list string.

(** Without an identity the script signs and uploads nothing. *)
Lemma docker_tezos_packages_unsigned output_dir artifacts gpg_sign upload s :
  truthy_opt gpg_sign = false ->
  docker_tezos_packages fedora_versions output_dir artifacts gpg_sign upload s =
    (if truthy_opt upload
     then Exn (PyException "You have to sign packages before uploading them.")
     else Ok tt, s).
Proof. intros Hg. unfold docker_tezos_packages. rewrite Hg. cbn. by destruct (truthy_opt upload). Qed.

(** C10: [docker-tezos-packages.py] never uploads unsigned packages:
    without [--gpg-sign] (or with an empty identity) it runs no signing or
    upload command, and an upload request, [--upload] alone included,
    makes it raise. *)
Theorem docker_refuses_unsigned_upload output_dir artifacts sign upload s :
  sign = Absent \/ sign = Given "" ->
  docker_main fedora_versions output_dir artifacts sign upload s =
    (if truthy_opt (upload_option upload)
     then Exn (PyException "You have to sign packages before uploading them.")
     else Ok tt, s).
Proof.
  intros [-> | ->]; unfold docker_main; (erewrite bind_Ok; [|reflexivity]);
    by apply docker_tezos_packages_unsigned.
Qed.

(** C13: with an identity and a destination, [docker-tezos-packages.py]
    signs every artifact before it uploads any: the commands run are the
    signing commands of the artifacts, then the Launchpad uploads of the
    [.changes] files, then the Copr builds of the source RPMs, to the
    repositories of [OCTEZ_VERSION]. *)
Theorem docker_signs_then_uploads output_dir artifacts identity dest s v ch :
  (forall c, sh_status s c = 0%Z) ->
  identity <> "" -> dest <> "" -> artifacts <> [] ->
  sh_env s !! "OCTEZ_VERSION" = Some v ->
  chroots_of fedora_versions (Some dest) = Some ch ->
  let signed := ran_all (List.concat (sign_commands (Some identity) (sh_which s !! "gpg") <$> artifacts)) s in
  docker_tezos_packages fedora_versions output_dir artifacts (Some identity) (Some dest) s =
    (Ok tt,
     ran_all (copr_commands (chroot_flags ch) (repositories v).2 artifacts)
       (ran_all (dput_commands (repositories v).1 output_dir artifacts) (dput_written signed))).
Proof.
  intros Hs Hi Hd Ha Hv Hc signed. unfold docker_tezos_packages. cbn [truthy_opt].
  rewrite (proj2 (negb_true_iff _) (proj2 (String.eqb_neq _ _) Hi)),
          (proj2 (negb_true_iff _) (proj2 (String.eqb_neq _ _) Hd)).
  assert (E : sign_main (Some (SignArgs output_dir artifacts (Some identity))) [] s = (Ok tt, signed)).
  { rewrite (sign_main_run _ _ _ Hs). by rewrite bool_decide_eq_false_2. }
  rewrite !bind_assoc_run, (bind_Ok _ _ _ _ _ E).
  assert (Hs' : forall c, sh_status signed c = 0%Z) by (intros c; unfold signed; rewrite status_ran_all; apply Hs).
  assert (E2 : upload_main fedora_versions (Some (UploadArgs output_dir artifacts (Some dest))) [] signed =
                (Ok tt, ran_all (copr_commands (chroot_flags ch) (repositories v).2 artifacts)
                          (ran_all (dput_commands (repositories v).1 output_dir artifacts) (dput_written signed)))).
  { rewrite (upload_main_run _ _ _ _ Hs'). unfold signed at 1. rewrite env_ran_all, Hv.
    destruct (repositories v) as [ppa copr]. rewrite bool_decide_eq_false_2 by done. cbn. by rewrite Hc. }
  rewrite (bind_Ok _ _ _ _ _ E2). reflexivity.
Qed.

End Docker.

(** ** Runs of the release scripts *)

Definition release_shell (version : option string) : shell :=
  {| sh_env := match version with Some v => <["OCTEZ_VERSION" := v]> ∅ | None => ∅ end;
     sh_dirs := <["/out" := ["tezos-client_20.0-rc1.changes"; "tezos-client-20.0-rc1.src.rpm"]]> ∅;
     sh_which := <["gpg" := "/usr/bin/gpg"]> ∅;
     sh_status := fun _ => 0%Z;
     sh_files := ∅; sh_ran := []; sh_out := [] |}.

Definition release_artifacts : list string :=
  ["/out/tezos-client_20.0-rc1.changes"; "/out/tezos-client-20.0-rc1.src.rpm"].

Lemma upload_unknown_destination_witness :
  let a := UploadArgs "/out" release_artifacts (Some "testing") in
  upload_main ["39"; "40"] (Some a) [] (release_shell (Some "v20.0-rc1")) =
    (Exn (NameError "chroots"),
     ran_all (dput_commands (repositories "v20.0-rc1").1 "/out" release_artifacts)
       (dput_written (release_shell (Some "v20.0-rc1")))).
Proof. intros a. apply upload_unknown_destination; [done | reflexivity | discriminate | reflexivity]. Defined.

Lemma upload_without_version_witness :
  upload_main ["39"; "40"] (Some (UploadArgs "/out" [] (Some "regular"))) [] (release_shell None) =
    (Exn (TypeError "expected string or bytes-like object, got 'NoneType'"), dput_written (release_shell None)).
Proof. apply upload_without_version. reflexivity. Defined.

Lemma docker_refuses_unsigned_upload_witness :
  docker_main ["39"; "40"] "/out" release_artifacts Absent Bare (release_shell None) =
    (Exn (PyException "You have to sign packages before uploading them."), release_shell None).
Proof. apply (docker_refuses_unsigned_upload _ _ _ Absent Bare). by left. Defined.

Lemma docker_signs_then_uploads_witness :
  let s := release_shell (Some "v20.0-rc1") in
  let signed := ran_all (List.concat (sign_commands (Some "Serokell <hi@serokell.io>") (sh_which s !! "gpg")
                                        <$> release_artifacts)) s in
  docker_tezos_packages ["39"; "40"] "/out" release_artifacts (Some "Serokell <hi@serokell.io>") (Some "regular") s =
    (Ok tt,
     ran_all (copr_commands (chroot_flags ["fedora-39-x86_64"; "fedora-39-aarch64"; "fedora-40-x86_64"; "fedora-40-aarch64"])
                (repositories "v20.0-rc1").2 release_artifacts)
       (ran_all (dput_commands (repositories "v20.0-rc1").1 "/out" release_artifacts) (dput_written signed))).
Proof.
  intros s signed.
  apply docker_signs_then_uploads; [done | discriminate | discriminate | discriminate | reflexivity | reflexivity].
Defined.
