(* ===== verification/FlakeInput.v ===== *)
(** * FlakeInput: [src/scripts/update-input.py]

    The script points one input of [flake.nix] at a new revision.  It
    reads the [nodes] of [flake.lock], reads [flake.nix] line by line,
    reopens [flake.nix] for writing, and for every line looks up the
    input's [locked] metadata and writes the line through [re.sub] with
    the pattern
    [{name}\.url[ ]*=[ ]*{dq}{type}:{owner}\/{repo}.*$]
    and the replacement [{name}.url = {dq}{type}:{owner}/{repo}/{rev}{dq};],
    where [{dq}] stands for a double quote;
    it then runs [nix flake lock --update-input {name}].

    - [readlines] is [file.readlines()] on a file opened in text mode:
      [universal_newlines] reads [\r\n] and a lone [\r] as [\n], then the
      text is cut after each [\n]; the lines put together are the
      translated text ([readlines_concat]).  The file is written back in
      text mode, where [\n] stays [\n] on Linux.
    - [flake_pattern] is the pattern as a matcher that answers, at a
      position, what follows the match; the interpolated values are matched
      literally, which is what the regular expression does for names and
      lock fields without metacharacters (the code does not escape them).
      [re_sub] is [re.sub] for such a matcher.
    - [update_input] is the script in the shell world of [Shell]; the
      parsing of [flake.lock] ([json.load(f)] at key [nodes]) is the parameter
      [json_nodes].

    The theorems give the script's result on every path: the rewritten
    file and the [nix] command when the lock has the input, the rewrite
    of a line that names the input, the file written back with its line
    breaks translated to [\n] when no line names it, and the [KeyError]
    raised after [flake.nix] has been emptied when the lock does not have
    the input. *)

From S2P Require Import Prelude Patterns Shell.

(** ** Lines *)

Definition nl_char : ascii := ascii_of_nat 10.

Definition cr_char : ascii := ascii_of_nat 13.

(** [open(..., "r")] reads in text mode with universal newlines: a
    carriage return followed by a line feed, and a carriage return alone,
    are read as one line feed. *)
Fixpoint universal_newlines (s : string) : string :=
  match s with
  | EmptyString => EmptyString
  | String c s' =>
      if Ascii.eqb c cr_char then
        match s' with
        | String c' s'' =>
            if Ascii.eqb c' nl_char then String nl_char (universal_newlines s'')
            else String nl_char (universal_newlines s')
        | EmptyString => String nl_char EmptyString
        end
      else String c (universal_newlines s')
  end.

(** The lines of the translated text, each with its line feed, the last
    one without when the text does not end with one. *)
Fixpoint readlines_acc (cur s : string) : list string :=
  match s with
  | EmptyString => if String.eqb cur "" then [] else [cur]
  | String c s' =>
      if Ascii.eqb c nl_char then (cur +:+ String c "") :: readlines_acc "" s'
      else readlines_acc (cur +:+ String c "") s'
  end.

(** [f.readlines()] on a file opened with [open(..., "r")]. *)
Definition readlines (s : string) : list string := readlines_acc "" (universal_newlines s).

(** ** The pattern and [re.sub] *)

(** [[ ]*]: the spaces at the front; greedy, and what follows the spaces
    in the pattern is not a space, so it never gives one back. *)
Fixpoint skip_spaces (s : string) : string :=
  match s with
  | String c s' => if Ascii.eqb c " " then skip_spaces s' else s
  | EmptyString => s
  end.

(** What follows the first line break, the break included. *)
Fixpoint line_rest (s : string) : string :=
  match s with
  | EmptyString => EmptyString
  | String c s' => if Ascii.eqb c nl_char then s else line_rest s'
  end.

(** [.*$]: [.] does not match a line break, and [$] matches at the end of
    the text or before a line break that ends it. *)
Definition dot_star_end (s : string) : option string :=
  let r := line_rest s in
  if String.eqb r "" || String.eqb r newline then Some r else None.

Definition flake_pattern (name type owner repo : string) (s : string) : option string :=
  r1 ← strip_prefix (name +:+ ".url") s;
  r2 ← strip_prefix "=" (skip_spaces r1);
  r3 ← strip_prefix (dq +:+ type +:+ ":" +:+ owner +:+ "/" +:+ repo) (skip_spaces r2);
  dot_star_end r3.

Definition flake_url (name type owner repo rev : string) : string :=
  name +:+ ".url = " +:+ dq +:+ type +:+ ":" +:+ owner +:+ "/" +:+ repo +:+ "/" +:+ rev +:+ dq +:+ ";".

(** [re.sub(pattern, repl, s)] for a matcher [m] that answers what
    follows a match starting at the front of its argument: scan from the
    left, replace each match and go on after it.  The fuel is one step per
    character. *)
Fixpoint re_sub_fuel (fuel : nat) (m : string -> option string) (repl s : string) : string :=
  match fuel with
  | O => s
  | S fuel =>
      match m s with
      | Some rest => repl +:+ re_sub_fuel fuel m repl rest
      | None =>
          match s with
          | EmptyString => EmptyString
          | String c s' => String c (re_sub_fuel fuel m repl s')
          end
      end
  end.

Definition re_sub (m : string -> option string) (repl s : string) : string :=
  re_sub_fuel (S (String.length s)) m repl s.

(** ** The script *)

Definition lock_nodes := gmap string (gmap string (gmap string string)).

(** [d[k]] on a dictionary. *)
Definition dict_get {V} (d : gmap string V) (k : string) : res V :=
  match d !! k with Some v => Ok v | None => Exn (KeyError k) end.

(** Lines 25-31: the metadata is read for the pattern ([type], [owner],
    [repo], in this order) and the line is written through [re.sub]. *)
Definition update_line (name rev : string) (meta : gmap string string) (line : string) : res string :=
  t ← dict_get meta "type";
  o ← dict_get meta "owner";
  r ← dict_get meta "repo";
  Ok (re_sub (flake_pattern name t o r) (flake_url name t o r rev) line).

Definition update_command (flake : string) : string :=
  join_str " " ["nix"; "flake"; "lock"; "--update-input"; flake].

Section UpdateInput.
(** [json.load(f)] at key [nodes], on the text of [flake.lock]. *)
Variable json_nodes : string -> res lock_nodes.

(** The script, with [args.flake] and [args.rev]. *)
Definition update_input (flake rev : string) : SH unit :=
  text ← read_file "flake.lock";
  lock ← lift (json_nodes text);
  nix ← read_file "flake.nix";
  open_w "flake.nix";;
  py_for (readlines nix) (fun line =>
    meta ← lift (dict_get lock flake ≫= fun node => dict_get node "locked");
    out ← lift (update_line flake rev meta line);
    append_file "flake.nix" out);;
  subprocess_call (update_command flake).
End UpdateInput.

(** ** Lines lose nothing *)

Definition str_concat (l : list string) : string := foldr String.append "" l.

Lemma readlines_acc_concat cur s : str_concat (readlines_acc cur s) = cur +:+ s.
Proof.
  revert cur. induction s as [|c s IH]; intros cur; simpl.
  - destruct (String.eqb_spec cur "") as [->|_]; simpl; by rewrite ?append_nil_r.
  - case_match; simpl; rewrite ?IH, append_assoc_str; done.
Qed.

(** The lines are the translated text. *)
Lemma readlines_concat s : str_concat (readlines s) = universal_newlines s.
Proof. apply readlines_acc_concat. Qed.

Lemma universal_newlines_nonempty s : s <> "" -> universal_newlines s <> "".
Proof.
  destruct s as [|c s]; [done|]. simpl.
  destruct (Ascii.eqb c cr_char); [destruct s as [|c' s]; [|destruct (Ascii.eqb c' nl_char)]|]; discriminate.
Qed.

(** A text without carriage returns is read as it is. *)
Lemma universal_newlines_cr_free s : contains (String cr_char "") s = false -> universal_newlines s = s.
Proof.
  induction s as [|c s IH]; [done|]. simpl. intros H.
  apply orb_false_iff in H as [Hc H].
  destruct (Ascii.eqb c cr_char) eqn:E; [|by rewrite IH].
  apply Ascii.eqb_eq in E as ->. simpl in Hc. by destruct s.
Qed.

Lemma contains_str_concat p l :
  contains p (str_concat l) = false -> Forall (fun x => contains p x = false) l.
Proof.
  induction l as [|x l IH]; simpl; intros H; constructor.
  - destruct (contains p x) eqn:E; [|done]. by rewrite (contains_app_l _ _ (str_concat l) E) in H.
  - apply IH. destruct (contains p (str_concat l)) eqn:E; [|done].
    by rewrite (contains_app_r _ x _ E) in H.
Qed.

(** ** The pattern *)

Definition is_sp (c : ascii) : bool := Ascii.eqb c " ".

Lemma flake_pattern_prefix name t o r s rest :
  flake_pattern name t o r s = Some rest -> String.prefix (name +:+ ".url") s = true.
Proof.
  unfold flake_pattern. destruct (strip_prefix (name +:+ ".url") s) as [r1|] eqn:E; [|done].
  intros _. apply strip_prefix_spec in E as ->. apply prefix_app.
Qed.

(** No match starts where the input's name does not occur. *)
Lemma flake_pattern_none name t o r s :
  contains (name +:+ ".url") s = false -> flake_pattern name t o r s = None.
Proof.
  intros H. destruct (flake_pattern name t o r s) eqn:E; [|done].
  apply flake_pattern_prefix, prefix_spec in E as [x ->].
  by rewrite (contains_app_l _ _ x (contains_self _)) in H.
Qed.

Lemma re_sub_fuel_id name t o r repl s n :
  contains (name +:+ ".url") s = false -> re_sub_fuel n (flake_pattern name t o r) repl s = s.
Proof.
  revert n. induction s as [|c s IH]; intros [|n] H; [done | | done |]; simpl;
    rewrite (flake_pattern_none _ _ _ _ _ H); [done|].
  f_equal. apply IH. simpl in H. by apply orb_false_iff in H as [_ H].
Qed.

(** A match is at least as long as the name and [.url]. *)
Lemma flake_pattern_short name t o r s :
  String.length s < 4 -> flake_pattern name t o r s = None.
Proof.
  intros Hs. destruct (flake_pattern name t o r s) eqn:E; [|done].
  apply flake_pattern_prefix, prefix_spec in E as [x ->].
  rewrite !length_append_str in Hs. simpl in Hs. lia.
Qed.

Lemma re_sub_fuel_nl name t o r repl n : re_sub_fuel n (flake_pattern name t o r) repl newline = newline.
Proof.
  destruct n as [|[|n]]; simpl; rewrite ?flake_pattern_short; simpl; auto with lia;
    destruct n; simpl; rewrite ?flake_pattern_short; simpl; auto with lia.
Qed.

Lemma skip_spaces_app sp x : all_chars is_sp sp = true -> skip_spaces (sp +:+ x) = skip_spaces x.
Proof.
  induction sp as [|c sp IH]; [done|]. simpl. unfold is_sp.
  destruct (Ascii.eqb c " "); [exact IH | done].
Qed.

Lemma line_rest_free tail : line_free tail = true -> line_rest (tail +:+ newline) = newline.
Proof.
  induction tail as [|c tail IH]; [done|]. simpl. unfold nl_char.
  destruct (Ascii.eqb c (ascii_of_nat 10)); [done | exact IH].
Qed.

Lemma skip_spaces_eq x : skip_spaces ("=" +:+ x) = "=" +:+ x.
Proof. reflexivity. Qed.

Lemma skip_spaces_dq x : skip_spaces (dq +:+ x) = dq +:+ x.
Proof. reflexivity. Qed.

Lemma bind_Some {A B} (x : A) (f : A -> option B) : (Some x ≫= f) = f x.
Proof. reflexivity. Qed.

(** A line that sets the input's url matches, up to its line break. *)
Lemma flake_pattern_line name t o r sp1 sp2 tail :
  all_chars is_sp sp1 = true -> all_chars is_sp sp2 = true -> line_free tail = true ->
  flake_pattern name t o r
    (name +:+ ".url" +:+ sp1 +:+ "=" +:+ sp2 +:+ dq +:+ t +:+ ":" +:+ o +:+ "/" +:+ r +:+ tail +:+ newline)
  = Some newline.
Proof.
  intros H1 H2 Ht. unfold flake_pattern.
  rewrite <- (append_assoc_str name ".url"), strip_prefix_app, bind_Some, skip_spaces_app by done.
  rewrite skip_spaces_eq, strip_prefix_app, bind_Some, skip_spaces_app, skip_spaces_dq by done.
  replace (dq +:+ t +:+ ":" +:+ o +:+ "/" +:+ r +:+ tail +:+ newline)
    with ((dq +:+ t +:+ ":" +:+ o +:+ "/" +:+ r) +:+ tail +:+ newline) by by rewrite !append_assoc_str.
  rewrite strip_prefix_app, bind_Some. unfold dot_star_end. by rewrite line_rest_free.
Qed.

(** Indentation is copied: no match starts at a space when the name does
    not start with one. *)
Lemma flake_pattern_space name t o r x :
  name <> "" -> String.prefix " " name = false -> flake_pattern name t o r (String " " x) = None.
Proof.
  intros Hn Hs. destruct (flake_pattern name t o r (String " " x)) eqn:E; [|done].
  apply flake_pattern_prefix, prefix_spec in E as [y Hy].
  destruct name as [|c n']; [done|]. rewrite !append_cons in Hy. injection Hy as <- _.
  simpl in Hs. by destruct n'.
Qed.

Lemma re_sub_fuel_spaces m repl ind s n :
  all_chars is_sp ind = true -> (forall x, m (String " " x) = None) ->
  re_sub_fuel (String.length ind + n) m repl (ind +:+ s) = ind +:+ re_sub_fuel n m repl s.
Proof.
  intros Hi Hm. induction ind as [|c ind IH]; [done|]. simpl in Hi |- *.
  apply andb_prop in Hi as [Hc Hi]. unfold is_sp in Hc. apply Ascii.eqb_eq in Hc as ->.
  rewrite append_cons, Hm, append_cons. by rewrite IH.
Qed.

Lemma res_bind_Ok {A B} (x : A) (f : A -> res B) : (Ok x ≫= f) = f x.
Proof. reflexivity. Qed.

(** ** The loop of the script *)
Lemma py_for_append (body : string -> SH unit) (F : string -> string) name l s cur :
  (forall x s, body x s = append_file name (F x) s) -> sh_files s !! name = Some cur ->
  py_for l body s = (Ok tt, set_file name (cur +:+ str_concat (List.map F l)) s).
Proof.
  intros Hb. revert s cur. induction l as [|x l IH]; intros s cur Hs; simpl.
  - by rewrite append_nil_r, set_file_same.
  - erewrite bind_Ok; [|rewrite Hb; unfold append_file; rewrite Hs; reflexivity].
    rewrite (IH _ (cur +:+ F x)) by (simpl; apply lookup_insert_eq).
    by rewrite set_file_twice, append_assoc_str.
Qed.

Lemma dict_get_Some {V} (d : gmap string V) k v : d !! k = Some v -> dict_get d k = Ok v.
Proof. unfold dict_get. by intros ->. Qed.

Lemma dict_get_None {V} (d : gmap string V) k : d !! k = None -> dict_get d k = Exn (KeyError k).
Proof. unfold dict_get. by intros ->. Qed.

Lemma map_re_sub_id name t o r repl l :
  Forall (fun x => contains (name +:+ ".url") x = false) l ->
  List.map (re_sub (flake_pattern name t o r) repl) l = l.
Proof. induction 1; cbn [List.map]; [done|]. f_equal; [by apply re_sub_fuel_id | done]. Qed.

Lemma readlines_nonempty s : s <> "" -> exists x l, readlines s = x :: l.
Proof.
  intros Hs. destruct (readlines s) as [|x l] eqn:E; [|by eauto].
  pose proof (readlines_concat s) as H. rewrite E in H. by apply universal_newlines_nonempty in Hs.
Qed.

(** ** The script's runs *)

Section UpdateInputRuns.
Variable json_nodes : string -> res lock_nodes.
Variables (flake rev text nix : string) (lock : lock_nodes) (s : shell).
Hypothesis Hlock : sh_files s !! "flake.lock" = Some text.
Hypothesis Hjson : json_nodes text = Ok lock.
Hypothesis Hnix : sh_files s !! "flake.nix" = Some nix.

(** Up to the loop: [flake.nix] is read, then emptied. *)
Lemma update_input_prefix (k : lock_nodes -> string -> SH unit) :
  (read_file "flake.lock" ≫= fun text => lift (json_nodes text) ≫= fun lock =>
   read_file "flake.nix" ≫= fun nix => open_w "flake.nix";; k lock nix) s =
  k lock nix (set_file "flake.nix" "" s).
Proof.
  rewrite (bind_Ok _ _ _ _ _ (read_file_Ok _ _ _ Hlock)).
  rewrite (bind_Ok _ _ _ lock s); [|by unfold lift; rewrite Hjson].
  by rewrite (bind_Ok _ _ _ _ _ (read_file_Ok _ _ _ Hnix)).
Qed.

(** The run of the script when the lock has the input. *)
Lemma update_input_run node meta t o r :
  lock !! flake = Some node -> node !! "locked" = Some meta ->
  meta !! "type" = Some t -> meta !! "owner" = Some o -> meta !! "repo" = Some r ->
  update_input json_nodes flake rev s =
    (Ok tt, ran (update_command flake)
              (set_file "flake.nix"
                 (str_concat (List.map (re_sub (flake_pattern flake t o r) (flake_url flake t o r rev))
                                (readlines nix))) s)).
Proof.
  intros Hn Hl Ht Ho Hr. unfold update_input.
  rewrite (update_input_prefix (fun lock nix => py_for (readlines nix) _;; _)).
  erewrite bind_Ok; [reflexivity|].
  rewrite (py_for_append _ (re_sub (flake_pattern flake t o r) (flake_url flake t o r rev))
             "flake.nix" _ _ "");
    [by rewrite set_file_twice | | simpl; apply lookup_insert_eq].
  intros x s'. unfold lift, update_line.
  rewrite (dict_get_Some _ _ _ Hn), res_bind_Ok, (dict_get_Some _ _ _ Hl).
  erewrite bind_Ok; [|reflexivity].
  rewrite (dict_get_Some _ _ _ Ht), res_bind_Ok, (dict_get_Some _ _ _ Ho), res_bind_Ok,
    (dict_get_Some _ _ _ Hr).
  by erewrite bind_Ok.
Qed.

(** C7: When the lock has the input with its [type], [owner] and [repo],
    the script succeeds: [flake.nix] becomes the concatenation of its
    lines, each passed through [re.sub] with the pattern and the new url,
    and [nix flake lock --update-input] is run once, after the file is
    written. *)
Theorem update_input_spec node meta t o r :
  lock !! flake = Some node -> node !! "locked" = Some meta ->
  meta !! "type" = Some t -> meta !! "owner" = Some o -> meta !! "repo" = Some r ->
  update_input json_nodes flake rev s =
    (Ok tt, ran (update_command flake)
              (set_file "flake.nix"
                 (str_concat (List.map (re_sub (flake_pattern flake t o r) (flake_url flake t o r rev))
                                (readlines nix))) s)).
Proof. apply update_input_run. Qed.

(** C19: When no line of [flake.nix] names the input's url, the script
    writes [flake.nix] back as Python read it: the text with its line
    breaks translated to line feeds ([\r\n] and [\r] become [\n]), and
    runs the [nix] command. *)
Theorem update_input_unrelated node meta t o r :
  lock !! flake = Some node -> node !! "locked" = Some meta ->
  meta !! "type" = Some t -> meta !! "owner" = Some o -> meta !! "repo" = Some r ->
  contains (flake +:+ ".url") (universal_newlines nix) = false ->
  update_input json_nodes flake rev s =
    (Ok tt, ran (update_command flake) (set_file "flake.nix" (universal_newlines nix) s)).
Proof.
  intros Hn Hl Ht Ho Hr Hc. rewrite (update_input_run node meta t o r) by done.
  rewrite map_re_sub_id, readlines_concat; [done|].
  apply contains_str_concat. by rewrite readlines_concat.
Qed.

(** C18: When the lock does not have the input, the script raises
    [KeyError] on the first line, after [open("flake.nix", "w")] has
    emptied the file: a non-empty [flake.nix] is lost, and [nix] is not
    run. *)
Theorem update_input_truncates :
  lock !! flake = None -> nix <> "" ->
  update_input json_nodes flake rev s = (Exn (KeyError flake), set_file "flake.nix" "" s).
Proof.
  intros Hn Hne. destruct (readlines_nonempty nix Hne) as (x & l & E). unfold update_input.
  rewrite (update_input_prefix (fun lock nix => py_for (readlines nix) _;; _)), E.
  cbn [py_for]. unfold lift. by rewrite (dict_get_None _ _ Hn).
Qed.
End UpdateInputRuns.

(** C20: A line that sets the input's url, [{name}.url = {dq}{type}:{owner}/{repo}...]
    with any spaces around [=] and anything after the repository up to
    the line break, is rewritten to point at the new revision; its
    indentation and its line break are kept. *)
Theorem update_line_rewrites name rev meta t o r ind sp1 sp2 tail :
  meta !! "type" = Some t -> meta !! "owner" = Some o -> meta !! "repo" = Some r ->
  name <> "" -> String.prefix " " name = false ->
  all_chars is_sp ind = true -> all_chars is_sp sp1 = true -> all_chars is_sp sp2 = true ->
  line_free tail = true ->
  update_line name rev meta
    (ind +:+ name +:+ ".url" +:+ sp1 +:+ "=" +:+ sp2 +:+ dq +:+ t +:+ ":" +:+ o +:+ "/" +:+ r +:+ tail +:+ newline)
  = Ok (ind +:+ flake_url name t o r rev +:+ newline).
Proof.
  intros Ht Ho Hr Hn Hs Hi H1 H2 Htl. unfold update_line.
  rewrite (dict_get_Some _ _ _ Ht), res_bind_Ok, (dict_get_Some _ _ _ Ho), res_bind_Ok,
    (dict_get_Some _ _ _ Hr), res_bind_Ok.
  f_equal. unfold re_sub. rewrite length_append_str, <- Nat.add_succ_r, re_sub_fuel_spaces
    by auto using flake_pattern_space.
  cbn [re_sub_fuel]. by rewrite flake_pattern_line, re_sub_fuel_nl.
Qed.

(** ** Witnesses *)

Definition example_meta : gmap string string :=
  <["type" := "github"]> (<["owner" := "tezos"]> (<["repo" := "tezos"]> ∅)).

Definition example_lock : lock_nodes := <["tezos" := <["locked" := example_meta]> ∅]> ∅.

Definition example_nix : string :=
  "{" +:+ newline +:+ "  inputs.tezos.url = " +:+ dq +:+ "github:tezos/tezos/v18.0" +:+ dq +:+ ";" +:+ newline +:+ "}" +:+ newline.

Definition example_shell : shell :=
  {| sh_env := ∅; sh_dirs := ∅; sh_which := ∅; sh_status := fun _ => 0%Z;
     sh_files := <["flake.lock" := "{}"]> (<["flake.nix" := example_nix]> ∅);
     sh_ran := []; sh_out := [] |}.

Definition example_json (lock : lock_nodes) : string -> res lock_nodes := fun _ => Ok lock.

Lemma update_input_spec_witness :
  update_input (example_json example_lock) "tezos" "v19.0" example_shell =
    (Ok tt, ran "nix flake lock --update-input tezos"
              (set_file "flake.nix"
                 ("{" +:+ newline +:+ "  inputs." +:+ flake_url "tezos" "github" "tezos" "tezos" "v19.0" +:+ newline +:+ "}" +:+ newline)
                 example_shell)).
Proof.
  rewrite (update_input_spec (example_json example_lock) "tezos" "v19.0" "{}" example_nix example_lock
             example_shell eq_refl eq_refl eq_refl (<["locked" := example_meta]> ∅) example_meta
             "github" "tezos" "tezos" eq_refl eq_refl eq_refl eq_refl eq_refl).
  vm_compute. reflexivity.
Defined.

Definition octez_lock : lock_nodes := <["octez" := <["locked" := example_meta]> ∅]> ∅.

Definition crlf : string := String cr_char newline.

(** [example_nix] with Windows line breaks. *)
Definition example_nix_crlf : string :=
  "{" +:+ crlf +:+ "  inputs.tezos.url = " +:+ dq +:+ "github:tezos/tezos/v18.0" +:+ dq +:+ ";" +:+ crlf +:+ "}" +:+ crlf.

Definition example_shell_crlf : shell := set_file "flake.nix" example_nix_crlf example_shell.

Lemma update_input_unrelated_witness :
  update_input (example_json octez_lock) "octez" "v19.0" example_shell_crlf =
    (Ok tt, ran "nix flake lock --update-input octez" (set_file "flake.nix" example_nix example_shell_crlf)).
Proof.
  rewrite (update_input_unrelated (example_json octez_lock) "octez" "v19.0" "{}" example_nix_crlf octez_lock
    example_shell_crlf eq_refl eq_refl eq_refl (<["locked" := example_meta]> ∅) example_meta
    "github" "tezos" "tezos" eq_refl eq_refl eq_refl eq_refl eq_refl eq_refl).
  reflexivity.
Defined.

Lemma update_input_truncates_witness :
  update_input (example_json octez_lock) "tezos" "v19.0" example_shell =
    (Exn (KeyError "tezos"), set_file "flake.nix" "" example_shell).
Proof.
  apply (update_input_truncates (example_json octez_lock) "tezos" "v19.0" "{}" example_nix octez_lock
    example_shell eq_refl eq_refl eq_refl eq_refl). discriminate.
Defined.

Lemma update_line_rewrites_witness :
  update_line "tezos" "v19.0" example_meta
    ("  tezos.url  =  " +:+ dq +:+ "github:tezos/tezos/v18.0" +:+ dq +:+ ";" +:+ newline) =
  Ok ("  " +:+ flake_url "tezos" "github" "tezos" "tezos" "v19.0" +:+ newline).
Proof.
  exact (update_line_rewrites "tezos" "v19.0" example_meta "github" "tezos" "tezos" "  " "  " "  "
    ("/v18.0" +:+ dq +:+ ";") eq_refl eq_refl eq_refl ltac:(discriminate) eq_refl eq_refl eq_refl eq_refl
    eq_refl).
Defined.
