(* ===== verification/PackageGen.v ===== *)
(** * PackageGen: [src/docker/package/package_generator.py]

    The package generator builds Ubuntu or Fedora packages of the Octez
    binaries inside the build container.  [main] parses its arguments,
    collects the dependencies, looks the requested packages up, and, for
    source packages, finds each package's source archive: in the
    directory given by [--sources-dir], or by downloading it from
    Launchpad.  A missing archive is an error, and the errors are printed
    before [sys.exit(1)].  Otherwise it builds every package and copies
    the artifacts, the files of the build directory with the expected
    extensions, into [out].

    - [pg_args] is the [argparse] namespace; [package] holds the attributes
      of a package object that [main] reads and sets.
    - The package table ([packages.py]) and the builders ([ubuntu.py],
      [fedora.py]) are not under [src/]: they are the parameters
      [all_packages], [build_ubuntu_package] and [build_fedora_package] of
      the section [PackageGen], with [urllib.request.urlretrieve] and
      [os.path.realpath].
    - [check_local_sources] is the loop of lines 147-160,
      [download_sources] the loop of lines 162-189, [copy_artifacts] the
      loop of lines 228-231, [pg_main] the whole of [main].

    Package objects are shared between [all_packages] and [packages] in
    the code; the model keeps them as values.  [main] reads a package's
    [source_archive] only through [packages], and the same object listed
    twice gets the same updates in both models, so this changes nothing
    that [main] observes. *)

From S2P Require Import Prelude Runtime Control Shell.

(** ** Arguments and packages *)

(** Lines 16-48: [--os] and [--type] are required, [--packages] and
    [--distributions] are lists or [None], the directories are optional
    ([os.path.abspath] of what is given). *)
Record pg_args := mkPgArgs {
  a_os : string;
  a_type : string;
  a_packages : option (list string);
  a_distributions : option (list string);
  a_binaries_dir : option string;
  a_sources_dir : option string;
  a_launchpad_sources : bool
}.

(** The attributes of a package object: [name], [meta.version],
    [meta.release], [letter_version] ([getattr(..., None)]) and
    [source_archive], which [main] sets. *)
Record package := mkPackage {
  p_name : string;
  p_version : string;
  p_release : string;
  p_letter_version : option string;
  p_source_archive : option string
}.

Definition set_source_archive (p : package) (a : string) : package :=
  {| p_name := p_name p; p_version := p_version p; p_release := p_release p;
     p_letter_version := p_letter_version p; p_source_archive := Some a |}.

(** ** Dependencies *)

Definition get_ubuntu_run_deps (binaries_dir : option string) : list string :=
  if truthy_opt binaries_dir then []
  else ["libev-dev"; "libgmp-dev"; "libhidapi-dev"; "libffi-dev"; "zlib1g-dev"; "libpq-dev"].

Definition get_fedora_run_deps (binaries_dir : option string) : list string :=
  if truthy_opt binaries_dir then []
  else ["libev-devel"; "gmp-devel"; "hidapi-devel"; "libffi-devel"; "zlib-devel"; "libpq-devel"].

Definition get_build_deps (binaries_dir : option string) : list string :=
  if truthy_opt binaries_dir then ["make"; "wget"]
  else ["make"; "cmake"; "m4"; "perl"; "pkg-config"; "wget"; "unzip"; "rsync"; "gcc"; "cargo";
        "opam"; "git"; "autoconf"; "coreutils"].

(** ** Source archives *)

Definition output_dir : string := "out".

(** Lines 148-150 and 172. *)
Definition source_archive_name (p : package) : string :=
  lower (p_name p) +:+ "_" +:+ p_version p +:+ ".orig.tar.gz".

Definition missing_source_error (p : package) : string :=
  "ERROR: supplied source dir does not contain source archive for " +:+ p_name p.

Definition str_elem (x : string) (l : list string) : bool := existsb (String.eqb x) l.

(** Lines 147-160: the archive found in [--sources-dir] is attached to
    the package; a package without one is an error, unless it has a
    [letter_version]. *)
Fixpoint check_local_sources (sources_dir : string) (archives : list string)
    (packages : list package) : list package * list string :=
  match packages with
  | [] => ([], [])
  | p :: ps =>
      let '(ps', errs) := check_local_sources sources_dir archives ps in
      let a := source_archive_name p in
      if str_elem a archives then (set_source_archive p (os_path_join sources_dir a) :: ps', errs)
      else if bool_decide (p_letter_version p = None) then (p :: ps', missing_source_error p :: errs)
      else (p :: ps', errs)
  end.

(** Lines 164-171: [release] is read and not used. *)
Definition launchpad_url (p : package) (dist : string) : string :=
  let version := p_version p in
  let repo := if contains "rc" version then "tezos-rc" else "tezos" in
  let name := lower (p_name p) in
  "https://launchpad.net/~serokell/+archive/ubuntu/" +:+ repo +:+ "/+sourcefiles/" +:+ name +:+
  "/2:" +:+ version +:+ "-0ubuntu1~" +:+ dist +:+ "/" +:+ name +:+ "_" +:+ version +:+ ".orig.tar.gz".

Definition unavailable_error (p : package) : string :=
  "ERROR: source archive for " +:+ p_name p +:+ " is not available".

(** [except (urllib.error.URLError, ValueError)]. *)
Definition download_caught (e : exn) : bool :=
  match e with URLError _ | ValueError _ => true | _ => false end.

(** [distributions[0]]. *)
Definition py_head {A} (l : list A) : res A :=
  match l with x :: _ => Ok x | [] => Exn IndexError end.

(** [shutil.copy(src, dst)]. *)
Definition shutil_copy (src dst : string) : SH unit :=
  c ← read_file src; write_file dst c.

(** [os.makedirs(d, exist_ok=True)]: the directory exists afterwards. *)
Definition makedirs (d : string) : SH unit := fun s =>
  (Ok tt, {| sh_env := sh_env s; sh_dirs := match sh_dirs s !! d with
                                            | Some _ => sh_dirs s
                                            | None => <[d := []]> (sh_dirs s) end;
             sh_which := sh_which s; sh_status := sh_status s; sh_files := sh_files s;
             sh_ran := sh_ran s; sh_out := sh_out s |}).

(** [list(x)] and [for x in x] of an optional list: [None] is not
    iterable. *)
Definition py_list {A} (o : option (list A)) : res (list A) :=
  match o with Some l => Ok l | None => Exn (TypeError "'NoneType' object is not iterable") end.

(** [all_packages[name]] for each name, in order. *)
Fixpoint lookup_all {V} (d : gmap string V) (names : list string) : res (list V) :=
  match names with
  | [] => Ok []
  | n :: ns => match d !! n with
               | Some v => vs ← lookup_all d ns; Ok (v :: vs)
               | None => Exn (KeyError n)
               end
  end.

(** Lines 228-231: every file of the listing is copied into [out] once
    for each extension it ends with. *)
Definition copy_artifacts (artifacts_dir : string) (exts files : list string) : SH unit :=
  py_for files (fun f =>
    py_for exts (fun ext =>
      if endswith f ext then shutil_copy (artifacts_dir +:+ "/" +:+ f) (os_path_join output_dir f)
      else mret tt)).

Section PackageGen.
Variable all_packages : gmap string package.
(** [build_ubuntu_package(package, distributions, common_deps, is_source,
    source_archive, binaries_dir)]. *)
Variable build_ubuntu_package :
  package -> list string -> list string -> bool -> option string -> option string -> SH unit.
(** [build_fedora_package(package, build_deps, run_deps, is_source,
    distributions, binaries_dir)]. *)
Variable build_fedora_package :
  package -> list string -> list string -> bool -> list string -> option string -> SH unit.
(** [urllib.request.urlretrieve(url, filename, progress)]: the progress
    lines it prints are part of it. *)
Variable urlretrieve : string -> string -> SH unit.
Variable realpath : string -> string.

(** One round of lines 163-189. *)
Definition download_source (distributions : list string) (p : package) : SH (package * list string) :=
  if bool_decide (p_letter_version p = None) then
    dist ← lift (py_head distributions);
    let archive := source_archive_name p in
    py_try
      (urlretrieve (launchpad_url p dist) archive;;
       sh_print (p_name p +:+ " source was downloaded successfully");;
       mret (set_source_archive p (realpath archive), []))
      (fun e => if download_caught e then mret (p, [unavailable_error p]) else mthrow e)
  else mret (p, []).

Fixpoint download_sources (distributions : list string) (packages : list package)
    : SH (list package * list string) :=
  match packages with
  | [] => mret ([], [])
  | p :: ps =>
      '(p', e) ← download_source distributions p;
      '(ps', es) ← download_sources distributions ps;
      mret (p' :: ps', e ++ es)
  end.

(** Lines 144-192: the source archives, and the exit on errors. *)
Definition find_sources (a : pg_args) (source_archives distributions : list string)
    (packages : list package) : SH (list package) :=
  '(packages, errors) ←
    (if bool_decide (source_archives <> []) then
       mret (check_local_sources (default "" (a_sources_dir a)) source_archives packages)
     else if a_launchpad_sources a then download_sources distributions packages
     else mret (packages, []));
  if bool_decide (errors <> []) then
    sh_print (newline +:+ join_str newline errors +:+ newline);; mthrow (SystemExit 1)
  else mret packages.

(** [main()]. *)
Definition pg_main (a : pg_args) : SH unit :=
  let target_os := a_os a in
  let is_source := String.eqb (a_type a) "source" in
  source_archives ← (if truthy_opt (a_sources_dir a) then listdir (default "" (a_sources_dir a))
                     else mret []);
  let binaries_dir := a_binaries_dir a in
  run_deps ← (if String.eqb target_os "ubuntu" then mret (get_ubuntu_run_deps binaries_dir)
              else if String.eqb target_os "fedora" then mret (get_fedora_run_deps binaries_dir)
              else mthrow (NameError "run_deps"));
  let build_deps := get_build_deps binaries_dir in
  let common_deps := run_deps ++ build_deps in
  home ← environ "HOME";
  makedirs output_dir;;
  distributions ← lift (py_list (a_distributions a));
  names ← lift (py_list (a_packages a));
  packages ← lift (lookup_all all_packages names);
  packages ← (if is_source then find_sources a source_archives distributions packages
              else mret packages);
  '(exts, artifacts_dir) ←
    (if String.eqb target_os "ubuntu" then
       py_for packages (fun p =>
         build_ubuntu_package p distributions common_deps is_source (p_source_archive p) binaries_dir);;
       mret (if is_source then [".orig.tar.gz"; ".dsc"; ".changes"; ".debian.tar.xz"; ".buildinfo"]
             else [".deb"], ".")
     else if String.eqb target_os "fedora" then
       py_for packages (fun p =>
         build_fedora_package p build_deps run_deps is_source distributions binaries_dir);;
       mret (if is_source then [".src.rpm"] else [".rpm"],
             home +:+ "/rpmbuild/" +:+ (if is_source then "SRPMS" else "RPMS/x86_64"))
     else mthrow (NameError "artifacts_dir"));
  files ← listdir artifacts_dir;
  copy_artifacts artifacts_dir exts files.
End PackageGen.

(** ** The source check *)

(** What the loop of lines 147-160 does to one package, and whether the
    package is an error. *)
Definition attach_source (d : string) (archives : list string) (p : package) : package :=
  if str_elem (source_archive_name p) archives
  then set_source_archive p (os_path_join d (source_archive_name p)) else p.

Definition source_missing (archives : list string) (p : package) : bool :=
  negb (str_elem (source_archive_name p) archives) && bool_decide (p_letter_version p = None).

(** The local source check as a map and a filter. *)
Lemma check_local_sources_map d archives ps :
  check_local_sources d archives ps =
    (List.map (attach_source d archives) ps,
     List.map missing_source_error (List.filter (source_missing archives) ps)).
Proof.
  induction ps as [|p ps IH]; [done|]. cbn [check_local_sources List.map List.filter].
  rewrite IH. unfold attach_source, source_missing.
  destruct (str_elem _ _); [done|]. simpl. by case_bool_decide.
Qed.

(** C9: The local source check is a map and a filter: every package whose
    archive [{name.lower()}_{version}.orig.tar.gz] is in the directory
    gets that archive, and the errors name, in the order of the packages,
    exactly the packages that have no archive and no [letter_version]. *)
Theorem check_local_sources_spec d archives ps :
  check_local_sources d archives ps =
    (List.map (attach_source d archives) ps,
     List.map missing_source_error (List.filter (source_missing archives) ps)).
Proof. apply check_local_sources_map. Qed.

(** ** The artifact copy *)
Lemma shutil_copy_twice src dst s :
  (shutil_copy src dst;; shutil_copy src dst) s = shutil_copy src dst s.
Proof.
  unfold shutil_copy, write_file, read_file, open_w, append_file, mbind, PyM_bind.
  destruct (sh_files s !! src) as [c|] eqn:E; [|done]. simpl.
  rewrite lookup_insert_eq. simpl. rewrite append_nil_l.
  assert (<[dst:=c]> (<[dst:=""]> (sh_files s)) !! src = Some c) as ->.
  { destruct (decide (dst = src)) as [->|Hne]; [by rewrite lookup_insert_eq|].
    by rewrite !lookup_insert_ne. }
  simpl. rewrite lookup_insert_eq. simpl. by rewrite append_nil_l, !set_file_twice.
Qed.

(** Copying a file once for each extension it ends with is copying it
    once when it ends with one of them. *)
Lemma copy_exts_once (C : SH unit) f exts s :
  (forall s, (C;; C) s = C s) ->
  py_for exts (fun ext => if endswith f ext then C else mret tt) s =
  (if existsb (endswith f) exts then C else mret tt) s.
Proof.
  intros HC. revert s. induction exts as [|ext exts IH]; intros s; [done|]. cbn [py_for existsb].
  rewrite (bind_ext _ _ _ _ (fun _ => IH)).
  destruct (endswith f ext), (existsb (endswith f) exts); simpl; auto using bind_ret_unit.
Qed.

(** The reference: each file of the listing that ends with one of the
    extensions is copied once. *)
Definition copy_matching (artifacts_dir : string) (exts files : list string) : SH unit :=
  py_for files (fun f =>
    if existsb (endswith f) exts
    then shutil_copy (artifacts_dir +:+ "/" +:+ f) (os_path_join output_dir f) else mret tt).

(** The copy loop as the copy of the matching files. *)
Lemma copy_artifacts_matching dir exts files s :
  copy_artifacts dir exts files s = copy_matching dir exts files s.
Proof.
  revert s. induction files as [|f files IH]; intros s; [done|]. cbn [py_for].
  unfold copy_artifacts, copy_matching in *. cbn [py_for].
  rewrite (bind_ext _ _ _ _ (fun _ => IH)).
  unfold mbind, PyM_bind. rewrite copy_exts_once by apply shutil_copy_twice. done.
Qed.

(** C22: The copy loop of lines 228-231 copies into [out], once, exactly the
    files of the listing that end with one of the extensions, in the
    order of the listing, and fails where that copy fails. *)
Theorem copy_artifacts_once dir exts files s :
  copy_artifacts dir exts files s = copy_matching dir exts files s.
Proof. apply copy_artifacts_matching. Qed.

(** ** The run of [main] *)
Lemma environ_bind {B} k v (f : string -> SH B) s :
  sh_env s !! k = Some v -> (environ k ≫= f) s = f v s.
Proof. intros H. unfold environ, mbind, PyM_bind. by rewrite H. Qed.

Lemma lift_bind {A B} (r : res A) (f : A -> SH B) s :
  (lift r ≫= f) s = match r with Ok a => f a s | Exn e => (Exn e, s) end.
Proof. by destruct r. Qed.

Lemma find_sources_local url rp a d archives ds ps s :
  a_sources_dir a = Some d -> archives <> [] ->
  List.filter (source_missing archives) ps <> [] ->
  find_sources url rp a archives ds ps s =
    (Exn (SystemExit 1),
     (sh_print (newline +:+ join_str newline
                  (List.map missing_source_error (List.filter (source_missing archives) ps)) +:+ newline) s).2).
Proof.
  intros Hd Ha He. unfold find_sources. rewrite bool_decide_eq_true_2 by done.
  erewrite bind_Ok; [|reflexivity]. rewrite Hd, check_local_sources_map. simpl.
  rewrite bool_decide_eq_true_2 by (intros Hm; apply He; by apply map_eq_nil in Hm). done.
Qed.

(** C8: For source packages with a [--sources-dir] that lacks the archive
    of a package that has no [letter_version], [main] prints the errors,
    one per line between two line breaks, and exits with status 1 right
    after creating [out]: no builder is called and nothing is copied,
    whatever the builders do. *)
Theorem pg_main_missing_sources all ub fb url rp a d archives home ds names ps s :
  a_type a = "source" -> String.eqb (a_os a) "ubuntu" || String.eqb (a_os a) "fedora" = true ->
  a_sources_dir a = Some d -> d <> "" -> sh_dirs s !! d = Some archives -> archives <> [] ->
  sh_env s !! "HOME" = Some home -> a_distributions a = Some ds -> a_packages a = Some names ->
  lookup_all all names = Ok ps -> List.filter (source_missing archives) ps <> [] ->
  pg_main all ub fb url rp a s =
    (Exn (SystemExit 1),
     (sh_print (newline +:+ join_str newline
                  (List.map missing_source_error (List.filter (source_missing archives) ps)) +:+ newline)
        (makedirs output_dir s).2).2).
Proof.
  intros Ht Hos Hs Hd Hdir Ha Hh Hdist Hp Hl He. unfold pg_main.
  rewrite Hs. cbn [truthy_opt default]. rewrite (proj2 (String.eqb_neq d "") Hd). simpl negb.
  cbv iota. unfold id. rewrite listdir_bind, Hdir.
  destruct (String.eqb (a_os a) "ubuntu"); [|destruct (String.eqb (a_os a) "fedora"); [|done]];
    erewrite bind_Ok; try reflexivity; cbv beta; rewrite (environ_bind _ _ _ _ Hh);
    erewrite bind_Ok; try reflexivity; cbv beta;
    rewrite lift_bind, Hdist; cbn [py_list]; rewrite lift_bind, Hp; cbn [py_list];
    rewrite lift_bind, Hl, Ht, String.eqb_refl;
    (erewrite bind_Exn; [done|]); by apply (find_sources_local _ _ _ d).
Qed.

(** ** The downloads *)

Section Downloads.
Variables (urlretrieve : string -> string -> SH unit) (realpath : string -> string).
(** Launchpad serves the archives at the urls [available] accepts, and
    answers [URLError] at the others. *)
Variable available : string -> bool.
Hypothesis Hurl : forall u f s,
  urlretrieve u f s = if available u then (Ok tt, s) else (Exn (URLError "Not Found"), s).
Variables (dist : string) (ds : list string).

Definition fetched (p : package) : bool :=
  bool_decide (p_letter_version p = None) && available (launchpad_url p dist).

Definition download_attach (p : package) : package :=
  if fetched p then set_source_archive p (realpath (source_archive_name p)) else p.

Definition download_failed (p : package) : bool :=
  bool_decide (p_letter_version p = None) && negb (available (launchpad_url p dist)).

Lemma download_source_run p s :
  exists s', download_source urlretrieve realpath (dist :: ds) p s =
    (Ok (download_attach p, if download_failed p then [unavailable_error p] else []), s').
Proof.
  unfold download_source, download_attach, download_failed, fetched.
  case_bool_decide; simpl; [|by eexists].
  rewrite lift_bind. cbn [py_head]. destruct (available (launchpad_url p dist)) eqn:E; simpl.
  - eexists. apply py_try_Ok. rewrite (bind_Ok _ _ _ tt s); [reflexivity|]. by rewrite Hurl, E.
  - eexists. rewrite (py_try_Exn _ _ _ (URLError "Not Found") s); [reflexivity| |done].
    rewrite (bind_Exn _ _ _ (URLError "Not Found") s); [done|]. by rewrite Hurl, E.
Qed.

(** C21: Downloading the sources from Launchpad (lines 162-189) attaches
    to every package without a [letter_version] the archive fetched from
    its url for the first distribution, and records, in the order of the
    packages, one error for each package whose download fails with
    [URLError]; a failed download does not stop the loop. *)
Theorem download_sources_spec ps s :
  exists s', download_sources urlretrieve realpath (dist :: ds) ps s =
    (Ok (List.map download_attach ps,
         List.map unavailable_error (List.filter download_failed ps)), s').
Proof.
  revert s. induction ps as [|p ps IH]; intros s; [by eexists|]. cbn [download_sources].
  destruct (download_source_run p s) as [s1 E1]. rewrite (bind_Ok _ _ _ _ _ E1).
  destruct (IH s1) as [s2 E2]. rewrite (bind_Ok _ _ _ _ _ E2). eexists. simpl.
  by destruct (download_failed p).
Qed.
End Downloads.

(** C23: A binary build for Ubuntu runs the Ubuntu builder on every
    requested package, in order, with the distributions, the run and build
    dependencies and no source archive, and then copies into [out] each
    [.deb] file of the working directory once. *)
Theorem pg_main_ubuntu_binary all ub fb url rp a home ds names ps s :
  a_os a = "ubuntu" -> String.eqb (a_type a) "source" = false -> a_sources_dir a = None ->
  sh_env s !! "HOME" = Some home -> a_distributions a = Some ds -> a_packages a = Some names ->
  lookup_all all names = Ok ps ->
  let bd := a_binaries_dir a in
  pg_main all ub fb url rp a s =
    (py_for ps (fun p => ub p ds (get_ubuntu_run_deps bd ++ get_build_deps bd) false (p_source_archive p) bd);;
     files ← listdir "."; copy_matching "." [".deb"] files) (makedirs output_dir s).2.
Proof.
  intros Hos Ht Hs Hh Hdist Hp Hl bd. unfold pg_main. rewrite Hs, Hos, Ht, String.eqb_refl. cbn [truthy_opt].
  erewrite bind_Ok; [|reflexivity]. cbv beta. erewrite bind_Ok; [|reflexivity]. cbv beta.
  rewrite (environ_bind _ _ _ _ Hh). erewrite bind_Ok; [|reflexivity]. cbv beta.
  rewrite lift_bind, Hdist; cbn [py_list]; rewrite lift_bind, Hp; cbn [py_list]; rewrite lift_bind, Hl.
  erewrite bind_Ok; [|reflexivity]. cbv beta. rewrite !bind_assoc_run. apply bind_ext. intros [] s'.
  erewrite bind_Ok; [|reflexivity]. cbv beta. apply bind_ext. intros files s''. apply copy_artifacts_matching.
Qed.

Lemma find_sources_none url rp a ds ps s :
  a_launchpad_sources a = false -> find_sources url rp a [] ds ps s = (Ok ps, s).
Proof. intros Hl. unfold find_sources. rewrite bool_decide_eq_false_2 by (intros H; by apply H). by rewrite Hl. Qed.

(** C39: A source build for Fedora with no [--sources-dir] and no
    [--launchpad-sources] runs the Fedora builder on every requested
    package, in order, with the build dependencies, then the run
    dependencies, the source flag, the distributions and the binaries
    directory, and then copies into [out] each [.src.rpm] file of
    [$HOME/rpmbuild/SRPMS] once. *)
Theorem pg_main_fedora_source all ub fb url rp a home ds names ps s :
  a_os a = "fedora" -> a_type a = "source" -> a_sources_dir a = None -> a_launchpad_sources a = false ->
  sh_env s !! "HOME" = Some home -> a_distributions a = Some ds -> a_packages a = Some names ->
  lookup_all all names = Ok ps ->
  let bd := a_binaries_dir a in
  pg_main all ub fb url rp a s =
    (py_for ps (fun p => fb p (get_build_deps bd) (get_fedora_run_deps bd) true ds bd);;
     files ← listdir (home +:+ "/rpmbuild/SRPMS");
     copy_matching (home +:+ "/rpmbuild/SRPMS") [".src.rpm"] files) (makedirs output_dir s).2.
Proof.
  intros Hos Ht Hs Hlp Hh Hdist Hp Hl bd. unfold pg_main. rewrite Hs, Hos, Ht, !String.eqb_refl. cbn [truthy_opt].
  change (String.eqb "fedora" "ubuntu") with false.
  erewrite bind_Ok; [|reflexivity]. cbv beta iota. erewrite bind_Ok; [|reflexivity]. cbv beta.
  rewrite (environ_bind _ _ _ _ Hh). erewrite bind_Ok; [|reflexivity]. cbv beta.
  rewrite lift_bind, Hdist; cbn [py_list]; rewrite lift_bind, Hp; cbn [py_list]; rewrite lift_bind, Hl.
  erewrite bind_Ok; [|by apply find_sources_none]. cbv beta iota.
  rewrite !bind_assoc_run. apply bind_ext. intros [] s'.
  erewrite bind_Ok; [|reflexivity]. cbv beta. apply bind_ext. intros files s''. apply copy_artifacts_matching.
Qed.

(** ** Witnesses *)

Definition octez_client_pkg : package :=
  {| p_name := "Octez-client"; p_version := "19.0"; p_release := "1";
     p_letter_version := None; p_source_archive := None |}.

Definition example_packages : gmap string package := <["octez-client" := octez_client_pkg]> ∅.

Definition no_ubuntu_build (p : package) (ds deps : list string) (src : bool)
    (archive bin : option string) : SH unit := mret tt.

Definition no_fedora_build (p : package) (build run : list string) (src : bool)
    (ds : list string) (bin : option string) : SH unit := mret tt.

Definition example_args (ty : string) (src : option string) : pg_args :=
  {| a_os := "ubuntu"; a_type := ty; a_packages := Some ["octez-client"];
     a_distributions := Some ["jammy"]; a_binaries_dir := None; a_sources_dir := src;
     a_launchpad_sources := false |}.

Definition build_shell : shell :=
  {| sh_env := <["HOME" := "/root"]> ∅;
     sh_dirs := <["/src" := ["octez-node_19.0.orig.tar.gz"]]> (<["." := ["octez-client.deb"; "notes.txt"]]> ∅);
     sh_which := ∅; sh_status := fun _ => 0%Z;
     sh_files := <["./octez-client.deb" := "deb"]> ∅; sh_ran := []; sh_out := [] |}.

Lemma pg_main_missing_sources_witness :
  pg_main example_packages no_ubuntu_build no_fedora_build (fun _ _ => mret tt) (fun f => f)
    (example_args "source" (Some "/src")) build_shell =
  (Exn (SystemExit 1),
   (sh_print (newline +:+ missing_source_error octez_client_pkg +:+ newline)
      (makedirs output_dir build_shell).2).2).
Proof.
  apply (pg_main_missing_sources example_packages no_ubuntu_build no_fedora_build (fun _ _ => mret tt) (fun f => f)
           (example_args "source" (Some "/src")) "/src" ["octez-node_19.0.orig.tar.gz"] "/root"
           ["jammy"] ["octez-client"] [octez_client_pkg] build_shell);
    (reflexivity || discriminate).
Defined.

Lemma download_sources_spec_witness :
  exists s', download_sources (fun _ _ s => (Exn (URLError "Not Found"), s)) (fun f => f) ["jammy"]
               [octez_client_pkg] build_shell =
    (Ok ([octez_client_pkg], [unavailable_error octez_client_pkg]), s').
Proof.
  apply (download_sources_spec (fun _ _ s => (Exn (URLError "Not Found"), s)) (fun f => f)
           (fun _ => false) (fun _ _ _ => eq_refl) "jammy" [] [octez_client_pkg] build_shell).
Defined.

Lemma pg_main_ubuntu_binary_witness :
  pg_main example_packages no_ubuntu_build no_fedora_build (fun _ _ => mret tt) (fun f => f)
    (example_args "binary" None) build_shell =
  (py_for [octez_client_pkg] (fun p => no_ubuntu_build p ["jammy"]
     (get_ubuntu_run_deps None ++ get_build_deps None) false (p_source_archive p) None);;
   files ← listdir "."; copy_matching "." [".deb"] files) (makedirs output_dir build_shell).2.
Proof.
  apply (pg_main_ubuntu_binary example_packages no_ubuntu_build no_fedora_build (fun _ _ => mret tt) (fun f => f)
           (example_args "binary" None) "/root" ["jammy"] ["octez-client"] [octez_client_pkg] build_shell);
    reflexivity.
Defined.

Definition fedora_args : pg_args :=
  {| a_os := "fedora"; a_type := "source"; a_packages := Some ["octez-client"];
     a_distributions := Some ["39"]; a_binaries_dir := None; a_sources_dir := None;
     a_launchpad_sources := false |}.

Lemma pg_main_fedora_source_witness :
  pg_main example_packages no_ubuntu_build no_fedora_build (fun _ _ => mret tt) (fun f => f)
    fedora_args build_shell =
  (py_for [octez_client_pkg] (fun p => no_fedora_build p (get_build_deps None) (get_fedora_run_deps None)
     true ["39"] None);;
   files ← listdir ("/root" +:+ "/rpmbuild/SRPMS");
   copy_matching ("/root" +:+ "/rpmbuild/SRPMS") [".src.rpm"] files) (makedirs output_dir build_shell).2.
Proof.
  apply (pg_main_fedora_source example_packages no_ubuntu_build no_fedora_build (fun _ _ => mret tt) (fun f => f)
           fedora_args "/root" ["39"] ["octez-client"] [octez_client_pkg] build_shell);
    reflexivity.
Defined.
